(** * arxivDIGESTables: table reconstruction and quality filtering

    A shallow embedding of [src/data/data_processing/extract_tables.py] and
    of the aspect classifier of [src/data/data_processing/summarize_dataset.py],
    with the properties the specification states about them.

    Modelling conventions.
    - A Python [str] is a [string] holding the UTF-8 bytes of the text.  The
      character classes [\d], [\s] and the methods [str.strip], [str.lower],
      [str.split] are the ASCII ones; bytes above 127 are carried unchanged.
      Literals of the source that are not ASCII (check marks, dashes, the
      tilde operator) are written as they are and stand for their bytes.
    - A parsed table (the BeautifulSoup tree after [soupify]) is a list of
      rows, a row a list of cells; a cell carries its text, its optional
      [cols] attribute and its [cit] children.  No table is nested in a
      cell: the cells of a row are its own and each [cit] lies under one
      cell.  In [ExtractTables] the attribute is the natural number [int]
      reads from it; [AnyCols] has the attribute as the markup may have it,
      a negative number or a text that is no number included, and the
      functions of [soup_to_json] on such cells.
    - A pandas [DataFrame] of strings is the ordered list of its columns,
      each a label with its values; labels may repeat.  The operations of
      pandas the source calls ([rename], [insert], selection by a list of
      labels, assignment to a label, [set_index], [transpose],
      [reset_index], [to_dict]) are written out on this list.
    - The ids of the full-text allow-list, which the source reads from
      files, are an argument of [get_high_quality_tables].
    - A Python [dict] is an association list with distinct keys in insertion
      order.
    - A raised exception is the [Raise] result of the error monad [res]. *)

From Stdlib Require Import String Ascii List Bool Arith ZArith Lia DecimalString
  DecimalNat.
Import ListNotations.
Open Scope string_scope.
Open Scope list_scope.
Open Scope nat_scope.

Infix "+++" := String.append (at level 60, right associativity).

(** ** Exceptions and the error monad *)

Inductive exn : Type :=
| KeyError
| IndexError
| ValueError
| AssertionError.

Inductive res (A : Type) : Type :=
| Ok (a : A)
| Raise (e : exn).
Arguments Ok {A} a.
Arguments Raise {A} e.

Definition bind {A B : Type} (m : res A) (k : A -> res B) : res B :=
  match m with
  | Ok a => k a
  | Raise e => Raise e
  end.

Notation "x <- m ;; k" := (bind m (fun x => k))
  (at level 61, m at next level, right associativity).

Definition is_ok {A : Type} (m : res A) : bool :=
  match m with Ok _ => true | Raise _ => false end.

(** ** Python strings *)

Module PyStr.

Definition is_space (c : ascii) : bool :=
  let n := nat_of_ascii c in
  ((9 <=? n) && (n <=? 13)) || ((28 <=? n) && (n <=? 32)).

Definition is_digit (c : ascii) : bool :=
  let n := nat_of_ascii c in (48 <=? n) && (n <=? 57).

Definition digit_value (c : ascii) : nat := nat_of_ascii c - 48.

Definition is_upper (c : ascii) : bool :=
  let n := nat_of_ascii c in (65 <=? n) && (n <=? 90).

Definition lower_char (c : ascii) : ascii :=
  if is_upper c then ascii_of_nat (nat_of_ascii c + 32) else c.

(** [s.lower()] *)
Fixpoint lower (s : string) : string :=
  match s with
  | EmptyString => EmptyString
  | String c r => String (lower_char c) (lower r)
  end.

Definition is_empty (s : string) : bool :=
  match s with EmptyString => true | _ => false end.

(** Truth value of a string: [bool(s)]. *)
Definition truthy (s : string) : bool := negb (is_empty s).

Fixpoint lstrip (s : string) : string :=
  match s with
  | EmptyString => EmptyString
  | String c r => if is_space c then lstrip r else s
  end.

Fixpoint rstrip (s : string) : string :=
  match s with
  | EmptyString => EmptyString
  | String c r =>
      let r' := rstrip r in
      if is_space c && is_empty r' then EmptyString else String c r'
  end.

(** [s.strip()] *)
Definition strip (s : string) : string := rstrip (lstrip s).

(** [s.startswith(p)] *)
Fixpoint startswith (p s : string) : bool :=
  match p, s with
  | EmptyString, _ => true
  | String a p', String b s' => Ascii.eqb a b && startswith p' s'
  | String _ _, EmptyString => false
  end.

Fixpoint drop (n : nat) (s : string) : string :=
  match n, s with
  | O, _ => s
  | S k, String _ r => drop k r
  | S _, EmptyString => EmptyString
  end.

Fixpoint take (n : nat) (s : string) : string :=
  match n, s with
  | S k, String c r => String c (take k r)
  | _, _ => EmptyString
  end.

(** [p in s] *)
Fixpoint contains (p s : string) : bool :=
  startswith p s ||
  match s with
  | EmptyString => false
  | String _ r => contains p r
  end.

(** A regular expression of the source is embedded as its matcher at the
    start of a text: [m s = Some n] when the expression matches the first
    [n] characters of [s] (the match the backtracking engine of [re]
    selects there), [None] when it does not match at that position. *)
Definition matcher : Type := string -> option nat.

(** [re.search(m, s) is not None] *)
Fixpoint re_search (m : matcher) (s : string) : bool :=
  match m s with
  | Some _ => true
  | None =>
      match s with
      | EmptyString => false
      | String _ r => re_search m r
      end
  end.

(** [re.sub(m, repl, s)] for an expression that matches no empty text:
    leftmost matches, not overlapping, each replaced by [repl].  [skip]
    counts the characters of the current match still to be consumed. *)
Fixpoint re_sub_from (m : matcher) (repl : string) (skip : nat) (s : string) : string :=
  match s with
  | EmptyString => EmptyString
  | String c r =>
      match skip with
      | S k => re_sub_from m repl k r
      | O =>
          match m s with
          | Some (S k) => repl +++ re_sub_from m repl k r
          | _ => String c (re_sub_from m repl 0 r)
          end
      end
  end.

Definition re_sub (m : matcher) (repl s : string) : string := re_sub_from m repl 0 s.

(** The matcher of a literal text. *)
Definition lit (p : string) : matcher :=
  fun s => if startswith p s then Some (String.length p) else None.

(** [s.replace(old, new)] for a non-empty [old]. *)
Definition replace (old new s : string) : string := re_sub (lit old) new s.

(** [s.count(p)] for a non-empty [p]: occurrences that do not overlap. *)
Fixpoint count_from (p : string) (skip : nat) (s : string) : nat :=
  match s with
  | EmptyString => 0
  | String _ r =>
      match skip with
      | S k => count_from p k r
      | O => if startswith p s then S (count_from p (String.length p - 1) r)
             else count_from p 0 r
      end
  end.

Definition count (p s : string) : nat := count_from p 0 s.

(** [sep.join(l)] *)
Fixpoint join (sep : string) (l : list string) : string :=
  match l with
  | [] => EmptyString
  | [x] => x
  | x :: r => x +++ sep +++ join sep r
  end.

(** [s.split()]: the maximal runs of characters that are not white space.
    [cur] is the run being read, in reverse. *)
Fixpoint rev_string (acc s : string) : string :=
  match s with
  | EmptyString => acc
  | String c r => rev_string (String c acc) r
  end.

Fixpoint split_from (cur : string) (s : string) : list string :=
  match s with
  | EmptyString => if is_empty cur then [] else [rev_string EmptyString cur]
  | String c r =>
      if is_space c
      then (if is_empty cur then split_from EmptyString r
            else rev_string EmptyString cur :: split_from EmptyString r)
      else split_from (String c cur) r
  end.

Definition split (s : string) : list string := split_from EmptyString s.

(** Length of the longest prefix of digits. *)
Fixpoint digits_len (s : string) : nat :=
  match s with
  | String c r => if is_digit c then S (digits_len r) else 0
  | EmptyString => 0
  end.

Definition mem (x : string) (l : list string) : bool :=
  existsb (String.eqb x) l.

End PyStr.

(** ** summarize_dataset.py: the aspect classifier *)

Module SummarizeDataset.
Import PyStr.

(** The tail of a [digitpart] of Python's float grammar, after its first
    digit: digits, each optionally preceded by one underscore. *)
Fixpoint digitpart_tail (s : string) : string :=
  match s with
  | EmptyString => EmptyString
  | String c r =>
      if is_digit c then digitpart_tail r
      else if Ascii.eqb c "_" then
        match r with
        | String d r' => if is_digit d then digitpart_tail r' else s
        | EmptyString => s
        end
      else s
  end.

(** [digitpart s] is what follows the longest [digitpart] that starts [s]. *)
Definition digitpart (s : string) : option string :=
  match s with
  | String c r => if is_digit c then Some (digitpart_tail r) else None
  | EmptyString => None
  end.

Definition skip_sign (s : string) : string :=
  match s with
  | String c r => if Ascii.eqb c "+" || Ascii.eqb c "-" then r else s
  | EmptyString => s
  end.

(** [number ::= [digitpart] "." digitpart | digitpart ["."]] *)
Definition float_number (s : string) : option string :=
  match digitpart s with
  | Some r =>
      match r with
      | String "." r1 =>
          match digitpart r1 with
          | Some r2 => Some r2
          | None => Some r1
          end
      | _ => Some r
      end
  | None =>
      match s with
      | String "." r1 => digitpart r1
      | _ => None
      end
  end.

(** [exponent ::= ("e" | "E") [sign] digitpart], optional. *)
Definition float_exponent (s : string) : option string :=
  match s with
  | String c r =>
      if Ascii.eqb c "e" || Ascii.eqb c "E" then digitpart (skip_sign r) else Some s
  | EmptyString => Some s
  end.

(** [float(s)] does not raise [ValueError]. *)
Definition float_parses (s0 : string) : bool :=
  let s := skip_sign (strip s0) in
  let l := lower s in
  if String.eqb l "inf" || String.eqb l "infinity" || String.eqb l "nan" then true
  else
    match float_number s with
    | Some r =>
        match float_exponent r with
        | Some r' => is_empty r'
        | None => false
        end
    | None => false
    end.

(** The character class [[<$∼~∼\s]]. *)
Definition numeric_noise : matcher :=
  fun s =>
    match s with
    | String c _ =>
        if Ascii.eqb c "<" || Ascii.eqb c "$" || Ascii.eqb c "~" || is_space c then Some 1
        else if startswith "∼" s then Some 3
        else None
    | EmptyString => None
    end.

(** What follows a non-empty run of digits. *)
Definition after_digits (s : string) : option string :=
  match digits_len s with
  | O => None
  | S n => Some (drop (S n) s)
  end.

Definition first_is (cs : string) (s : string) : bool :=
  match s with
  | String c _ => contains (String c EmptyString) cs
  | EmptyString => false
  end.

(** [units_regex = r"[<-]?\d+[km]"], tried at the start of the text. *)
Definition units_regex (s : string) : bool :=
  let s' := if first_is "<-" s then drop 1 s else s in
  match after_digits s' with
  | Some r => first_is "km" r
  | None => false
  end.

(** An optional final [s] of a unit. *)
Definition opt_s (s : string) : string :=
  if startswith "s" s then drop 1 s else s.

(** The three groups of [time_regex]; each gives what follows it when it
    takes part in the match. *)
Definition time_group1 (s : string) : option string :=
  match after_digits s with
  | Some r =>
      if startswith "hr" r then Some (opt_s (drop 2 r))
      else if startswith "hour" r then Some (opt_s (drop 4 r))
      else None
  | None => None
  end.

Definition time_group2 (s : string) : option string :=
  match after_digits s with
  | Some r => if startswith "m" r then Some (opt_s (drop 1 r)) else None
  | None => None
  end.

Definition time_group3 (s : string) : option string :=
  match after_digits s with
  | Some r => if startswith "s" r then Some (drop 1 r) else None
  | None => None
  end.

(** [any(re.match(time_regex, value).groups())] *)
Definition time_regex_any_group (s : string) : bool :=
  let '(g1, s1) := match time_group1 s with Some r => (true, r) | None => (false, s) end in
  let '(g2, s2) := match time_group2 s1 with Some r => (true, r) | None => (false, s1) end in
  let g3 := match time_group3 s2 with Some _ => true | None => false end in
  g1 || g2 || g3.

(** [freq_regex = r"\d+[gm]hz"], tried at the start of the text. *)
Definition freq_regex (s : string) : bool :=
  match after_digits s with
  | Some r => first_is "gm" r && startswith "hz" (drop 1 r)
  | None => false
  end.

Definition is_numeric (value : string) : bool :=
  let value := replace "below" "<" value in
  let value := re_sub numeric_noise EmptyString (strip (lower value)) in
  if units_regex value || time_regex_any_group value || freq_regex value then true
  else float_parses (replace "-" EmptyString (replace "," EmptyString value)).

Definition is_binary (value : string) : bool :=
  let value := strip value in
  mem (lower value) ["yes"; "no"] || mem value ["✘"; "✗"; "×"; "✔"; "✓"].

(** The character class [[∼~\s]]. *)
Definition na_noise : matcher :=
  fun s =>
    match s with
    | String c _ =>
        if Ascii.eqb c "~" || is_space c then Some 1
        else if startswith "∼" s then Some 3
        else None
    | EmptyString => None
    end.

Definition is_na (value : string) : bool :=
  let value := re_sub na_noise EmptyString (lower value) in
  mem value ["-"; "–"; "-"; "n/a"].

(** [len(set(column))] *)
Definition distinct (column : list string) : nat :=
  List.length (nodup string_dec column).

(** [len(val.split()) > 4] for the values that are not placeholders. *)
Definition val_lens (column : list string) : list bool :=
  map (fun val => 4 <? List.length (split val))
      (filter (fun val => negb (is_na val)) column).

(** [sum] of a list of booleans. *)
Definition sum_bools (l : list bool) : nat := List.length (filter (fun b => b) l).

(** [column[0]] raises [IndexError] on an empty column. *)
Definition get_aspect_type (column : list string) : res string :=
  match column with
  | [] => Raise IndexError
  | first :: _ =>
      if contains "{{cite:" first then Ok "cite"
      else if forallb (fun val => is_numeric val || is_na val) column then Ok "num"
      else if forallb (fun val => is_binary val || is_na val) column then Ok "bool"
      else if distinct column =? 1 then Ok "cat-uniq"
      else if negb (distinct column =? List.length column) then Ok "cat"
      else
        (* sum(val_lens) > len(val_lens) / 2 *)
        if List.length (val_lens column) <? 2 * sum_bools (val_lens column)
        then Ok "gen" else Ok "ent"
  end.

End SummarizeDataset.

(** ** extract_tables.py *)

Module ExtractTables.
Import PyStr.

(** *** The parsed tree *)

Record Cit : Type := { sha : option string }.

Record Cell : Type := {
  cell_text : string;          (* cell.text *)
  cell_cols : option nat;      (* cell.attrs.get("cols") *)
  cell_cits : list Cit         (* cell.find_all("cit") *)
}.

Definition Row : Type := list Cell.    (* row.find_all("td") *)
Definition Soup : Type := list Row.    (* table_soup.find_all("tr") *)

(** [table_soup.find_all("td")] *)
Definition find_all_td (table_soup : Soup) : list Cell := concat table_soup.

(** [table_soup.find_all("cit")]: in a tree without nested table every [cit]
    of a row lies under one of its cells. *)
Definition find_all_cit (table_soup : Soup) : list Cit :=
  flat_map cell_cits (find_all_td table_soup).

(** [int(cell.attrs.get("cols", "1"))], for an attribute that is a natural
    number; [AnyCols.num_spanning_cols] reads any attribute. *)
Definition num_spanning_cols (cell : Cell) : nat :=
  match cell_cols cell with
  | Some n => n
  | None => 1
  end.

(** *** The predicates on a parsed tree *)

Definition has_at_least_2_cols (table_soup : Soup) : bool :=
  (4 <=? List.length (find_all_td table_soup)) && (2 <=? List.length table_soup).

Definition has_at_least_2_rows (table_soup : Soup) : bool :=
  2 <=? List.length table_soup.

Definition has_at_least_2_cites (table_soup : Soup) : bool :=
  2 <=? List.length (find_all_cit table_soup).

Definition has_table_cells (table_soup : Soup) : bool :=
  negb (Nat.eqb (List.length (find_all_td table_soup)) 0).

(** [all([not cell.text.strip() for cell in cells])] *)
Definition all_empty (cells : Row) : bool :=
  forallb (fun cell => negb (truthy (strip (cell_text cell)))) cells.

(** [len(row.find_all("cit"))] *)
Definition row_cits (cells : Row) : nat := List.length (flat_map cell_cits cells).

(** [cell.find("cit") is not None] *)
Definition cell_has_cit (cell : Cell) : bool :=
  match cell_cits cell with [] => false | _ => true end.

(** The loop on the rows of [has_cites_in_rows_or_cols]: [valid_table] and
    [max_num_cells] when it ends. *)
Fixpoint scan_rows (trs : list Row) (max_num_cells : nat) : bool * nat :=
  match trs with
  | [] => (false, max_num_cells)
  | cells :: rest =>
      if all_empty cells then scan_rows rest max_num_cells
      else
        let max_num_cells := Nat.max max_num_cells (List.length cells) in
        if 2 <=? row_cits cells then (true, max_num_cells)
        else scan_rows rest max_num_cells
  end.

(** [col_citations], the rows without cell at [col_i] skipped: [true] stands
    for a [cit] that was found. *)
Definition col_citations (trs : list Row) (col_i : nat) : list bool :=
  flat_map (fun row : Row =>
              match nth_error row col_i with
              | Some cell => [cell_has_cit cell]
              | None => []
              end) trs.

Definition count_found (l : list bool) : nat := List.length (filter (fun b => b) l).

Definition has_cites_in_rows_or_cols (table_soup : Soup) : bool :=
  let scanned := scan_rows table_soup 0 in
  if negb (fst scanned) && (0 <? snd scanned) then
    existsb (fun col_i => 2 <=? count_found (col_citations table_soup col_i))
            (seq 0 (snd scanned))
  else fst scanned.

(** The [while] loop of [has_cites_in_first_row_or_col] returns [True]. *)
Fixpoint first_row_has_cites (trs : list Row) : bool :=
  match trs with
  | [] => false
  | first_row :: rest =>
      if all_empty first_row then first_row_has_cites rest
      else 2 <=? row_cits first_row
  end.

(** [[row.find_all("td")[0].find("cit") for row in trs]] *)
Fixpoint first_col_citations (trs : list Row) : res (list bool) :=
  match trs with
  | [] => Ok []
  | row :: rest =>
      match row with
      | [] => Raise IndexError
      | cell :: _ => l <- first_col_citations rest ;; Ok (cell_has_cit cell :: l)
      end
  end.

Definition has_cites_in_first_row_or_col (table_soup : Soup) : res bool :=
  if first_row_has_cites table_soup then Ok true
  else l <- first_col_citations table_soup ;; Ok (2 <=? count_found l).

Definition has_max_one_cite_per_cell (table_soup : Soup) : bool :=
  forallb (fun row : Row =>
             forallb (fun cell => List.length (cell_cits cell) <=? 1) row) table_soup.

(** [text.lower() == "n/a" or not text.strip() or text == "∖"] *)
Definition is_na (text : string) : bool :=
  String.eqb (lower text) "n/a" || negb (truthy (strip text)) || String.eqb text "∖".

(** *** Regular expressions of the module *)

Definition is_hex_lower (c : ascii) : bool :=
  is_digit c || ((97 <=? nat_of_ascii c) && (nat_of_ascii c <=? 102)).

Fixpoint all_chars (p : ascii -> bool) (s : string) : bool :=
  match s with
  | EmptyString => true
  | String c r => p c && all_chars p r
  end.

(** The key of a citation marker at the start of the text:
    ["{{cite:([a-f\d]{7})}}"]. *)
Definition cite_key_at (s : string) : option string :=
  if startswith "{{cite:" s then
    let key := take 7 (drop 7 s) in
    if (String.length key =? 7) && all_chars is_hex_lower key
       && startswith "}}" (drop 14 s)
    then Some key else None
  else None.

(** [re.search("{{cite:([a-f\d]{7})}}", s)]: the key of the first marker. *)
Fixpoint cite_search (s : string) : option string :=
  match cite_key_at s with
  | Some key => Some key
  | None =>
      match s with
      | EmptyString => None
      | String _ r => cite_search r
      end
  end.

(** [matches[0]] for a marker with the given key. *)
Definition cite_marker (key : string) : string := "{{cite:" +++ key +++ "}}".

Definition newline : ascii := "010"%char.

(** The text up to the first line break: what [.+] takes. *)
Fixpoint line_prefix (s : string) : string :=
  match s with
  | EmptyString => EmptyString
  | String c r => if Ascii.eqb c newline then EmptyString else String c (line_prefix r)
  end.

(** [r"(\d)\*(.+)"] at the start of the text: [int] of group 1 and group 2. *)
Definition multirow_at (s : string) : option (nat * string) :=
  match s with
  | String d (String "*" (String c r)) =>
      if is_digit d && negb (Ascii.eqb c newline)
      then Some (digit_value d, String c (line_prefix r))
      else None
  | _ => None
  end.

(** [re.search(r"(\d)\*(.+)", cell_text)] *)
Fixpoint multirow_search (s : string) : option (nat * string) :=
  match multirow_at s with
  | Some m => Some m
  | None =>
      match s with
      | EmptyString => None
      | String _ r => multirow_search r
      end
  end.

(** ["\(r\)\d-\d"] *)
Definition hline : matcher :=
  fun s =>
    match s with
    | String "(" (String "r" (String ")" (String a (String "-" (String b _))))) =>
        if is_digit a && is_digit b then Some 6 else None
    | _ => None
    end.

(** [FLOAT_REGEX = re.compile("\.\d")] *)
Definition FLOAT_REGEX : matcher :=
  fun s =>
    match s with
    | String "." (String d _) => if is_digit d then Some 2 else None
    | _ => None
    end.

(** *** The grid *)

Definition grid : Type := list (list string).

Fixpoint list_set {A : Type} (l : list A) (i : nat) (x : A) : list A :=
  match l, i with
  | [], _ => []
  | _ :: r, O => x :: r
  | y :: r, S k => y :: list_set r k x
  end.

(** [table[r][c]] *)
Definition grid_get (g : grid) (r c : nat) : option string :=
  match nth_error g r with
  | Some line => nth_error line c
  | None => None
  end.

(** [table[r][c] = v] on a position that exists. *)
Definition grid_set (g : grid) (r c : nat) (v : string) : grid :=
  match nth_error g r with
  | Some line => list_set g r (list_set line c v)
  | None => g
  end.

(** The course of the filling loop: it goes on, it leaves [soup_to_json]
    through the [except IndexError] branch (with the grid as the loop left
    it), or an exception escapes. *)
Inductive fill (A : Type) : Type :=
| Go (a : A)
| EmptyResult (g : grid)
| Escapes (e : exn).
Arguments Go {A} a.
Arguments EmptyResult {A} g.
Arguments Escapes {A} e.

Definition fbind {A B : Type} (m : fill A) (k : A -> fill B) : fill B :=
  match m with
  | Go a => k a
  | EmptyResult g => EmptyResult g
  | Escapes e => Escapes e
  end.

Notation "x <~ m ;; k" := (fbind m (fun x => k))
  (at level 61, m at next level, right associativity).

(** [for row_offset in range(1, count): table[row_i + row_offset][col] += text]
    inside [try ... except IndexError: return ...]. *)
Fixpoint propagate (g : grid) (row_i col : nat) (text : string) (offsets : list nat)
  : fill grid :=
  match offsets with
  | [] => Go g
  | row_offset :: rest =>
      match grid_get g (row_i + row_offset) col with
      | Some v => propagate (grid_set g (row_i + row_offset) col (v +++ text)) row_i col text rest
      | None => EmptyResult g
      end
  end.

(** The body of [for col_offset in range(num_spanning_cols)], at the grid
    column [col = col_i + col_offset]. *)
Definition write_cell (header_rows : list nat) (row_i col : nat) (text : string) (g : grid)
  : fill grid :=
  gt <~ match multirow_search text with
        | Some (count, rest) =>
            g' <~ propagate g row_i col (strip rest) (seq 1 (count - 1)) ;;
            Go (g', rest)
        | None => Go (g, text)
        end ;;
  let g1 := fst gt in
  let cell_text := snd gt in
  let cell_text :=
    if re_search hline cell_text then re_sub hline EmptyString cell_text else cell_text in
  cell_text <~ (if is_na (strip cell_text) then
                  match grid_get g1 row_i col with
                  | None => Escapes IndexError
                  | Some v =>
                      Go (if negb (truthy v) && negb (existsb (Nat.eqb row_i) header_rows)
                          then "-" else cell_text)
                  end
                else Go cell_text) ;;
  match grid_get g1 row_i col with
  | None => Escapes IndexError
  | Some v =>
      if truthy v then Go g1
      else Go (grid_set g1 row_i col (v +++ strip cell_text))
  end.

Fixpoint write_span (header_rows : list nat) (row_i col_i : nat) (text : string)
    (col_offsets : list nat) (g : grid) : fill grid :=
  match col_offsets with
  | [] => Go g
  | col_offset :: rest =>
      g' <~ write_cell header_rows row_i (col_i + col_offset) text g ;;
      write_span header_rows row_i col_i text rest g'
  end.

(** [for cell in cells: ...; col_i += num_spanning_cols] *)
Fixpoint write_cells (header_rows : list nat) (row_i col_i : nat) (cells : list Cell)
    (g : grid) : fill grid :=
  match cells with
  | [] => Go g
  | cell :: rest =>
      g' <~ write_span header_rows row_i col_i (cell_text cell)
              (seq 0 (num_spanning_cols cell)) g ;;
      write_cells header_rows row_i (col_i + num_spanning_cols cell) rest g'
  end.

(** The variables the row loop updates. *)
Record fill_state : Type := {
  st_table : grid;
  st_incomplete_rows : list (nat * list string);   (* row_idx, cells *)
  st_header_rows : list nat;
  st_seen_cites : bool
}.

Definition has_cit (cell : Cell) : bool :=
  match cell_cits cell with [] => false | _ => true end.

Definition has_figure (cell : Cell) : bool := contains "{{figure:" (cell_text cell).

(** What one iteration of the row loop does. *)
Inductive row_course : Type :=
| RowDone (st : fill_state)
| RowEmptyResult (g : grid) (incomplete_rows : list (nat * list string))
| RowEscapes (e : exn).

Definition fill_row (num_cols row_i : nat) (cells : Row) (st : fill_state) : row_course :=
  let num_cites := List.length (filter has_cit cells) in
  let seen_cites := if 0 <? num_cites then true else st_seen_cites st in
  let header_rows :=
    if (num_cites =? 0) && (row_i <=? 1) && negb seen_cites
    then st_header_rows st ++ [row_i] else st_header_rows st in
  let write header_rows :=
    match write_cells header_rows row_i 0 cells (st_table st) with
    | Go g => RowDone {| st_table := g;
                         st_incomplete_rows := st_incomplete_rows st;
                         st_header_rows := header_rows;
                         st_seen_cites := seen_cites |}
    | EmptyResult g => RowEmptyResult g (st_incomplete_rows st)
    | Escapes e => RowEscapes e
    end in
  if (List.length cells <? num_cols) && negb seen_cites then
    write (header_rows ++ [row_i])
  else if (List.length cells <? num_cols) || existsb has_figure cells then
    RowDone {| st_table := st_table st;
               st_incomplete_rows :=
                 st_incomplete_rows st ++ [(row_i, map cell_text cells)];
               st_header_rows := header_rows;
               st_seen_cites := seen_cites |}
  else write header_rows.

(** [for row_i, row in enumerate(table_soup.find_all("tr"))] from [row_i] on. *)
Fixpoint fill_rows (num_cols row_i : nat) (rows : list Row) (st : fill_state) : row_course :=
  match rows with
  | [] => RowDone st
  | cells :: rest =>
      match fill_row num_cols row_i cells st with
      | RowDone st' => fill_rows num_cols (S row_i) rest st'
      | stop => stop
      end
  end.

(** [max] of a list of numbers; [ValueError] on the empty list. *)
Definition py_max (l : list nat) : res nat :=
  match l with
  | [] => Raise ValueError
  | x :: r => Ok (fold_left Nat.max r x)
  end.

Definition get_num_cols (table_soup : Soup) : res nat :=
  py_max (map (fun row => List.length row) table_soup
          ++ map (fun row => list_sum (map num_spanning_cols row)) table_soup).

Definition initial_state (num_rows num_cols : nat) : fill_state :=
  {| st_table := repeat (repeat EmptyString num_cols) num_rows;
     st_incomplete_rows := [];
     st_header_rows := [];
     st_seen_cites := false |}.

(** The filling loop of [soup_to_json]. *)
Definition fill_table (table_soup : Soup) : res row_course :=
  num_cols <- get_num_cols table_soup ;;
  Ok (fill_rows num_cols 0 table_soup (initial_state (List.length table_soup) num_cols)).

(** [merge_rows(table, 0, 1)]: [table[1]] raises [IndexError] when the table
    has fewer than two rows. *)
Definition merge_value (val_i val_j : string) : string :=
  if String.eqb val_i val_j || negb (truthy (strip val_j)) then val_i
  else if negb (truthy (strip val_i)) then val_j
  else join "-" [val_i; val_j].

Definition merge_rows_0_1 (table : grid) : res grid :=
  match table with
  | row_i :: row_j :: rest =>
      Ok (map (fun p => merge_value (fst p) (snd p)) (combine row_i row_j) :: rest)
  | _ => Raise IndexError
  end.

Fixpoint merge_header (n : nat) (table : grid) : res grid :=
  match n with
  | O => Ok table
  | S k => t <- merge_rows_0_1 table ;; merge_header k t
  end.

(** *** Dictionaries and data frames *)

Definition dict (V : Type) : Type := list (string * V).

(** [d[k] = v] *)
Fixpoint dict_set {V : Type} (d : dict V) (k : string) (v : V) : dict V :=
  match d with
  | [] => [(k, v)]
  | (k', v') :: r => if String.eqb k' k then (k', v) :: r else (k', v') :: dict_set r k v
  end.

(** [d.get(k)] *)
Fixpoint dict_get {V : Type} (d : dict V) (k : string) : option V :=
  match d with
  | [] => None
  | (k', v') :: r => if String.eqb k' k then Some v' else dict_get r k
  end.

Definition keys {V : Type} (d : dict V) : list string := map fst d.

(** A frame of strings: its columns in order, labels may repeat. *)
Definition dataframe : Type := list (string * list string).

Definition columns (df : dataframe) : list string := map fst df.

(** [pd.DataFrame(data, columns=columns)] for a list of rows. *)
Definition DataFrame (data : grid) (cols : list string) : res dataframe :=
  if forallb (fun r => List.length r =? List.length cols) data
  then Ok (map (fun j => (nth j cols EmptyString, map (fun r => nth j r EmptyString) data))
               (seq 0 (List.length cols)))
  else Raise ValueError.

(** [df.to_dict(orient="list")]: a repeated label keeps its first place and
    its last values. *)
Definition to_dict (df : dataframe) : dict (list string) :=
  fold_left (fun d col => dict_set d (fst col) (snd col)) df [].

(** [df.rename(columns={old: new})] *)
Definition rename_columns (old new : string) (df : dataframe) : dataframe :=
  map (fun col => if String.eqb (fst col) old then (new, snd col) else col) df.

(** [df[name] = values]: every column with that label is set; a new label
    is appended. *)
Definition set_column (name : string) (values : list string) (df : dataframe) : dataframe :=
  if mem name (columns df)
  then map (fun col => if String.eqb (fst col) name then (name, values) else col) df
  else df ++ [(name, values)].

(** [df.insert(0, name, values)] *)
Definition insert_first (name : string) (values : list string) (df : dataframe)
  : res dataframe :=
  if mem name (columns df) then Raise ValueError else Ok ((name, values) :: df).

(** [df[labels]] for a list of labels that all occur. *)
Definition select_columns (labels : list string) (df : dataframe) : dataframe :=
  flat_map (fun l => filter (fun col => String.eqb (fst col) l) df) labels.

(** *** split_references_column *)

Definition has_cite (cell_val : string) : bool :=
  match cite_search cell_val with Some _ => true | None => false end.

Definition num_cites_in (values : list string) : nat :=
  List.length (filter has_cite values).

(** The loop that keeps the column with strictly the most markers. *)
Fixpoint select_column (cols : dataframe) (max_num_cites : Z)
    (column_with_cites : string * list string) : string * list string :=
  match cols with
  | [] => column_with_cites
  | col :: rest =>
      let num_cites := Z.of_nat (num_cites_in (snd col)) in
      if (max_num_cites <? num_cites)%Z then select_column rest num_cites col
      else select_column rest max_num_cites column_with_cites
  end.

Definition str_of_nat (n : nat) : string :=
  DecimalString.NilEmpty.string_of_uint (Nat.to_uint n).

(** The loop over the cells of the chosen column: [references_col] and
    [new_column_without_cites]. *)
Fixpoint extract_references (values : list string) (no_cite_count : nat)
  : list string * list string :=
  match values with
  | [] => ([], [])
  | cell_val :: rest =>
      match cite_search cell_val with
      | None =>
          let r := extract_references rest (S no_cite_count) in
          (("no_cite-" +++ str_of_nat no_cite_count) :: fst r, cell_val :: snd r)
      | Some key =>
          let r := extract_references rest no_cite_count in
          let new_cell_val := replace (cite_marker key) EmptyString cell_val in
          let new_cell_val := if is_empty new_cell_val then "-" else new_cell_val in
          (cite_marker key :: fst r, strip new_cell_val :: snd r)
      end
  end.

(** [table_df.iloc[:, col_i]] is one column, a [Series], also when its
    label repeats, so the branch on [isinstance(..., pd.DataFrame)] is never
    taken. *)
Definition split_references_column (table_df : dataframe) : res (dataframe * string) :=
  match table_df with
  | [] => Raise IndexError          (* table_df.iloc[:, 0] *)
  | first :: _ =>
      let column_with_cites := select_column table_df (-1)%Z first in
      let name := fst column_with_cites in
      let r := extract_references (snd column_with_cites) 0 in
      let references_col := fst r in
      let new_column_without_cites := snd r in
      res <-
        (if existsb (fun val => negb (String.eqb val "-")) new_column_without_cites then
           let tn :=
             if String.eqb name "References" then
               (set_column "References_OLD" new_column_without_cites
                  (rename_columns name "References_OLD" table_df), "References_OLD")
             else (set_column name new_column_without_cites table_df, name) in
           df <- insert_first "References" references_col (fst tn) ;;
           Ok (df, snd tn)
         else
           let df := rename_columns name "References" table_df in
           let reordered_cols :=
             "References"
             :: filter (fun col => negb (String.eqb col "References")) (columns df) in
           Ok (select_columns reordered_cols df, name)) ;;
      match columns (fst res) with
      | c0 :: _ => if String.eqb c0 "References" then Ok res else Raise AssertionError
      | [] => Raise IndexError
      end
  end.

(** *** postprocess_table_df *)

(** [COLORS]: the alternatives, in their order. *)
Definition COLORS : matcher :=
  fun s =>
    if startswith "aliceblue" s then Some 9
    else if startswith "blue" s then Some 4
    else if startswith "black" s then Some 5
    else if startswith "midgray" s || startswith "midgrey" s then Some 7
    else if startswith "gray" s || startswith "grey" s then Some 4
    else if startswith "red" s then Some 3
    else if startswith "darkgreen" s then Some 9
    else if startswith "green" s then Some 5
    else if startswith "tablewhite" s then Some 10
    else if startswith "tableblue" s then Some 9
    else None.

(** [COLORS_RE]: a colour followed by [!] and one or two digits, or standing
    before a cross or a check mark. *)
Definition COLORS_RE : matcher :=
  fun s =>
    match COLORS s with
    | None => None
    | Some n =>
        match drop n s with
        | String "!" (String d r) =>
            if is_digit d
            then Some (n + 2 + (match r with
                                | String d' _ => if is_digit d' then 1 else 0
                                | EmptyString => 0
                                end))
            else None
        | r => if startswith "✗" r || startswith "✓" r then Some n else None
        end
    end.

(** A pattern anchored by [^]: it is tried at the start only. *)
Definition sub_at_start (m : matcher) (s : string) : string :=
  match m s with
  | Some n => drop n s
  | None => s
  end.

(** [r"\[[cl]\]"] *)
Definition positioning : matcher :=
  fun s => if startswith "[c]" s || startswith "[l]" s then Some 3 else None.

(** [r"\d\d+em"] *)
Definition font_size : matcher :=
  fun s =>
    let n := digits_len s in
    if (2 <=? n) && startswith "em" (drop n s) then Some (n + 2) else None.

(** [r"(N/A|none)"] *)
Definition na_or_none : matcher :=
  fun s =>
    if startswith "N/A" s then Some 3
    else if startswith "none" s then Some 4
    else None.

(** The non-breaking space, U+00A0. *)
Definition nbsp : string := String "194"%char (String "160"%char EmptyString).

Definition process_cell (cell : string) : string :=
  let cell := replace nbsp " " cell in
  let cell := strip cell in
  let cell := replace "’" "'" cell in
  let cell := if String.eqb cell "X" then "✗" else cell in
  let cell := if String.eqb cell "tablered" then "no" else cell in
  let cell := replace "✔" "✓" cell in
  let cell := if String.eqb cell "tablegreen" then "yes" else cell in
  let cell := re_sub COLORS_RE EmptyString cell in
  let cell := sub_at_start COLORS cell in
  let cell := re_sub positioning EmptyString cell in
  let cell := sub_at_start font_size cell in
  let cell := re_sub na_or_none "-" cell in
  let cell := strip cell in
  if is_empty cell then "-" else cell.

(** [set_index(col_0)], [transpose()], [reset_index(names=col_0)]; when the
    label of the first column is one of its values the index cannot be put
    back and the frame is transposed back.  A first label that repeats makes
    [set_index] raise. *)
Definition transpose_frame (table_df : dataframe) : res dataframe :=
  match table_df with
  | [] => Raise IndexError
  | (original_col_0, values_0) :: rest =>
      if mem original_col_0 (columns rest) then Raise ValueError
      else if mem original_col_0 values_0 then Ok table_df
      else
        Ok ((original_col_0, columns rest)
            :: map (fun i => (nth i values_0 EmptyString,
                              map (fun col => nth i (snd col) EmptyString) rest))
                   (seq 0 (List.length values_0)))
  end.

Definition postprocess_table_df (table_df : dataframe) : res (dataframe * string) :=
  table_df <-
    (if 0 <? count "{{cite:" (join " " (columns table_df))
     then transpose_frame table_df else Ok table_df) ;;
  let table_df := map (fun col => (fst col, map process_cell (snd col))) table_df in
  let table_df := map (fun col => (process_cell (fst col), snd col)) table_df in
  split_references_column table_df.

(** *** soup_to_json *)

Record TableJson : Type := {
  table : grid;
  incomplete_rows : list (nat * list string);
  old_citation_column : option string;
  table_dict : dict (list string)
}.

Definition soup_to_json (table_soup : Soup) : res TableJson :=
  course <- fill_table table_soup ;;
  match course with
  | RowEscapes e => Raise e
  | RowEmptyResult g inc =>
      Ok {| table := g; incomplete_rows := inc;
            old_citation_column := None; table_dict := [] |}
  | RowDone st =>
      merged <-
        (match st_header_rows st with
         | [] => Ok (st_table st)
         | h :: hs => merge_header (fold_left Nat.max hs h) (st_table st)
         end) ;;
      let table_filtered := filter (fun row => existsb truthy row) merged in
      if negb (existsb (fun row => truthy (join EmptyString row)) table_filtered) then
        Ok {| table := table_filtered; incomplete_rows := st_incomplete_rows st;
              old_citation_column := None; table_dict := [] |}
      else
        match table_filtered with
        | [] => Raise IndexError
        | cols :: data =>
            table_df <- DataFrame data cols ;;
            r <- postprocess_table_df table_df ;;
            Ok {| table := table_filtered; incomplete_rows := st_incomplete_rows st;
                  old_citation_column := Some (snd r); table_dict := to_dict (fst r) |}
        end
  end.

(** *** get_table_row_bib_map *)

(** An entry of [row_bib_map].  [title] and [abstract] are keys that
    [create_dataset] adds: [None] is a missing key, [Some None] the value
    [None]. *)
Record bib_row : Type := {
  bib_hash_or_arxiv_id : string;
  row : nat;
  corpus_id : Z;
  type : string;
  title : option (option string);
  abstract : option (option string)
}.

(** [{bib_ref[:7]: bib_ref for bib_ref in bib_hashes if bib_ref is not None}] *)
Definition cite_id_map (bib_hashes : list (option string)) : dict string :=
  fold_left (fun d b =>
               match b with
               | Some bib_ref => dict_set d (take 7 bib_ref) bib_ref
               | None => d
               end) bib_hashes [].

(** [pd.DataFrame(table_json)] then [table_df[table_df.columns[0]]]. *)
Definition first_column (table_json : dict (list string)) : res (list string) :=
  match table_json with
  | [] => Raise IndexError
  | (_, values) :: rest =>
      if forallb (fun col => List.length (snd col) =? List.length values) rest
      then Ok values else Raise ValueError
  end.

Definition ours_entry (paper_id : string) (i : nat) : bib_row :=
  {| bib_hash_or_arxiv_id := paper_id; row := i; corpus_id := (-1)%Z;
     type := "ours"; title := None; abstract := None |}.

Definition ref_entry (bib_hash_match : string) (i : nat) : bib_row :=
  {| bib_hash_or_arxiv_id := bib_hash_match; row := i; corpus_id := (-1)%Z;
     type := "ref"; title := None; abstract := None |}.

(** The loop over the first column, from row [i] on. *)
Fixpoint map_rows (ids : dict string) (paper_id : string) (i : nat) (cells : list string)
    (table_row_bib_map : list bib_row) (ours_row : option bib_row)
  : res (list bib_row * option bib_row) :=
  match cells with
  | [] => Ok (table_row_bib_map, ours_row)
  | cell_val :: rest =>
      match cite_search cell_val with
      | None =>
          if contains "standard" (lower cell_val)
          then map_rows ids paper_id (S i) rest table_row_bib_map ours_row
          else map_rows ids paper_id (S i) rest table_row_bib_map
                 (Some (ours_entry paper_id i))
      | Some cite_id =>
          match dict_get ids cite_id with
          | None => Raise KeyError
          | Some bib_hash_match =>
              map_rows ids paper_id (S i) rest
                (table_row_bib_map ++ [ref_entry bib_hash_match i]) ours_row
          end
      end
  end.

Definition get_table_row_bib_map (table_json : dict (list string))
    (bib_hashes : list (option string)) (paper_id : string) : res (list bib_row) :=
  cells <- first_column table_json ;;
  r <- map_rows (cite_id_map bib_hashes) paper_id 0 cells [] None ;;
  match snd r with
  | Some ours_row => Ok (fst r ++ [ours_row])
  | None => Ok (fst r)
  end.

(** *** create_dataset *)

Record paper_info : Type := {
  pi_corpus_id : Z;
  pi_title : option string;
  pi_abstract : option string
}.

(** A labelled table, as [create_dataset] reads it.  [lt_soup] is the tree
    [soupify] returns for the markup of the table. *)
Record labeled_table : Type := {
  lt_labels : option (dict bool);
  lt_soup : Soup;
  lt_paper_id : string;
  lt_pdf_hash : option string;
  lt_source_hash : option string;
  lt_source_name : option string;
  lt_table_hash : string;
  lt_caption : option string;
  lt_in_text_ref : option (list string);
  lt_input_papers : option (dict paper_info)
}.

Record sample : Type := {
  paper_id : string;
  _pdf_hash : option string;
  _source_hash : option string;
  _source_name : option string;
  _table_hash : string;
  caption : option string;
  in_text_ref : option (list string);
  table_html : Soup;
  table_json : TableJson;
  row_bib_map : list bib_row;
  bib_hash : list (option string);
  labels : option (dict bool)
}.

(** [for filter_fn in filters: if not table["labels"][filter_fn.__name__]];
    a filter is given by its name. *)
Fixpoint should_skip (table_labels : dict bool) (filters : list string) : res bool :=
  match filters with
  | [] => Ok false
  | name :: rest =>
      match dict_get table_labels name with
      | None => Raise KeyError
      | Some true => should_skip table_labels rest
      | Some false => Ok true
      end
  end.

(** The loop that fills in [corpus_id], [title] and [abstract]. *)
Fixpoint attach_papers (input_papers : dict paper_info) (rows : list bib_row)
    (missing_bib_hashes : list string) : list bib_row * list string :=
  match rows with
  | [] => ([], missing_bib_hashes)
  | r :: rest =>
      match dict_get input_papers (bib_hash_or_arxiv_id r) with
      | None =>
          let out := attach_papers input_papers rest
                       (missing_bib_hashes ++ [bib_hash_or_arxiv_id r]) in
          (r :: fst out, snd out)
      | Some info =>
          let out := attach_papers input_papers rest missing_bib_hashes in
          ({| bib_hash_or_arxiv_id := bib_hash_or_arxiv_id r; row := row r;
              corpus_id := pi_corpus_id info; type := type r;
              title := Some (pi_title info); abstract := Some (pi_abstract info) |}
           :: fst out, snd out)
      end
  end.

(** The lists [create_dataset] builds. *)
Record assembly : Type := {
  dataset : list sample;
  missing_bib_hashes : list string;
  skipped_table_hashes : list string
}.

Definition empty_table_json : TableJson :=
  {| table := []; incomplete_rows := []; old_citation_column := None; table_dict := [] |}.

(** [try: table_json = soup_to_json(table_soup)
     except Exception: table_json = {"table_dict": {}}] *)
Definition guarded_soup_to_json (table_soup : Soup) : TableJson :=
  match soup_to_json table_soup with
  | Ok tj => tj
  | Raise _ => empty_table_json
  end.

(** One iteration of the loop over [labeled_tables]. *)
Definition create_dataset_step (filters : list string) (tbl : labeled_table) (acc : assembly)
  : res assembly :=
  skip <- (match lt_labels tbl with
           | Some table_labels => should_skip table_labels filters
           | None => Ok false
           end) ;;
  if skip then Ok acc
  else
    let table_soup := lt_soup tbl in
    let cite_shas := map sha (find_all_cit table_soup) in
    let tj := guarded_soup_to_json table_soup in
    match table_dict tj with
    | [] =>
        Ok {| dataset := dataset acc;
              missing_bib_hashes := missing_bib_hashes acc;
              skipped_table_hashes := skipped_table_hashes acc ++ [lt_table_hash tbl] |}
    | _ :: _ =>
        rbm <- get_table_row_bib_map (table_dict tj) cite_shas (lt_paper_id tbl) ;;
        let attached :=
          match lt_input_papers tbl with
          | Some input_papers => attach_papers input_papers rbm (missing_bib_hashes acc)
          | None => (rbm, missing_bib_hashes acc)
          end in
        let new_sample :=
          {| paper_id := lt_paper_id tbl;
             _pdf_hash := lt_pdf_hash tbl;
             _source_hash := lt_source_hash tbl;
             _source_name := lt_source_name tbl;
             _table_hash := lt_table_hash tbl;
             caption := lt_caption tbl;
             in_text_ref := lt_in_text_ref tbl;
             table_html := table_soup;
             table_json := tj;
             row_bib_map := fst attached;
             bib_hash := cite_shas;
             labels := lt_labels tbl |} in
        Ok {| dataset := dataset acc ++ [new_sample];
              missing_bib_hashes := snd attached;
              skipped_table_hashes := skipped_table_hashes acc |}
    end.

Fixpoint create_dataset_loop (filters : list string) (labeled_tables : list labeled_table)
    (acc : assembly) : res assembly :=
  match labeled_tables with
  | [] => Ok acc
  | tbl :: rest =>
      acc' <- create_dataset_step filters tbl acc ;;
      create_dataset_loop filters rest acc'
  end.

Definition empty_assembly : assembly :=
  {| dataset := []; missing_bib_hashes := []; skipped_table_hashes := [] |}.

Definition create_dataset (labeled_tables : list labeled_table) (filters : list string)
  : res (list sample) :=
  acc <- create_dataset_loop filters labeled_tables empty_assembly ;;
  Ok (dataset acc).

(** *** get_high_quality_tables *)

Definition DEFAULT_POST_JSON_FILTERS : list string :=
  ["no_formula"; "has_caption"; "no_no_cite"; "no_dup"].

(** [d[k]] *)
Definition dict_item {V : Type} (d : dict V) (k : string) : res V :=
  match dict_get d k with
  | Some v => Ok v
  | None => Raise KeyError
  end.

(** [table[key]] for a key that may be missing. *)
Definition item {V : Type} (field : option V) : res V :=
  match field with
  | Some v => Ok v
  | None => Raise KeyError
  end.

(** ["\n".join(["\t".join([colname] + table_dict[colname]) for colname in table_dict])] *)
Definition tab : string := String "009"%char EmptyString.
Definition nl : string := String newline EmptyString.

Definition table_str_of (d : dict (list string)) : string :=
  join nl (map (fun col => join tab (fst col :: snd col)) d).

(** [r"(and|[,])"] *)
Definition and_or_comma : matcher :=
  fun s =>
    if startswith "and" s then Some 3
    else if startswith "," s then Some 1
    else None.

(** [re.match(r"\d+$", col) is not None] *)
Definition numeric_header (col : string) : bool :=
  let n := digits_len col in
  (1 <=? n) && (is_empty (drop n col) || String.eqb (drop n col) nl).

(** [r"{{cite:.{7}}}"] *)
Definition any_cite : matcher :=
  fun s =>
    if startswith "{{cite:" s then
      let key := take 7 (drop 7 s) in
      if (String.length key =? 7) && negb (contains nl key) && startswith "}}" (drop 14 s)
      then Some 16 else None
    else None.

Definition GENERIC_HEADERS : list string :=
  ["Venue"; "Month"; "Year"; "No."; "[HTML]D0CECE" +++ nl +++ "Year"; "Title"; "URL";
   "[HTML]BBDAFFYear"; "Link"; "Version"; "Organiser"; "Citations"; "Pub.";
   "Title of Survey Article"; "License"; "Publication"].

Definition NAME_HEADERS : list string :=
  ["reference"; "author"; "reference-(5)"; "author/reference"].

(** The always-on rule: every cell is a dash or starts, once "and" and
    commas are removed, with a citation marker. *)
Definition only_additional_citations (values : list string) : bool :=
  forallb (fun cell =>
             String.eqb (strip cell) "-"
             || startswith "{{cite:" (strip (re_sub and_or_comma EmptyString cell)))
          values.

Definition opt_eqb (a : option string) (b : string) : bool :=
  match a with
  | Some x => String.eqb x b
  | None => false
  end.

(** [col in remove_cols] *)
Definition in_remove_cols (col : string) (remove_cols : list (option string)) : bool :=
  existsb (fun x => opt_eqb x col) remove_cols.

(** The entries one iteration of [for col in table_dict.keys()] appends to
    [remove_cols].  [col.lower in {...}] compares the bound method with
    strings and is never true. *)
Definition remove_cols_step (filters : list string) (old_col : option string)
    (col : string) (values : list string) (remove_cols : list (option string))
  : res (list (option string)) :=
  let add (b : bool) (x : option string) (l : list (option string)) :=
    if b then l ++ [x] else l in
  let l := add (only_additional_citations values) (Some col) remove_cols in
  let l := add (numeric_header col) (Some col) l in
  let l := add (mem "cols_no_formula" filters
                && existsb (contains "{{formula:") (values ++ [col])) (Some col) l in
  let l := add (mem "cols_no_formula_colname" filters && contains "{{formula:" col)
             (Some col) l in
  let l := add (mem "cols_no_names" filters && mem (lower col) NAME_HEADERS) (Some col) l in
  let l := add ((mem "col_no_generic" filters && mem col GENERIC_HEADERS) || false)
             (Some col) l in
  let l := add (mem "cols_no_old_citation_col" filters) old_col l in
  let l := add (mem "cols_no_float" filters
                && existsb (re_search FLOAT_REGEX) (values ++ [col])) (Some col) l in
  let l := add (mem "cols_no_figure" filters
                && existsb (contains "{{figure") (values ++ [col])) (Some col) l in
  if mem "cols_no_ent_or_gen" filters || mem "cols_no_numeric" filters then
    aspect_type <- SummarizeDataset.get_aspect_type values ;;
    let l := add (mem "cols_no_numeric" filters && String.eqb aspect_type "num")
               (Some col) l in
    let l := add (mem "cols_no_ent_or_gen" filters && mem aspect_type ["gen"; "ent"])
               (Some col) l in
    Ok l
  else Ok l.

Fixpoint collect_remove_cols (filters : list string) (old_col : option string)
    (cols : dict (list string)) (remove_cols : list (option string))
  : res (list (option string)) :=
  match cols with
  | [] => Ok remove_cols
  | (col, values) :: rest =>
      l <- remove_cols_step filters old_col col values remove_cols ;;
      collect_remove_cols filters old_col rest l
  end.

(** [[val for row_i, val in enumerate(values) if row_i not in remove_rows]] *)
Fixpoint excise_from (row_i : nat) (remove_rows : list nat) (values : list string)
  : list string :=
  match values with
  | [] => []
  | val :: rest =>
      if existsb (Nat.eqb row_i) remove_rows then excise_from (S row_i) remove_rows rest
      else val :: excise_from (S row_i) remove_rows rest
  end.

Definition excise (remove_rows : list nat) (values : list string) : list string :=
  excise_from 0 remove_rows values.

(** The loop that builds [new_table_dict]. *)
Fixpoint build_new_table_dict (remove_cols : list (option string)) (remove_rows : list nat)
    (cols : dict (list string)) (new_table_dict : dict (list string))
  : dict (list string) :=
  match cols with
  | [] => new_table_dict
  | (col, values) :: rest =>
      if in_remove_cols col remove_cols && negb (String.eqb col "References")
      then build_new_table_dict remove_cols remove_rows rest new_table_dict
      else build_new_table_dict remove_cols remove_rows rest
             (dict_set new_table_dict col (excise remove_rows values))
  end.

(** [s.add(x)] on a set of strings. *)
Definition set_add (x : string) (s : list string) : list string :=
  if mem x s then s else s ++ [x].

Definition is_null (v : option string) : bool :=
  match v with None => true | Some _ => false end.

(** The variables of the loop over [row_bib_map]. *)
Record row_edit : Type := {
  remove_rows : list nat;
  remove_unique_hashes : list string;
  new_row_bib_map : list bib_row
}.

Definition renumbered (r : bib_row) (n : nat) : bib_row :=
  {| bib_hash_or_arxiv_id := bib_hash_or_arxiv_id r; row := n;
     corpus_id := corpus_id r; type := type r;
     title := title r; abstract := abstract r |}.

Definition edit_row (filters : list string) (valid_corpus_ids : list Z) (r : bib_row)
    (acc : row_edit) : res row_edit :=
  no_title <- (if mem "rows_no_missing_titles" filters
               then t <- item (title r) ;; Ok (is_null t) else Ok false) ;;
  no_abstract <- (if mem "rows_no_missing_abstracts" filters
                  then a <- item (abstract r) ;; Ok (is_null a) else Ok false) ;;
  let no_full_text :=
    mem "rows_no_missing_full_texts" filters
    && negb (existsb (Z.eqb (corpus_id r)) valid_corpus_ids) in
  let should_remove_row := no_title || no_abstract || no_full_text in
  let hashes :=
    if should_remove_row
    then set_add (bib_hash_or_arxiv_id r) (remove_unique_hashes acc)
    else remove_unique_hashes acc in
  if should_remove_row then
    Ok {| remove_rows := remove_rows acc ++ [row r];
          remove_unique_hashes := hashes;
          new_row_bib_map := new_row_bib_map acc |}
  else
    Ok {| remove_rows := remove_rows acc;
          remove_unique_hashes := hashes;
          new_row_bib_map :=
            new_row_bib_map acc ++ [renumbered r (List.length (new_row_bib_map acc))] |}.

Fixpoint edit_rows (filters : list string) (valid_corpus_ids : list Z) (rows : list bib_row)
    (acc : row_edit) : res row_edit :=
  match rows with
  | [] => Ok acc
  | r :: rest =>
      acc' <- edit_row filters valid_corpus_ids r acc ;;
      edit_rows filters valid_corpus_ids rest acc'
  end.

(** [[row[key] is None for row in rows]]: every row is read before [any]. *)
Fixpoint nulls (get : bib_row -> option (option string)) (rows : list bib_row)
  : res (list bool) :=
  match rows with
  | [] => Ok []
  | r :: rest =>
      v <- item (get r) ;;
      l <- nulls get rest ;;
      Ok (is_null v :: l)
  end.

(** The signature of the duplicate check. *)
Definition table_str_no_refs_of (new_table_dict : dict (list string)) : string :=
  join nl
    (map (fun col => re_sub any_cite "[cite]" (join tab (fst col :: snd col)))
         (filter (fun col => negb (String.eqb (fst col) "References")) new_table_dict)).

(** The body of the loop over the tables: [None] is a [continue], [Some] the
    record that is appended; the set of signatures seen is threaded. *)
Definition filter_table (filters : list string) (valid_corpus_ids : list Z)
    (seen_table_strs : list string) (tbl : sample)
  : res (option sample * list string) :=
  let skip := Ok (None, seen_table_strs) in
  let table_str := table_str_of (table_dict (table_json tbl)) in
  if mem "no_formula" filters && contains "{{formula:" table_str then skip else
  no_caption <-
    (a_and_b <- (if mem "has_caption" filters
                 then c <- item (caption tbl) ;; Ok (String.eqb c "NO_CAPTION")
                 else Ok false) ;;
     if (a_and_b : bool) then Ok true
     else c <- item (caption tbl) ;; Ok (negb (truthy (strip c)))) ;;
  if (no_caption : bool) then skip else
  no_ref <- (if mem "has_in_text_ref" filters
             then r <- item (in_text_ref tbl) ;;
                  Ok (match r with [] => true | _ => false end)
             else Ok false) ;;
  if (no_ref : bool) then skip else
  if mem "no_no_cite" filters && contains "no_cite" table_str then skip else
  if mem "max_one_no_cite" filters && (1 <? count "no_cite" table_str) then skip else
  if mem "no_merged_headers" filters
     && existsb (contains "-") (keys (table_dict (table_json tbl))) then skip else
  let table_dict := table_dict (table_json tbl) in
  references <- dict_item table_dict "References" ;;
  if forallb (fun cell => String.eqb (strip cell) "-") references then skip else
  if mem "no_missing_titles" filters
     && match nulls title (row_bib_map tbl) with
        | Ok l => existsb (fun b => b) l
        | Raise _ => true
        end
  then skip else
  no_abstracts <- (if mem "no_missing_abstracts" filters
                   then l <- nulls abstract (row_bib_map tbl) ;; Ok (existsb (fun b => b) l)
                   else Ok false) ;;
  if (no_abstracts : bool) then skip else
  rows <- edit_rows filters valid_corpus_ids (row_bib_map tbl)
            {| remove_rows := []; remove_unique_hashes := []; new_row_bib_map := [] |} ;;
  if mem "more_than_two_rows" filters
     && (List.length references <? 2 + List.length (remove_rows rows)) then skip else
  if mem "more_than_two_uniq_rows" filters
     && (SummarizeDataset.distinct references
         <? 2 + List.length (remove_unique_hashes rows)) then skip else
  remove_cols <- collect_remove_cols filters (old_citation_column (table_json tbl))
                   table_dict [] ;;
  let new_table_dict := build_new_table_dict remove_cols (remove_rows rows) table_dict [] in
  let min_rows :=
    if mem "cols_no_ent_or_gen" filters || mem "cols_no_numeric" filters then 2 else 3 in
  if List.length new_table_dict <? min_rows then skip else
  let keep seen :=
    Ok (Some {| paper_id := paper_id tbl;
                _pdf_hash := _pdf_hash tbl;
                _source_hash := _source_hash tbl;
                _source_name := _source_name tbl;
                _table_hash := _table_hash tbl;
                caption := caption tbl;
                in_text_ref := in_text_ref tbl;
                table_html := table_html tbl;
                table_json :=
                  {| table := table (table_json tbl);
                     incomplete_rows := incomplete_rows (table_json tbl);
                     old_citation_column := old_citation_column (table_json tbl);
                     table_dict := new_table_dict |};
                row_bib_map := new_row_bib_map rows;
                bib_hash := bib_hash tbl;
                labels := labels tbl |}, seen) in
  if mem "no_dup" filters then
    let table_str_no_refs := table_str_no_refs_of new_table_dict in
    if mem table_str_no_refs seen_table_strs then skip
    else keep (set_add table_str_no_refs seen_table_strs)
  else keep seen_table_strs.

Fixpoint filter_tables (filters : list string) (valid_corpus_ids : list Z)
    (seen_table_strs : list string) (tables : list sample) : res (list sample) :=
  match tables with
  | [] => Ok []
  | tbl :: rest =>
      r <- filter_table filters valid_corpus_ids seen_table_strs tbl ;;
      out <- filter_tables filters valid_corpus_ids (snd r) rest ;;
      match fst r with
      | Some kept => Ok (kept :: out)
      | None => Ok out
      end
  end.

(** [full_texts_corpus_ids] is the list of ids the three files of the
    allow-list hold; it is read only under [rows_no_missing_full_texts]. *)
Definition get_high_quality_tables (full_texts_corpus_ids : list Z)
    (valid_tables_with_jsons : list sample) (filters : option (list string))
  : res (list sample) :=
  let filters :=
    match filters with
    | None => DEFAULT_POST_JSON_FILTERS
    | Some f => f
    end in
  let valid_corpus_ids :=
    if mem "rows_no_missing_full_texts" filters then full_texts_corpus_ids else [] in
  filter_tables filters valid_corpus_ids [] valid_tables_with_jsons.

End ExtractTables.

(** ** soup_to_json on any [cols] attribute *)

(** The functions of [ExtractTables] take the [cols] attribute of a cell as the natural
    number it stands for.  [int] also reads a negative number and raises
    [ValueError] on a text that is no number; the column index of the loop
    then runs through the integers, and a negative index of a Python list
    counts from its end.  [AnyCols] has the cells with such an attribute and
    the functions of [soup_to_json] on them. *)
Module AnyCols.
Import PyStr ExtractTables.

Inductive cols_attr : Type :=
| NoCols                (* no attribute: [attrs.get] gives "1" *)
| Cols (n : Z)          (* [int] reads [n] *)
| NotANumber.           (* [int] raises [ValueError] *)

Record Cell : Type := {
  cell_text : string;          (* cell.text *)
  cell_cols : cols_attr;       (* cell.attrs.get("cols") *)
  cell_cits : list Cit         (* cell.find_all("cit") *)
}.

Definition Row : Type := list Cell.    (* row.find_all("td") *)
Definition Soup : Type := list Row.    (* table_soup.find_all("tr") *)

(** [int(cell.attrs.get("cols", "1"))] *)
Definition num_spanning_cols (cell : Cell) : res Z :=
  match cell_cols cell with
  | NoCols => Ok 1%Z
  | Cols n => Ok n
  | NotANumber => Raise ValueError
  end.

(** [sum([int(cell.attrs.get("cols", "1")) for cell in row.find_all("td")])] *)
Fixpoint sum_spanning_cols (cells : Row) : res Z :=
  match cells with
  | [] => Ok 0%Z
  | cell :: rest =>
      n <- num_spanning_cols cell ;;
      s <- sum_spanning_cols rest ;;
      Ok (n + s)%Z
  end.

Fixpoint sums (rows : list Row) : res (list Z) :=
  match rows with
  | [] => Ok []
  | row :: rest =>
      s <- sum_spanning_cols row ;;
      l <- sums rest ;;
      Ok (s :: l)
  end.

(** [max] of a list of integers; [ValueError] on the empty list. *)
Definition py_max (l : list Z) : res Z :=
  match l with
  | [] => Raise ValueError
  | x :: r => Ok (fold_left Z.max r x)
  end.

Definition get_num_cols (table_soup : Soup) : res Z :=
  s <- sums table_soup ;;
  py_max (map (fun row : Row => Z.of_nat (List.length row)) table_soup ++ s).

(** The position [l[i]] stands for in a list of [len] elements: a negative
    index counts from the end; [None] is an [IndexError]. *)
Definition index (len : nat) (i : Z) : option nat :=
  if ((0 <=? i) && (i <? Z.of_nat len))%Z then Some (Z.to_nat i)
  else if ((i <? 0) && (- Z.of_nat len <=? i))%Z then Some (Z.to_nat (Z.of_nat len + i))
  else None.

(** [table[r][c]] *)
Definition grid_get (g : grid) (r : nat) (c : Z) : option string :=
  match nth_error g r with
  | Some line =>
      match index (List.length line) c with
      | Some k => nth_error line k
      | None => None
      end
  | None => None
  end.

(** [table[r][c] = v] on a position that exists. *)
Definition grid_set (g : grid) (r : nat) (c : Z) (v : string) : grid :=
  match nth_error g r with
  | Some line =>
      match index (List.length line) c with
      | Some k => list_set g r (list_set line k v)
      | None => g
      end
  | None => g
  end.

Fixpoint propagate (g : grid) (row_i : nat) (col : Z) (text : string) (offsets : list nat)
  : fill grid :=
  match offsets with
  | [] => Go g
  | row_offset :: rest =>
      match grid_get g (row_i + row_offset) col with
      | Some v => propagate (grid_set g (row_i + row_offset) col (v +++ text)) row_i col text rest
      | None => EmptyResult g
      end
  end.

Definition write_cell (header_rows : list nat) (row_i : nat) (col : Z) (text : string)
    (g : grid) : fill grid :=
  gt <~ match multirow_search text with
        | Some (count, rest) =>
            g' <~ propagate g row_i col (strip rest) (seq 1 (count - 1)) ;;
            Go (g', rest)
        | None => Go (g, text)
        end ;;
  let g1 := fst gt in
  let cell_text := snd gt in
  let cell_text :=
    if re_search hline cell_text then re_sub hline EmptyString cell_text else cell_text in
  cell_text <~ (if is_na (strip cell_text) then
                  match grid_get g1 row_i col with
                  | None => Escapes IndexError
                  | Some v =>
                      Go (if negb (truthy v) && negb (existsb (Nat.eqb row_i) header_rows)
                          then "-" else cell_text)
                  end
                else Go cell_text) ;;
  match grid_get g1 row_i col with
  | None => Escapes IndexError
  | Some v =>
      if truthy v then Go g1
      else Go (grid_set g1 row_i col (v +++ strip cell_text))
  end.

(** [for col_offset in range(num_spanning_cols)] *)
Fixpoint write_span (header_rows : list nat) (row_i : nat) (col_i : Z) (text : string)
    (col_offsets : list nat) (g : grid) : fill grid :=
  match col_offsets with
  | [] => Go g
  | col_offset :: rest =>
      g' <~ write_cell header_rows row_i (col_i + Z.of_nat col_offset)%Z text g ;;
      write_span header_rows row_i col_i text rest g'
  end.

(** [for cell in cells: ...; col_i += num_spanning_cols] *)
Fixpoint write_cells (header_rows : list nat) (row_i : nat) (col_i : Z) (cells : list Cell)
    (g : grid) : fill grid :=
  match cells with
  | [] => Go g
  | cell :: rest =>
      match num_spanning_cols cell with
      | Raise e => Escapes e
      | Ok n =>
          g' <~ write_span header_rows row_i col_i (cell_text cell)
                  (seq 0 (Z.to_nat n)) g ;;
          write_cells header_rows row_i (col_i + n)%Z rest g'
      end
  end.

Definition has_cit (cell : Cell) : bool :=
  match cell_cits cell with [] => false | _ => true end.

Definition has_figure (cell : Cell) : bool := contains "{{figure:" (cell_text cell).

Definition fill_row (num_cols : Z) (row_i : nat) (cells : Row) (st : fill_state)
  : row_course :=
  let num_cites := List.length (filter has_cit cells) in
  let seen_cites := if 0 <? num_cites then true else st_seen_cites st in
  let header_rows :=
    if (num_cites =? 0) && (row_i <=? 1) && negb seen_cites
    then st_header_rows st ++ [row_i] else st_header_rows st in
  let write header_rows :=
    match write_cells header_rows row_i 0%Z cells (st_table st) with
    | Go g => RowDone {| st_table := g;
                         st_incomplete_rows := st_incomplete_rows st;
                         st_header_rows := header_rows;
                         st_seen_cites := seen_cites |}
    | EmptyResult g => RowEmptyResult g (st_incomplete_rows st)
    | Escapes e => RowEscapes e
    end in
  if (Z.of_nat (List.length cells) <? num_cols)%Z && negb seen_cites then
    write (header_rows ++ [row_i])
  else if (Z.of_nat (List.length cells) <? num_cols)%Z || existsb has_figure cells then
    RowDone {| st_table := st_table st;
               st_incomplete_rows :=
                 st_incomplete_rows st ++ [(row_i, map cell_text cells)];
               st_header_rows := header_rows;
               st_seen_cites := seen_cites |}
  else write header_rows.

Fixpoint fill_rows (num_cols : Z) (row_i : nat) (rows : list Row) (st : fill_state)
  : row_course :=
  match rows with
  | [] => RowDone st
  | cells :: rest =>
      match fill_row num_cols row_i cells st with
      | RowDone st' => fill_rows num_cols (S row_i) rest st'
      | stop => stop
      end
  end.

(** [[["" for ci in range(num_cols)] for ri in range(num_rows)]] *)
Definition initial_state (num_rows : nat) (num_cols : Z) : fill_state :=
  {| st_table := repeat (repeat EmptyString (Z.to_nat num_cols)) num_rows;
     st_incomplete_rows := [];
     st_header_rows := [];
     st_seen_cites := false |}.

Definition fill_table (table_soup : Soup) : res row_course :=
  num_cols <- get_num_cols table_soup ;;
  Ok (fill_rows num_cols 0 table_soup (initial_state (List.length table_soup) num_cols)).

Definition soup_to_json (table_soup : Soup) : res TableJson :=
  course <- fill_table table_soup ;;
  match course with
  | RowEscapes e => Raise e
  | RowEmptyResult g inc =>
      Ok {| table := g; incomplete_rows := inc;
            old_citation_column := None; table_dict := [] |}
  | RowDone st =>
      merged <-
        (match st_header_rows st with
         | [] => Ok (st_table st)
         | h :: hs => merge_header (fold_left Nat.max hs h) (st_table st)
         end) ;;
      let table_filtered := filter (fun row => existsb truthy row) merged in
      if negb (existsb (fun row => truthy (join EmptyString row)) table_filtered) then
        Ok {| table := table_filtered; incomplete_rows := st_incomplete_rows st;
              old_citation_column := None; table_dict := [] |}
      else
        match table_filtered with
        | [] => Raise IndexError
        | cols :: data =>
            table_df <- DataFrame data cols ;;
            r <- postprocess_table_df table_df ;;
            Ok {| table := table_filtered; incomplete_rows := st_incomplete_rows st;
                  old_citation_column := Some (snd r); table_dict := to_dict (fst r) |}
        end
  end.

(** The cell of [ExtractTables] for a cell whose attribute is absent or a
    natural number. *)
Definition natural (cell : Cell) : ExtractTables.Cell :=
  {| ExtractTables.cell_text := cell_text cell;
     ExtractTables.cell_cols :=
       match cell_cols cell with
       | Cols n => Some (Z.to_nat n)
       | _ => None
       end;
     ExtractTables.cell_cits := cell_cits cell |}.

End AnyCols.

(** ** Notions of the specification and inputs of the examples *)

Import PyStr ExtractTables.

(** The filters in force: the default list when none is given. *)
Definition filters_in_force (filters : option (list string)) : list string :=
  match filters with
  | None => DEFAULT_POST_JSON_FILTERS
  | Some f => f
  end.

(** The record [filter_table] appends, from the record it reads. *)
Definition kept_record (tbl : sample) (new_table_dict : dict (list string))
    (rows : list bib_row) : sample :=
  {| paper_id := paper_id tbl;
     _pdf_hash := _pdf_hash tbl;
     _source_hash := _source_hash tbl;
     _source_name := _source_name tbl;
     _table_hash := _table_hash tbl;
     caption := caption tbl;
     in_text_ref := in_text_ref tbl;
     table_html := table_html tbl;
     table_json :=
       {| table := table (table_json tbl);
          incomplete_rows := incomplete_rows (table_json tbl);
          old_citation_column := old_citation_column (table_json tbl);
          table_dict := new_table_dict |};
     row_bib_map := rows;
     bib_hash := bib_hash tbl;
     labels := labels tbl |}.

Definition no_rows : row_edit :=
  {| remove_rows := []; remove_unique_hashes := []; new_row_bib_map := [] |}.


(** *** The row-to-bibliography mapping, as the specification words it *)

(** The marker of the cell, if any, has an entry in the map of known keys. *)
Definition resolvable (ids : dict string) (cell_val : string) : bool :=
  match cite_search cell_val with
  | Some cite_id =>
      match dict_get ids cite_id with Some _ => true | None => false end
  | None => true
  end.

(** One [ref] entry for each row whose cell holds a marker, in row order. *)
Fixpoint ref_entries (ids : dict string) (i : nat) (cells : list string) : list bib_row :=
  match cells with
  | [] => []
  | cell_val :: rest =>
      match cite_search cell_val with
      | Some cite_id =>
          match dict_get ids cite_id with
          | Some bib_hash_match => ref_entry bib_hash_match i :: ref_entries ids (S i) rest
          | None => ref_entries ids (S i) rest
          end
      | None => ref_entries ids (S i) rest
      end
  end.

(** The rows whose cell holds a marker. *)
Fixpoint marker_rows (i : nat) (cells : list string) : list nat :=
  match cells with
  | [] => []
  | cell_val :: rest =>
      if has_cite cell_val then i :: marker_rows (S i) rest else marker_rows (S i) rest
  end.

(** A candidate self row: no marker and no "standard" in the text. *)
Definition is_self_candidate (cell_val : string) : bool :=
  negb (has_cite cell_val) && negb (contains "standard" (lower cell_val)).

(** The last candidate self row. *)
Fixpoint last_self_candidate (i : nat) (cells : list string) : option nat :=
  match cells with
  | [] => None
  | cell_val :: rest =>
      match last_self_candidate (S i) rest with
      | Some j => Some j
      | None => if is_self_candidate cell_val then Some i else None
      end
  end.

(** The [ref] entries, then the self entry of the last candidate. *)
Definition spec_row_bib_map (ids : dict string) (paper_id : string) (cells : list string)
  : list bib_row :=
  ref_entries ids 0 cells
  ++ match last_self_candidate 0 cells with
     | Some j => [ours_entry paper_id j]
     | None => []
     end.

Definition is_ours (r : bib_row) : bool := String.eqb (type r) "ours".

(** The same mapping in the words of the specification alone: "standard" in
    any letter case, and entries given by their type, row and id. *)

(** The character [b] of a text is the character [a] of a pattern or its
    upper-case form. *)
Definition same_letter (a b : ascii) : bool :=
  (nat_of_ascii b =? nat_of_ascii a)
  || ((65 <=? nat_of_ascii b) && (nat_of_ascii b <=? 90)
      && (nat_of_ascii a =? nat_of_ascii b + 32)).

Fixpoint startswith_ignoring_case (p s : string) : bool :=
  match p, s with
  | EmptyString, _ => true
  | String a p', String b s' => same_letter a b && startswith_ignoring_case p' s'
  | String _ _, EmptyString => false
  end.

Fixpoint contains_ignoring_case (p s : string) : bool :=
  startswith_ignoring_case p s
  || match s with
     | EmptyString => false
     | String _ r => contains_ignoring_case p r
     end.

(** A self row: no marker, and no "standard" in any letter case. *)
Definition is_self_row (cell_val : string) : bool :=
  negb (has_cite cell_val) && negb (contains_ignoring_case "standard" cell_val).

(** The last self row. *)
Fixpoint last_self_row (i : nat) (cells : list string) : option nat :=
  match cells with
  | [] => None
  | cell_val :: rest =>
      match last_self_row (S i) rest with
      | Some j => Some j
      | None => if is_self_row cell_val then Some i else None
      end
  end.

(** An entry, by its type, its row and its id. *)
Definition entry_of (r : bib_row) : string * nat * string :=
  (type r, row r, bib_hash_or_arxiv_id r).

(** One "ref" entry for each row with a marker, in row order, with the hash
    of the key of the marker. *)
Fixpoint described_refs (ids : dict string) (i : nat) (cells : list string)
  : list (string * nat * string) :=
  match cells with
  | [] => []
  | cell_val :: rest =>
      match cite_search cell_val with
      | Some key =>
          match dict_get ids key with
          | Some bib_hash_match => ("ref", i, bib_hash_match) :: described_refs ids (S i) rest
          | None => described_refs ids (S i) rest
          end
      | None => described_refs ids (S i) rest
      end
  end.

(** The "ref" entries, then one "ours" entry, with the id of the paper, for
    the last self row. *)
Definition described_entries (ids : dict string) (paper_id : string) (cells : list string)
  : list (string * nat * string) :=
  described_refs ids 0 cells
  ++ match last_self_row 0 cells with
     | Some j => [("ours", j, paper_id)]
     | None => []
     end.

(** *** The branch of [split_references_column] that renames the source *)

Definition renamed_source (name : string) (table_df : dataframe) : dataframe :=
  rename_columns name "References" table_df.

Definition reordered (name : string) (table_df : dataframe) : dataframe :=
  select_columns
    ("References"
     :: filter (fun col => negb (String.eqb col "References"))
          (columns (renamed_source name table_df)))
    (renamed_source name table_df).

(** *** The rules of the pipeline on columns and rows *)

(** The two rules that need no flag. *)
Definition always_on_rule (col : string) (values : list string) : bool :=
  only_additional_citations values || numeric_header col.

(** The rule on the aspect type, under its two flags. *)
Definition aspect_rule (filters : list string) (values : list string) : bool :=
  (mem "cols_no_ent_or_gen" filters || mem "cols_no_numeric" filters)
  && match SummarizeDataset.get_aspect_type values with
     | Ok aspect_type =>
         (mem "cols_no_numeric" filters && String.eqb aspect_type "num")
         || (mem "cols_no_ent_or_gen" filters && mem aspect_type ["gen"; "ent"])
     | Raise _ => false
     end.

(** The rules on the column itself that a flag enables. *)
Definition flag_rule (filters : list string) (col : string) (values : list string) : bool :=
  (mem "cols_no_formula" filters && existsb (contains "{{formula:") (values ++ [col]))
  || (mem "cols_no_formula_colname" filters && contains "{{formula:" col)
  || (mem "cols_no_names" filters && mem (lower col) NAME_HEADERS)
  || (mem "col_no_generic" filters && mem col GENERIC_HEADERS)
  || (mem "cols_no_float" filters && existsb (re_search FLOAT_REGEX) (values ++ [col]))
  || (mem "cols_no_figure" filters && existsb (contains "{{figure") (values ++ [col]))
  || aspect_rule filters values.

(** The header is the recorded old citation column, under its flag. *)
Definition old_citation_rule (filters : list string) (old_col : option string)
    (col : string) : bool :=
  mem "cols_no_old_citation_col" filters && opt_eqb old_col col.

(** Some rule in force matches the column. *)
Definition column_removed (filters : list string) (old_col : option string)
    (col : string) (values : list string) : bool :=
  always_on_rule col values || flag_rule filters col values
  || old_citation_rule filters old_col col.

(** Some flag on columns is enabled. *)
Definition column_flag_enabled (filters : list string) : bool :=
  existsb (fun flag => mem flag filters)
    ["cols_no_formula"; "cols_no_formula_colname"; "cols_no_names"; "col_no_generic";
     "cols_no_old_citation_col"; "cols_no_float"; "cols_no_figure";
     "cols_no_ent_or_gen"; "cols_no_numeric"].

(** The least number of columns of a kept table. *)
Definition min_columns (filters : list string) : nat :=
  if mem "cols_no_ent_or_gen" filters || mem "cols_no_numeric" filters then 2 else 3.

Definition null_field (field : option (option string)) : bool :=
  match field with
  | Some v => is_null v
  | None => false
  end.

(** Some enabled flag on rows removes the row. *)
Definition row_removed (filters : list string) (valid_corpus_ids : list Z) (r : bib_row)
  : bool :=
  (mem "rows_no_missing_titles" filters && null_field (title r))
  || (mem "rows_no_missing_abstracts" filters && null_field (abstract r))
  || (mem "rows_no_missing_full_texts" filters
      && negb (existsb (Z.eqb (corpus_id r)) valid_corpus_ids)).

(** The entries in their order, numbered from [n] on. *)
Fixpoint renumber_from (n : nat) (rows : list bib_row) : list bib_row :=
  match rows with
  | [] => []
  | r :: rest => renumbered r n :: renumber_from (S n) rest
  end.

(** *** The classification of the rows by [soup_to_json] *)

(** Some cell of the row holds a citation. *)
Definition row_has_cites (cells : Row) : bool := existsb has_cit cells.

(** The row has fewer cells than the table has columns and no citation has
    been seen, this row included. *)
Definition short_header (num_cols : nat) (seen_earlier : bool) (cells : Row) : bool :=
  (List.length cells <? num_cols) && negb (seen_earlier || row_has_cites cells).

(** A header row: no citation in the row, index at most 1 and no citation
    in an earlier row; or a short row while no citation has been seen. *)
Definition is_header_row (num_cols : nat) (seen_earlier : bool) (i : nat) (cells : Row)
  : bool :=
  (negb (row_has_cites cells) && (i <=? 1) && negb seen_earlier)
  || short_header num_cols seen_earlier cells.

(** The rows that [soup_to_json] records as incomplete. *)
Definition is_incomplete_row (num_cols : nat) (seen_earlier : bool) (cells : Row) : bool :=
  negb (short_header num_cols seen_earlier cells)
  && ((List.length cells <? num_cols) || existsb has_figure cells).

(** The entries of [incomplete_rows] for the rows from index [i] on. *)
Fixpoint incomplete_from (num_cols : nat) (seen : bool) (i : nat) (rows : list Row)
  : list (nat * list string) :=
  match rows with
  | [] => []
  | cells :: rest =>
      (if is_incomplete_row num_cols seen cells then [(i, map cell_text cells)] else [])
      ++ incomplete_from num_cols (seen || row_has_cites cells) (S i) rest
  end.

(** A grid of [R] rows of [C] cells. *)
Definition rectangular (R C : nat) (g : grid) : Prop :=
  List.length g = R /\ Forall (fun line => List.length line = C) g.

(** Every position of [g] holds in [g'] the text it held in [g], with what
    was appended to it. *)
Definition extends (g g' : grid) : Prop :=
  forall r c v, grid_get g r c = Some v -> exists w, grid_get g' r c = Some (v +++ w).

(** The text [write_cell] puts into an empty position, from the text left
    after the row-span marker. *)
Definition written_text (in_header : bool) (cell_text : string) : string :=
  let cell_text :=
    if re_search hline cell_text then re_sub hline EmptyString cell_text else cell_text in
  strip (if is_na (strip cell_text) && negb in_header then "-" else cell_text).

(** The end of the body of [write_cell], once the row-span marker has been
    read: the rule marker is removed, the placeholder substituted and the
    text written if the position is empty. *)
Definition finish_cell (header_rows : list nat) (row_i col : nat) (cell_text : string)
    (g : grid) : fill grid :=
  let cell_text :=
    if re_search hline cell_text then re_sub hline EmptyString cell_text else cell_text in
  cell_text <~ (if is_na (strip cell_text) then
                  match grid_get g row_i col with
                  | None => Escapes IndexError
                  | Some v =>
                      Go (if negb (truthy v) && negb (existsb (Nat.eqb row_i) header_rows)
                          then "-" else cell_text)
                  end
                else Go cell_text) ;;
  match grid_get g row_i col with
  | None => Escapes IndexError
  | Some v =>
      if truthy v then Go g
      else Go (grid_set g row_i col (v +++ strip cell_text))
  end.

(** The rows [fill_row] adds to [header_rows]. *)
Definition new_header_rows (num_cols : nat) (seen_earlier : bool) (i : nat) (cells : Row)
  : list nat :=
  (if negb (row_has_cites cells) && (i <=? 1) && negb seen_earlier then [i] else [])
  ++ (if short_header num_cols seen_earlier cells then [i] else []).

(** The row span of a text, if it has one, stays in a grid of [R] rows. *)
Definition span_in_range (R row_i : nat) (text : string) : Prop :=
  forall count rest, multirow_search text = Some (count, rest) -> row_i + (count - 1) < R.

(** *** Well-formed frames and dictionaries *)

(** The last of the listed hashes whose first seven characters are [key]. *)
Fixpoint last_with_prefix (key : string) (bib_hashes : list (option string))
  : option string :=
  match bib_hashes with
  | [] => None
  | b :: rest =>
      match last_with_prefix key rest with
      | Some bib_ref => Some bib_ref
      | None =>
          match b with
          | Some bib_ref => if String.eqb (take 7 bib_ref) key then Some bib_ref else None
          | None => None
          end
      end
  end.

(** *** The loop of [create_dataset], table by table *)

(** The labels of the table let it through the label filters. *)
Definition passes_labels (filters : list string) (tbl : labeled_table) : bool :=
  match lt_labels tbl with
  | Some table_labels =>
      match should_skip table_labels filters with
      | Ok false => true
      | _ => false
      end
  | None => true
  end.

(** [soup_to_json] returns a [table_dict] with a column for the table. *)
Definition reconstructed (tbl : labeled_table) : bool :=
  match table_dict (guarded_soup_to_json (lt_soup tbl)) with
  | [] => false
  | _ :: _ => true
  end.

(** The entry of a row once the paper of its id, if listed, is attached. *)
Definition with_paper (input_papers : dict paper_info) (r : bib_row) : bib_row :=
  match dict_get input_papers (bib_hash_or_arxiv_id r) with
  | None => r
  | Some info =>
      {| bib_hash_or_arxiv_id := bib_hash_or_arxiv_id r; row := row r;
         corpus_id := pi_corpus_id info; type := type r;
         title := Some (pi_title info); abstract := Some (pi_abstract info) |}
  end.

Definition listed (input_papers : dict paper_info) (r : bib_row) : bool :=
  match dict_get input_papers (bib_hash_or_arxiv_id r) with
  | Some _ => true
  | None => false
  end.

(** The record [s] is the one [create_dataset] appends for the table. *)
Definition emitted (tbl : labeled_table) (s : sample) : Prop :=
  soup_to_json (lt_soup tbl) = Ok (table_json s)
  /\ table_html s = lt_soup tbl
  /\ _table_hash s = lt_table_hash tbl
  /\ paper_id s = lt_paper_id tbl
  /\ bib_hash s = map sha (find_all_cit (lt_soup tbl))
  /\ exists rbm,
       get_table_row_bib_map (table_dict (table_json s)) (bib_hash s) (paper_id s) = Ok rbm
       /\ row_bib_map s = match lt_input_papers tbl with
                          | Some input_papers => map (with_paper input_papers) rbm
                          | None => rbm
                          end.

(** *** The pipeline, record by record *)

(** The signature of a record in the duplicate check. *)
Definition signature (s : sample) : string :=
  table_str_no_refs_of (table_dict (table_json s)).

(** The fields of a record that the pipeline copies. *)
Definition untouched (s : sample) :=
  (paper_id s, _pdf_hash s, _source_hash s, _source_name s, _table_hash s,
   caption s, in_text_ref s, table_html s,
   (table (table_json s), incomplete_rows (table_json s),
    old_citation_column (table_json s)),
   bib_hash s, labels s).

(** [l1] is [l2] with some of its elements left out. *)
Inductive Subsequence {A : Type} : list A -> list A -> Prop :=
| sub_nil : Subsequence [] []
| sub_skip (x : A) (l1 l2 : list A) : Subsequence l1 l2 -> Subsequence l1 (x :: l2)
| sub_keep (x : A) (l1 l2 : list A) : Subsequence l1 l2 -> Subsequence (x :: l1) (x :: l2).

(** A string that does not start with white space. *)
Definition starts_clean (s : string) : bool :=
  match s with
  | EmptyString => true
  | String c _ => negb (is_space c)
  end.

(** *** The [cols] attributes of a tree *)

(** The [cols] attribute of the cell is absent or a natural number. *)
Definition natural_cols (cell : AnyCols.Cell) : bool :=
  match AnyCols.cell_cols cell with
  | AnyCols.NoCols => true
  | AnyCols.Cols n => (0 <=? n)%Z
  | AnyCols.NotANumber => false
  end.

(** No [cols] attribute of the cell is a negative number. *)
Definition no_negative_cols (cell : AnyCols.Cell) : bool :=
  match AnyCols.cell_cols cell with
  | AnyCols.Cols n => (0 <=? n)%Z
  | _ => true
  end.

(** Every column of the frame has [n] values. *)
Definition frame_rect (n : nat) (df : dataframe) : Prop :=
  Forall (fun col => List.length (snd col) = n) df.

Module Examples.

(** A cell without citation. *)
Definition plain (t : string) : Cell :=
  {| cell_text := t; cell_cols := None; cell_cits := [] |}.

(** A cell with one [cit] child. *)
Definition cited (t : string) (key : option string) : Cell :=
  {| cell_text := t; cell_cols := None; cell_cits := [ {| sha := key |} ] |}.

(** Two rows, of two cells and of one cell. *)
Definition two_one : Soup := [[plain "a"; plain "b"]; [plain "c"]].

(** Four rows of one cell. *)
Definition four_rows : Soup := [[plain "a"]; [plain "b"]; [plain "c"]; [plain "d"]].

Definition numeric_column : list string := ["3"; "5"; "-"].
Definition boolean_column : list string := ["yes"; "no"].
Definition constant_column : list string := ["a"; "a"; "a"].
Definition sentence_column : list string :=
  ["this is a long descriptive sentence about something"; "x"].
Definition sentences_column : list string :=
  ["this is a long descriptive sentence about something";
   "yet another rather long descriptive sentence"; "x"].

(** A record of the assembler with the given caption and table. *)
Definition record (cap : option string) (d : dict (list string)) : sample :=
  {| paper_id := "2308.00001"; _pdf_hash := None; _source_hash := None;
     _source_name := None; _table_hash := "t0";
     caption := cap; in_text_ref := None; table_html := [];
     table_json := {| table := []; incomplete_rows := [];
                      old_citation_column := None; table_dict := d |};
     row_bib_map := []; bib_hash := []; labels := None |}.

Definition methods_table : dict (list string) :=
  [("References", ["{{cite:abcdef0}}"; "{{cite:abcdef1}}"]);
   ("Task", ["parsing"; "tagging"]);
   ("Model", ["tree"; "chain"])].

(** A record without caption whose table holds a formula. *)
Definition formula_record : sample :=
  record None [("References", ["{{cite:abcdef0}}"]); ("Loss", ["{{formula:1}}"])].

Definition uncaptioned_record : sample := record None methods_table.
Definition blank_caption_record : sample := record (Some "  ") methods_table.
Definition captioned_record : sample := record (Some "Methods") methods_table.

(** A labelled table around a tree. *)
Definition labelled (hash : string) (s : Soup) : labeled_table :=
  {| lt_labels := None; lt_soup := s; lt_paper_id := "2308.00001";
     lt_pdf_hash := None; lt_source_hash := None; lt_source_name := None;
     lt_table_hash := hash; lt_caption := Some "Methods";
     lt_in_text_ref := None; lt_input_papers := None |}.

(** A table whose first citation has no [sha]: its marker has no entry in
    the map of known keys. *)
Definition unmapped_soup : Soup :=
  [[plain "Method"; plain "Feature"];
   [cited "{{cite:abcdef0}} A" None; plain "yes"];
   [cited "{{cite:abcdef1}} B" (Some "abcdef1234"); plain "no"]].

Definition mapped_soup : Soup :=
  [[plain "Method"; plain "Feature"];
   [cited "{{cite:abcdef0}} A" (Some "abcdef0999"); plain "yes"];
   [cited "{{cite:abcdef1}} B" (Some "abcdef1234"); plain "no"]].

(** A row span that leaves the table. *)
Definition overflowing_soup : Soup :=
  [[plain "3*foo"; plain "a"]; [cited "b" (Some "abcdef0999"); plain "c"]].

(** A reconstructed table of four rows: two citations, a row of the
    containing paper, a "standard" row and a second row without marker. *)
Definition four_rows_dict : dict (list string) :=
  [("References", ["{{cite:abcdef0}}"; "no_cite-0"; "Standard model"; "{{cite:abcdef1}}";
                   "no_cite-1"]);
   ("Task", ["parsing"; "tagging"; "parsing"; "chunking"; "tagging"])].

Definition known_keys : list (option string) :=
  [Some "abcdef0999"; None; Some "abcdef1234"].

(** A frame with a column "References" that is not the column of the
    citations. *)
Definition collision_frame : dataframe :=
  [("Method", ["{{cite:abcdef0}} A"; "{{cite:abcdef1}} B"]);
   ("References", ["see text"; "see text"])].

(** A frame whose first column holds markers only. *)
Definition markers_frame : dataframe :=
  [("Method", ["{{cite:abcdef0}}"; "{{cite:abcdef1}}"]);
   ("Task", ["parsing"; "tagging"])].

(** A record with a column of years and a column of dashes. *)
Definition years_table : dict (list string) :=
  [("References", ["{{cite:abcdef0}}"; "{{cite:abcdef1}}"]);
   ("2020", ["12"; "15"]);
   ("Task", ["parsing"; "tagging"]);
   ("Notes", ["-"; "-"]);
   ("Model", ["tree"; "chain"])].

Definition years_record : sample := record (Some "Methods") years_table.

(** A record of three rows whose second reference has no title. *)
Definition resolved (key : string) (i : nat) (t : option string) : bib_row :=
  {| bib_hash_or_arxiv_id := key; row := i; corpus_id := 7%Z; type := "ref";
     title := Some t; abstract := Some (Some "abstract") |}.

Definition untitled_record : sample :=
  {| paper_id := "2308.00001"; _pdf_hash := None; _source_hash := None;
     _source_name := None; _table_hash := "t0";
     caption := Some "Methods"; in_text_ref := None; table_html := [];
     table_json :=
       {| table := []; incomplete_rows := []; old_citation_column := None;
          table_dict :=
            [("References", ["{{cite:abcdef0}}"; "{{cite:abcdef1}}"; "{{cite:abcdef2}}"]);
             ("Task", ["parsing"; "tagging"; "chunking"]);
             ("Model", ["tree"; "chain"; "graph"])] |};
     row_bib_map :=
       [resolved "abcdef0999" 0 (Some "A"); resolved "abcdef1234" 1 None;
        resolved "abcdef2345" 2 (Some "C")];
     bib_hash := []; labels := None |}.

(** What the pipeline keeps of these records. *)
Definition years_table_kept : dict (list string) :=
  [("References", ["{{cite:abcdef0}}"; "{{cite:abcdef1}}"]);
   ("Task", ["parsing"; "tagging"]);
   ("Model", ["tree"; "chain"])].

Definition untitled_table_kept : dict (list string) :=
  [("References", ["{{cite:abcdef0}}"; "{{cite:abcdef2}}"]);
   ("Task", ["parsing"; "chunking"]);
   ("Model", ["tree"; "graph"])].

Definition untitled_rows_kept : list bib_row :=
  [resolved "abcdef0999" 0 (Some "A"); resolved "abcdef2345" 1 (Some "C")].

(** A row span of three rows in a table of three rows. *)
Definition spanning_soup : Soup :=
  [[plain "3*foo"; plain "a"];
   [cited "b" (Some "abcdef0999"); plain "c"];
   [cited "d" (Some "abcdef1234"); plain "e"]].

(** A short first row that holds a figure, before any citation. *)
Definition figure_header_soup : Soup :=
  [[plain "{{figure:1}}"];
   [cited "{{cite:abcdef0}}" (Some "abcdef0999"); plain "c"];
   [cited "{{cite:abcdef1}}" (Some "abcdef1234"); plain "{{figure:2}}"];
   [plain "d"]].

(** The state of the filling loop after [figure_header_soup]. *)
Definition figure_header_state : fill_state :=
  {| st_table :=
       [["{{figure:1}}"; EmptyString]; ["{{cite:abcdef0}}"; "c"];
        [EmptyString; EmptyString]; [EmptyString; EmptyString]];
     st_incomplete_rows := [(2, ["{{cite:abcdef1}}"; "{{figure:2}}"]); (3, ["d"])];
     st_header_rows := [0; 0];
     st_seen_cites := true |}.

(** A tree with a row without cell. *)
Definition empty_row_soup : Soup :=
  [[plain "Method"; plain "Feature"]; [];
   [cited "{{cite:abcdef0}} A" (Some "abcdef0999"); plain "yes"]].

(** A reconstructed table whose last row holds "standard" in upper case:
    the self row is the second row. *)
Definition standard_last_methods : dict (list string) :=
  [("Method", ["{{cite:abcdef0}} A"; "our method"; "{{cite:abcdef1}} B";
               "STANDARD baseline"]);
   ("Task", ["parsing"; "tagging"; "parsing"; "chunking"])].

(** A table with the papers of its rows: one of the two hashes is listed. *)
Definition with_papers (hash : string) (s : Soup) : labeled_table :=
  {| lt_labels := None; lt_soup := s; lt_paper_id := "2308.00001";
     lt_pdf_hash := None; lt_source_hash := None; lt_source_name := None;
     lt_table_hash := hash; lt_caption := Some "Methods";
     lt_in_text_ref := None;
     lt_input_papers :=
       Some [("abcdef0999",
              {| pi_corpus_id := 42%Z; pi_title := Some "A method";
                 pi_abstract := None |})] |}.

(** A cell with a [cols] attribute. *)
Definition spanning (t : string) (a : AnyCols.cols_attr) : AnyCols.Cell :=
  {| AnyCols.cell_text := t; AnyCols.cell_cols := a; AnyCols.cell_cits := [] |}.

(** A first cell with the attribute [cols="-5"] in a table of two columns. *)
Definition negative_cols_soup : AnyCols.Soup :=
  [[spanning "a" (AnyCols.Cols (-5)); spanning "b" AnyCols.NoCols];
   [spanning "c" AnyCols.NoCols; spanning "d" AnyCols.NoCols]].

(** A cell whose attribute is no number. *)
Definition unreadable_cols_soup : AnyCols.Soup :=
  [[spanning "a" AnyCols.NotANumber; spanning "b" AnyCols.NoCols]].

End Examples.

(** * Properties *)

Import Examples.

(** ** The predicate [has_at_least_2_cols] *)

Lemma length_find_all_td (table_soup : Soup) :
  List.length (find_all_td table_soup)
  = list_sum (map (fun cells : Row => List.length cells) table_soup).
Proof.
  unfold find_all_td.
  induction table_soup as [|cells rest IH]; simpl; [reflexivity|].
  rewrite length_app, IH. reflexivity.
Qed.

(** C8, as stated, fails: on [two_one] the column count of [soup_to_json]
    (the maximum over the rows of cell count and colspan sum) is 2 and there
    are 2 rows, yet [has_at_least_2_cols] is false, so the predicate is not
    equivalent to "at least 2 columns and at least 2 rows". *)
Lemma has_at_least_2_cols_is_not_column_count :
  ~ (has_at_least_2_cols two_one = true
     <-> (exists n, get_num_cols two_one = Ok n /\ 2 <= n) /\ 2 <= List.length two_one).
Proof.
  intros [_ H].
  assert (Hf : has_at_least_2_cols two_one = true).
  { apply H. split; [exists 2; split; [reflexivity | lia] | simpl; lia]. }
  vm_compute in Hf. discriminate Hf.
Qed.

(** The converse direction fails as well: four rows of one cell pass the
    predicate although their column count is 1. *)
Lemma has_at_least_2_cols_single_column :
  has_at_least_2_cols four_rows = true /\ get_num_cols four_rows = Ok 1.
Proof. split; reflexivity. Qed.

(** C8, amended: [has_at_least_2_cols] holds exactly when the tree has at
    least 4 cells in total (the sum of the cell counts of its rows) and at
    least 2 rows. *)
Theorem has_at_least_2_cols_iff (table_soup : Soup) :
  has_at_least_2_cols table_soup = true
  <-> 4 <= list_sum (map (fun cells : Row => List.length cells) table_soup)
      /\ 2 <= List.length table_soup.
Proof.
  unfold has_at_least_2_cols. rewrite length_find_all_td.
  rewrite andb_true_iff, !Nat.leb_le. reflexivity.
Qed.

(** ** The aspect classifier *)

Section AspectOrder.
Import SummarizeDataset.

Variables (first : string) (rest : list string).
Let column := first :: rest.

(** The seven checks, as conditions on the column. *)
Let cite := contains "{{cite:" first.
Let num := forallb (fun val => is_numeric val || is_na val) column.
Let boolean := forallb (fun val => is_binary val || is_na val) column.
Let uniq := distinct column =? 1.
Let repeated := negb (distinct column =? List.length column).
Let long := List.length (val_lens column) <? 2 * sum_bools (val_lens column).

Lemma get_aspect_type_cascade :
  get_aspect_type column
  = Ok (if cite then "cite" else if num then "num" else if boolean then "bool"
        else if uniq then "cat-uniq" else if repeated then "cat"
        else if long then "gen" else "ent").
Proof.
  unfold get_aspect_type, column.
  fold column. fold cite. fold num. fold boolean. fold uniq. fold repeated. fold long.
  destruct cite, num, boolean, uniq, repeated, long; reflexivity.
Qed.

Lemma get_aspect_type_first_match :
  (get_aspect_type column = Ok "cite" <-> cite = true)
  /\ (get_aspect_type column = Ok "num" <-> cite = false /\ num = true)
  /\ (get_aspect_type column = Ok "bool"
      <-> cite = false /\ num = false /\ boolean = true)
  /\ (get_aspect_type column = Ok "cat-uniq"
      <-> cite = false /\ num = false /\ boolean = false /\ uniq = true)
  /\ (get_aspect_type column = Ok "cat"
      <-> cite = false /\ num = false /\ boolean = false /\ uniq = false
          /\ repeated = true)
  /\ (get_aspect_type column = Ok "gen"
      <-> cite = false /\ num = false /\ boolean = false /\ uniq = false
          /\ repeated = false /\ long = true)
  /\ (get_aspect_type column = Ok "ent"
      <-> cite = false /\ num = false /\ boolean = false /\ uniq = false
          /\ repeated = false /\ long = false).
Proof.
  rewrite get_aspect_type_cascade.
  destruct cite, num, boolean, uniq, repeated, long;
    repeat split; intros; try discriminate; try tauto;
    repeat match goal with H : _ /\ _ |- _ => destruct H end; discriminate.
Qed.

End AspectOrder.

(** C9, as stated, fails on its fourth example: of the two values of the
    column, none a placeholder, one has more than 4 tokens; that is half of
    them and not more than half, so the column is entity-text and not
    generative-text. *)
Lemma sentence_column_is_entity_text :
  SummarizeDataset.val_lens sentence_column = [true; false]
  /\ SummarizeDataset.get_aspect_type sentence_column = Ok "ent"
  /\ SummarizeDataset.get_aspect_type sentence_column <> Ok "gen".
Proof.
  split; [reflexivity|]. split; [reflexivity|]. discriminate.
Qed.

(** C9, amended: [get_aspect_type] tries citation, numeric, boolean,
    constant-category, repeated-category, generative-text and entity-text in
    this order and the first check that holds decides; generative-text needs
    more than half of the values that are not placeholders to have more than
    4 tokens.  It maps ["3","5","-"] to numeric, ["yes","no"] to boolean,
    ["a","a","a"] to constant-category and the two-value column of the
    specification, where exactly half of the values have more than 4 tokens,
    to entity-text; with a second long value the column is
    generative-text. *)
Theorem get_aspect_type_order :
  (forall first rest,
     let column := first :: rest in
     let cite := contains "{{cite:" first in
     let num := forallb (fun val => SummarizeDataset.is_numeric val
                                    || SummarizeDataset.is_na val) column in
     let boolean := forallb (fun val => SummarizeDataset.is_binary val
                                        || SummarizeDataset.is_na val) column in
     let uniq := SummarizeDataset.distinct column =? 1 in
     let repeated := negb (SummarizeDataset.distinct column =? List.length column) in
     let long := List.length (SummarizeDataset.val_lens column)
                 <? 2 * SummarizeDataset.sum_bools (SummarizeDataset.val_lens column) in
     (SummarizeDataset.get_aspect_type column = Ok "cite" <-> cite = true)
     /\ (SummarizeDataset.get_aspect_type column = Ok "num"
         <-> cite = false /\ num = true)
     /\ (SummarizeDataset.get_aspect_type column = Ok "bool"
         <-> cite = false /\ num = false /\ boolean = true)
     /\ (SummarizeDataset.get_aspect_type column = Ok "cat-uniq"
         <-> cite = false /\ num = false /\ boolean = false /\ uniq = true)
     /\ (SummarizeDataset.get_aspect_type column = Ok "cat"
         <-> cite = false /\ num = false /\ boolean = false /\ uniq = false
             /\ repeated = true)
     /\ (SummarizeDataset.get_aspect_type column = Ok "gen"
         <-> cite = false /\ num = false /\ boolean = false /\ uniq = false
             /\ repeated = false /\ long = true)
     /\ (SummarizeDataset.get_aspect_type column = Ok "ent"
         <-> cite = false /\ num = false /\ boolean = false /\ uniq = false
             /\ repeated = false /\ long = false))
  /\ SummarizeDataset.get_aspect_type numeric_column = Ok "num"
  /\ SummarizeDataset.get_aspect_type boolean_column = Ok "bool"
  /\ SummarizeDataset.get_aspect_type constant_column = Ok "cat-uniq"
  /\ SummarizeDataset.val_lens sentence_column = [true; false]
  /\ (List.length (SummarizeDataset.val_lens sentence_column)
      <? 2 * SummarizeDataset.sum_bools (SummarizeDataset.val_lens sentence_column))
     = false
  /\ SummarizeDataset.get_aspect_type sentence_column = Ok "ent"
  /\ SummarizeDataset.get_aspect_type sentences_column = Ok "gen".
Proof.
  split; [intros; apply get_aspect_type_first_match|].
  repeat split; reflexivity.
Qed.

(** ** The quality filter pipeline: what a kept record is *)

Lemma bind_Ok {A B : Type} (m : res A) (k : A -> res B) (b : B) :
  bind m k = Ok b -> exists a, m = Ok a /\ k a = Ok b.
Proof. destruct m as [a|e]; simpl; intros H; [eauto | discriminate]. Qed.

Lemma Ok_inj {A : Type} (a b : A) : Ok a = Ok b -> a = b.
Proof. intros H. injection H. auto. Qed.

Ltac inv_bind H :=
  let a := fresh "a" in
  let Ha := fresh "Ha" in
  apply bind_Ok in H; destruct H as [a [Ha H]].

(** Inversion of [filter_table]: a record is kept only after the caption
    test, the edit of the rows, the removal of columns and the test on the
    number of columns. *)
Lemma filter_table_kept filters ids seen tbl kept seen' :
  filter_table filters ids seen tbl = Ok (Some kept, seen') ->
  exists c references rows remove_cols,
    caption tbl = Some c /\ truthy (strip c) = true
    /\ dict_get (table_dict (table_json tbl)) "References" = Some references
    /\ edit_rows filters ids (row_bib_map tbl) no_rows = Ok rows
    /\ collect_remove_cols filters (old_citation_column (table_json tbl))
         (table_dict (table_json tbl)) [] = Ok remove_cols
    /\ (if mem "cols_no_ent_or_gen" filters || mem "cols_no_numeric" filters
        then 2 else 3)
       <= List.length (build_new_table_dict remove_cols (remove_rows rows)
                         (table_dict (table_json tbl)) [])
    /\ kept = kept_record tbl
                (build_new_table_dict remove_cols (remove_rows rows)
                   (table_dict (table_json tbl)) [])
                (new_row_bib_map rows).
Proof.
  unfold filter_table. intros H.
  destruct (mem "no_formula" filters && _); [discriminate|].
  inv_bind H. rename a into no_caption.
  assert (Hc : exists c, caption tbl = Some c /\ no_caption = negb (truthy (strip c))
                          \/ exists c, caption tbl = Some c /\ no_caption = true).
  { destruct (caption tbl) as [c|]; simpl in Ha.
    - exists c. destruct (mem "has_caption" filters); simpl in Ha.
      + destruct (String.eqb c "NO_CAPTION"); simpl in Ha; inversion Ha; subst.
        * right. exists c. auto.
        * left. auto.
      + inversion Ha. left. auto.
    - destruct (mem "has_caption" filters); simpl in Ha; discriminate. }
  destruct no_caption; [discriminate|].
  destruct Hc as [c [[Hc1 Hc2] | [c' [_ Hc2]]]]; [|discriminate].
  exists c.
  inv_bind H. destruct a; [discriminate|].
  destruct (mem "no_no_cite" filters && _); [discriminate|].
  destruct (mem "max_one_no_cite" filters && _); [discriminate|].
  destruct (mem "no_merged_headers" filters && _); [discriminate|].
  inv_bind H. rename a into references.
  destruct (forallb _ references); [discriminate|].
  destruct (mem "no_missing_titles" filters && _); [discriminate|].
  inv_bind H. destruct a; [discriminate|].
  inv_bind H. rename a into rows.
  destruct (mem "more_than_two_rows" filters && _); [discriminate|].
  destruct (mem "more_than_two_uniq_rows" filters && _); [discriminate|].
  inv_bind H. rename a into remove_cols.
  exists references, rows, remove_cols.
  split; [exact Hc1|].
  split; [destruct (truthy (strip c)); [reflexivity | discriminate]|].
  split; [unfold dict_item in Ha1; destruct (dict_get _ _); [congruence | discriminate]|].
  split; [exact Ha3|].
  split; [exact Ha4|].
  match type of H with
  | context [?n <? ?m] => destruct (n <? m) eqn:Hmin; [discriminate|]
  end.
  apply Nat.ltb_ge in Hmin.
  split.
  - destruct (mem "cols_no_ent_or_gen" filters || mem "cols_no_numeric" filters); exact Hmin.
  - destruct (mem "no_dup" filters).
    + match type of H with
      | context [mem ?x seen] => destruct (mem x seen); [discriminate|]
      end.
      inversion H. reflexivity.
    + inversion H. reflexivity.
Qed.

(** Every record of the output was kept by [filter_table] on a record of the
    input. *)
Lemma filter_tables_In filters ids tables :
  forall seen out kept,
    filter_tables filters ids seen tables = Ok out -> In kept out ->
    exists tbl seen0 seen1,
      In tbl tables /\ filter_table filters ids seen0 tbl = Ok (Some kept, seen1).
Proof.
  induction tables as [|tbl rest IH]; simpl; intros seen out kept H Hin.
  - inversion H; subst. contradiction.
  - inv_bind H. destruct a as [r seen1]. simpl in H.
    inv_bind H. rename a into out'.
    destruct r as [k|]; inversion H; subst.
    + destruct Hin as [<- | Hin].
      * exists tbl, seen, seen1. auto.
      * destruct (IH _ _ _ Ha0 Hin) as (t & s0 & s1 & Ht & Hf).
        exists t, s0, s1. auto.
    + destruct (IH _ _ _ Ha0 Hin) as (t & s0 & s1 & Ht & Hf).
      exists t, s0, s1. auto.
Qed.

Lemma get_high_quality_tables_In ids tables filters out kept :
  get_high_quality_tables ids tables filters = Ok out -> In kept out ->
  exists tbl seen0 seen1 valid,
    In tbl tables
    /\ filter_table (filters_in_force filters) valid seen0 tbl = Ok (Some kept, seen1).
Proof.
  unfold get_high_quality_tables. intros H Hin.
  destruct (filter_tables_In _ _ _ _ _ _ H Hin) as (t & s0 & s1 & Ht & Hf).
  exists t, s0, s1. eexists. split; [exact Ht | exact Hf].
Qed.

(** An exception of [filter_table] on a record of the input is an exception
    of the pipeline. *)
Lemma filter_tables_raises filters ids tables :
  forall seen tbl,
    In tbl tables ->
    (forall seen0, is_ok (filter_table filters ids seen0 tbl) = false) ->
    is_ok (filter_tables filters ids seen tables) = false.
Proof.
  induction tables as [|t rest IH]; simpl; intros seen tbl Hin Hraise; [contradiction|].
  destruct Hin as [-> | Hin].
  - specialize (Hraise seen). destruct (filter_table filters ids seen tbl); [discriminate|].
    reflexivity.
  - destruct (filter_table filters ids seen t) as [[r s]|e]; simpl; [|reflexivity].
    specialize (IH s tbl Hin Hraise).
    destruct (filter_tables filters ids s rest); [discriminate|]. reflexivity.
Qed.

(** ** The caption test of the pipeline *)

Lemma truthy_true_iff (s : string) : truthy s = true <-> s <> EmptyString.
Proof.
  unfold truthy. destruct s; simpl; split; intros H;
    try discriminate; try reflexivity; congruence.
Qed.

(** A record whose caption is empty or blank is dropped, with any list of
    filters. *)
Lemma blank_caption_dropped filters ids seen tbl c :
  caption tbl = Some c -> strip c = EmptyString ->
  filter_table filters ids seen tbl = Ok (None, seen).
Proof.
  intros Hc Hs. unfold filter_table.
  destruct (mem "no_formula" filters && _); [reflexivity|].
  rewrite Hc. simpl.
  destruct (mem "has_caption" filters); simpl.
  - destruct (String.eqb c "NO_CAPTION"); simpl; [reflexivity|].
    rewrite Hs. reflexivity.
  - rewrite Hs. reflexivity.
Qed.

(** A record without caption that the formula test does not drop makes
    [filter_table] raise. *)
Lemma missing_caption_raises filters ids seen tbl :
  caption tbl = None ->
  mem "no_formula" filters
  && contains "{{formula:" (table_str_of (table_dict (table_json tbl))) = false ->
  filter_table filters ids seen tbl = Raise KeyError.
Proof.
  intros Hc Hf. unfold filter_table. rewrite Hf, Hc.
  destruct (mem "has_caption" filters); reflexivity.
Qed.

(** C10, as stated, fails in its last part: a record without caption whose
    table holds a formula is dropped by the formula test, which comes first,
    and the pipeline ends without exception. *)
Lemma pipeline_proceeds_without_caption :
  caption formula_record = None
  /\ get_high_quality_tables [] [formula_record; captioned_record] (Some ["no_formula"])
     = Ok [captioned_record].
Proof. split; reflexivity. Qed.

(** C10, amended: with any list of filters, a record whose caption is empty
    or blank is dropped, so every record of the output has a caption that is
    not blank; and a record without caption makes the pipeline raise unless
    the formula test has dropped it first. *)
Theorem caption_test_not_gated (ids : list Z) (filters : option (list string))
    (tables : list sample) :
  (forall fl valid seen tbl c,
      caption tbl = Some c -> strip c = EmptyString ->
      filter_table fl valid seen tbl = Ok (None, seen))
  /\ (forall out kept,
         get_high_quality_tables ids tables filters = Ok out -> In kept out ->
         exists c, caption kept = Some c /\ strip c <> EmptyString)
  /\ (forall tbl,
         In tbl tables -> caption tbl = None ->
         mem "no_formula" (filters_in_force filters)
         && contains "{{formula:" (table_str_of (table_dict (table_json tbl))) = false ->
         is_ok (get_high_quality_tables ids tables filters) = false).
Proof.
  split; [|split].
  - intros. eapply blank_caption_dropped; eauto.
  - intros out kept H Hin.
    destruct (get_high_quality_tables_In _ _ _ _ _ H Hin)
      as (tbl & s0 & s1 & valid & _ & Hf).
    destruct (filter_table_kept _ _ _ _ _ _ Hf)
      as (c & refs & rows & rc & Hc & Ht & _ & _ & _ & _ & ->).
    exists c. split; [exact Hc | apply truthy_true_iff; exact Ht].
  - intros tbl Hin Hc Hf. unfold get_high_quality_tables.
    eapply filter_tables_raises; [exact Hin|].
    intros seen0. fold (filters_in_force filters).
    rewrite missing_caption_raises; auto.
Qed.

Lemma caption_test_not_gated_witness :
  filter_table [] [] [] blank_caption_record = Ok (None, [])
  /\ is_ok (get_high_quality_tables [] [captioned_record; uncaptioned_record] (Some []))
     = false.
Proof.
  split.
  - apply (proj1 (caption_test_not_gated [] None []) [] [] [] blank_caption_record "  ");
      reflexivity.
  - apply (proj2 (proj2 (caption_test_not_gated
                           [] (Some []) [captioned_record; uncaptioned_record]))
             uncaptioned_record); [right; left; reflexivity | reflexivity | reflexivity].
Defined.

(** ** The dataset assembler *)

(** The state of the assembler after it has skipped a table. *)
Lemma create_dataset_step_skips filters tbl acc :
  match lt_labels tbl with
  | Some table_labels => should_skip table_labels filters
  | None => Ok false
  end = Ok false ->
  (forall tj, soup_to_json (lt_soup tbl) = Ok tj -> table_dict tj = []) ->
  create_dataset_step filters tbl acc
  = Ok {| dataset := dataset acc;
          missing_bib_hashes := missing_bib_hashes acc;
          skipped_table_hashes := skipped_table_hashes acc ++ [lt_table_hash tbl] |}.
Proof.
  intros Hl Hs. unfold create_dataset_step. rewrite Hl. simpl.
  unfold guarded_soup_to_json.
  destruct (soup_to_json (lt_soup tbl)) as [tj|e]; [|reflexivity].
  rewrite (Hs tj eq_refl). reflexivity.
Qed.

(** An exception of [get_table_row_bib_map] leaves the loop of the
    assembler: no later table is processed. *)
Lemma create_dataset_mapping_failure filters tbl rest acc tj e :
  match lt_labels tbl with
  | Some table_labels => should_skip table_labels filters
  | None => Ok false
  end = Ok false ->
  soup_to_json (lt_soup tbl) = Ok tj -> table_dict tj <> [] ->
  get_table_row_bib_map (table_dict tj) (map sha (find_all_cit (lt_soup tbl)))
    (lt_paper_id tbl) = Raise e ->
  create_dataset_loop filters (tbl :: rest) acc = Raise e.
Proof.
  intros Hl Hs Hd Hm. simpl. unfold create_dataset_step. rewrite Hl. simpl.
  unfold guarded_soup_to_json. rewrite Hs.
  destruct (table_dict tj) eqn:Hdict; [congruence|].
  rewrite Hm. reflexivity.
Qed.

(** C1, as stated, fails: the table [unmapped_soup] is reconstructed, its
    marker [abcdef0] has no entry in the map of known keys, the [KeyError]
    of [get_table_row_bib_map] is raised outside the [try] of
    [create_dataset], and the call ends with it: no hash is recorded and the
    next table, which alone yields a record, is not processed. *)
Lemma create_dataset_mapping_failure_aborts :
  (exists tj, soup_to_json unmapped_soup = Ok tj /\ table_dict tj <> []
              /\ get_table_row_bib_map (table_dict tj)
                   (map sha (find_all_cit unmapped_soup)) "2308.00001" = Raise KeyError)
  /\ create_dataset_loop [] [labelled "t0" unmapped_soup; labelled "t1" mapped_soup]
       empty_assembly = Raise KeyError
  /\ create_dataset [labelled "t0" unmapped_soup; labelled "t1" mapped_soup] []
     = Raise KeyError
  /\ exists s, create_dataset [labelled "t1" mapped_soup] [] = Ok [s].
Proof.
  split; [|split; [|split]].
  - eexists. split; [vm_compute; reflexivity|]. split; [discriminate | reflexivity].
  - reflexivity.
  - reflexivity.
  - eexists. vm_compute. reflexivity.
Qed.

(** The assembler only adds to the list of skipped hashes. *)
Lemma create_dataset_step_skipped filters tbl acc acc' :
  create_dataset_step filters tbl acc = Ok acc' ->
  exists l, skipped_table_hashes acc' = skipped_table_hashes acc ++ l.
Proof.
  unfold create_dataset_step. intros H. inv_bind H. destruct a.
  - apply Ok_inj in H. subst. exists []. rewrite app_nil_r. reflexivity.
  - destruct (table_dict (guarded_soup_to_json (lt_soup tbl))).
    + apply Ok_inj in H. subst. simpl. eauto.
    + inv_bind H. apply Ok_inj in H. subst. simpl. exists []. rewrite app_nil_r.
      reflexivity.
Qed.

Lemma create_dataset_loop_skipped filters tables :
  forall acc acc',
    create_dataset_loop filters tables acc = Ok acc' ->
    exists l, skipped_table_hashes acc' = skipped_table_hashes acc ++ l.
Proof.
  induction tables as [|tbl rest IH]; simpl; intros acc acc' H.
  - apply Ok_inj in H. subst. exists []. rewrite app_nil_r. reflexivity.
  - inv_bind H. destruct (create_dataset_step_skipped _ _ _ _ Ha) as [l1 H1].
    destruct (IH _ _ H) as [l2 H2]. exists (l1 ++ l2).
    rewrite H2, H1, app_assoc. reflexivity.
Qed.

(** C1, amended: when [soup_to_json] fails on a table that the label filters
    let through, by an exception or by an empty [table_dict],
    [create_dataset] records the hash of the table as skipped, leaves the
    dataset as it is and goes on with the next table; the hash is among the
    skipped ones when the loop ends. *)
Theorem create_dataset_skips_failed_reconstruction filters tbl rest acc :
  match lt_labels tbl with
  | Some table_labels => should_skip table_labels filters
  | None => Ok false
  end = Ok false ->
  (forall tj, soup_to_json (lt_soup tbl) = Ok tj -> table_dict tj = []) ->
  create_dataset_loop filters (tbl :: rest) acc
  = create_dataset_loop filters rest
      {| dataset := dataset acc;
         missing_bib_hashes := missing_bib_hashes acc;
         skipped_table_hashes := skipped_table_hashes acc ++ [lt_table_hash tbl] |}
  /\ forall final,
       create_dataset_loop filters (tbl :: rest) acc = Ok final ->
       In (lt_table_hash tbl) (skipped_table_hashes final).
Proof.
  intros Hl Hs.
  assert (Hstep : create_dataset_loop filters (tbl :: rest) acc
                  = create_dataset_loop filters rest
                      {| dataset := dataset acc;
                         missing_bib_hashes := missing_bib_hashes acc;
                         skipped_table_hashes :=
                           skipped_table_hashes acc ++ [lt_table_hash tbl] |}).
  { simpl. rewrite (create_dataset_step_skips _ _ _ Hl Hs). reflexivity. }
  split; [exact Hstep|].
  intros final Hf. rewrite Hstep in Hf.
  destruct (create_dataset_loop_skipped _ _ _ _ Hf) as [l Hl']. simpl in Hl'.
  rewrite Hl'. apply in_or_app. left. apply in_or_app. right. left. reflexivity.
Qed.

Lemma create_dataset_skips_failed_reconstruction_witness :
  create_dataset_loop [] [labelled "t0" overflowing_soup; labelled "t1" mapped_soup]
    empty_assembly
  = create_dataset_loop [] [labelled "t1" mapped_soup]
      {| dataset := []; missing_bib_hashes := []; skipped_table_hashes := ["t0"] |}.
Proof.
  apply (create_dataset_skips_failed_reconstruction
           [] (labelled "t0" overflowing_soup) [labelled "t1" mapped_soup] empty_assembly).
  - reflexivity.
  - intros tj H. vm_compute in H. injection H as <-. reflexivity.
Defined.

(** ** The row-to-bibliography mapper *)

Lemma has_cite_search (cell_val : string) :
  has_cite cell_val = match cite_search cell_val with Some _ => true | None => false end.
Proof. reflexivity. Qed.

(** The loop of [get_table_row_bib_map] computes the entries of the
    specification when every marker has a known key. *)
Lemma map_rows_spec ids paper_id cells :
  forall i acc ours_row,
    forallb (resolvable ids) cells = true ->
    map_rows ids paper_id i cells acc ours_row
    = Ok (acc ++ ref_entries ids i cells,
          match last_self_candidate i cells with
          | Some j => Some (ours_entry paper_id j)
          | None => ours_row
          end).
Proof.
  induction cells as [|cell_val rest IH]; simpl; intros i acc ours_row Hres.
  - rewrite app_nil_r. reflexivity.
  - apply andb_true_iff in Hres. destruct Hres as [Hv Hrest].
    unfold resolvable in Hv. unfold is_self_candidate. rewrite has_cite_search.
    destruct (cite_search cell_val) as [cite_id|].
    + destruct (dict_get ids cite_id) as [bib_hash_match|]; [|discriminate].
      rewrite IH by exact Hrest. rewrite <- app_assoc. simpl.
      destruct (last_self_candidate (S i) rest); reflexivity.
    + simpl. destruct (contains "standard" (lower cell_val)); simpl.
      * rewrite IH by exact Hrest.
        destruct (last_self_candidate (S i) rest); reflexivity.
      * rewrite IH by exact Hrest.
        destruct (last_self_candidate (S i) rest); reflexivity.
Qed.

(** A marker without known key makes the loop raise [KeyError]. *)
Lemma map_rows_unresolved ids paper_id cells :
  forall i acc ours_row,
    forallb (resolvable ids) cells = false ->
    map_rows ids paper_id i cells acc ours_row = Raise KeyError.
Proof.
  induction cells as [|cell_val rest IH]; simpl; intros i acc ours_row Hres;
    [discriminate|].
  unfold resolvable in Hres at 1.
  destruct (cite_search cell_val) as [cite_id|].
  - destruct (dict_get ids cite_id); [|reflexivity]. simpl in Hres. apply IH, Hres.
  - simpl in Hres. destruct (contains "standard" (lower cell_val)); apply IH, Hres.
Qed.

Lemma ref_entries_are_refs ids cells :
  forall i, filter is_ours (ref_entries ids i cells) = [].
Proof.
  induction cells as [|cell_val rest IH]; simpl; intros i; [reflexivity|].
  destruct (cite_search cell_val); [destruct (dict_get ids _)|]; simpl; auto.
Qed.

Lemma ref_entries_rows ids cells :
  forall i, forallb (resolvable ids) cells = true ->
            map row (ref_entries ids i cells) = marker_rows i cells.
Proof.
  induction cells as [|cell_val rest IH]; simpl; intros i Hres; [reflexivity|].
  apply andb_true_iff in Hres. destruct Hres as [Hv Hrest].
  unfold resolvable in Hv. rewrite has_cite_search.
  destruct (cite_search cell_val) as [cite_id|].
  - destruct (dict_get ids cite_id); [|discriminate]. simpl. f_equal. auto.
  - auto.
Qed.

(** The last candidate is a row of the table without marker and without
    "standard", and no later row is a candidate. *)
Lemma last_self_candidate_spec cells :
  forall i j,
    last_self_candidate i cells = Some j ->
    i <= j
    /\ (exists cell_val, nth_error cells (j - i) = Some cell_val
                         /\ is_self_candidate cell_val = true)
    /\ forall k cell_val, j - i < k -> nth_error cells k = Some cell_val ->
                          is_self_candidate cell_val = false.
Proof.
  induction cells as [|cell_val rest IH]; simpl; intros i j H; [discriminate|].
  destruct (last_self_candidate (S i) rest) as [j'|] eqn:Hl.
  - inversion H; subst j'. destruct (IH _ _ Hl) as (Hle & (v & Hv & Hc) & Hlater).
    split; [lia|]. split.
    + exists v. replace (j - i) with (S (j - S i)) by lia. simpl. auto.
    + intros k v' Hk Hn. destruct k as [|k]; [lia|]. simpl in Hn.
      apply (Hlater k v'); [lia | exact Hn].
  - destruct (is_self_candidate cell_val) eqn:Hc; [|discriminate].
    inversion H; subst j. split; [lia|]. split.
    + exists cell_val. rewrite Nat.sub_diag. simpl. auto.
    + intros k v' Hk Hn. destruct k as [|k]; [lia|]. simpl in Hn.
      clear -Hl Hn. revert i k Hl Hn.
      induction rest as [|w rest IHr]; simpl; intros i k Hl Hn.
      * destruct k; discriminate.
      * destruct (last_self_candidate (S (S i)) rest) eqn:Hl'; [discriminate|].
        destruct (is_self_candidate w) eqn:Hw; [discriminate|].
        destruct k as [|k]; simpl in Hn.
        -- inversion Hn; subst. exact Hw.
        -- apply (IHr (S i) k); assumption.
Qed.

(** *** The mapping in the words of the specification *)

Lemma ascii_eqb_nat (a c : ascii) :
  Ascii.eqb a c = (nat_of_ascii a =? nat_of_ascii c).
Proof.
  destruct (Ascii.eqb_spec a c) as [->|Hne].
  - symmetry. apply Nat.eqb_refl.
  - symmetry. apply Nat.eqb_neq. intros H. apply Hne.
    rewrite <- (ascii_nat_embedding a), <- (ascii_nat_embedding c), H. reflexivity.
Qed.

Lemma nat_of_lower_char (b : ascii) :
  nat_of_ascii (lower_char b)
  = if is_upper b then nat_of_ascii b + 32 else nat_of_ascii b.
Proof.
  unfold lower_char. destruct (is_upper b) eqn:Hu; [|reflexivity].
  apply nat_ascii_embedding. unfold is_upper in Hu.
  apply andb_true_iff in Hu. destruct Hu as [_ Hu]. apply Nat.leb_le in Hu. lia.
Qed.

(** Comparing with the lowered character is comparing up to the case. *)
Lemma lower_char_same_letter (a b : ascii) :
  is_upper a = false -> Ascii.eqb a (lower_char b) = same_letter a b.
Proof.
  intros Ha. rewrite ascii_eqb_nat, nat_of_lower_char. unfold same_letter.
  unfold is_upper in *.
  destruct ((65 <=? nat_of_ascii b) && (nat_of_ascii b <=? 90)) eqn:Hb; cbn [andb orb].
  - destruct (Nat.eqb_spec (nat_of_ascii b) (nat_of_ascii a)) as [He|Hne];
      [|reflexivity].
    rewrite He in Hb. congruence.
  - rewrite orb_false_r. apply Nat.eqb_sym.
Qed.

Lemma startswith_lower (p : string) :
  all_chars (fun c => negb (is_upper c)) p = true ->
  forall s, startswith p (lower s) = startswith_ignoring_case p s.
Proof.
  induction p as [|a p IH]; intros Hp s; [destruct s; reflexivity|].
  cbn [all_chars] in Hp. apply andb_true_iff in Hp. destruct Hp as [Ha Hp].
  apply negb_true_iff in Ha.
  destruct s as [|b s]; cbn [lower startswith startswith_ignoring_case]; [reflexivity|].
  rewrite (lower_char_same_letter a b Ha), (IH Hp). reflexivity.
Qed.

Lemma contains_lower (p : string) :
  all_chars (fun c => negb (is_upper c)) p = true ->
  forall s, contains p (lower s) = contains_ignoring_case p s.
Proof.
  intros Hp s. induction s as [|b s IH].
  - cbn [lower contains contains_ignoring_case].
    rewrite <- (startswith_lower p Hp EmptyString). reflexivity.
  - cbn [contains contains_ignoring_case]. rewrite <- IH.
    rewrite <- (startswith_lower p Hp (String b s)). reflexivity.
Qed.

Lemma is_self_candidate_row (cell_val : string) :
  is_self_candidate cell_val = is_self_row cell_val.
Proof.
  unfold is_self_candidate, is_self_row.
  rewrite (contains_lower "standard" eq_refl). reflexivity.
Qed.

Lemma last_self_candidate_row (cells : list string) :
  forall i, last_self_candidate i cells = last_self_row i cells.
Proof.
  induction cells as [|cell_val rest IH]; intros i; [reflexivity|].
  cbn [last_self_candidate last_self_row]. rewrite IH, is_self_candidate_row.
  reflexivity.
Qed.

Lemma ref_entries_described (ids : dict string) (cells : list string) :
  forall i, map entry_of (ref_entries ids i cells) = described_refs ids i cells.
Proof.
  induction cells as [|cell_val rest IH]; intros i; [reflexivity|].
  cbn [ref_entries described_refs].
  destruct (cite_search cell_val) as [key|]; [|apply IH].
  destruct (dict_get ids key) as [bib_hash_match|]; [|apply IH].
  cbn [map]. rewrite IH. reflexivity.
Qed.

Lemma spec_row_bib_map_described (ids : dict string) (paper_id : string)
    (cells : list string) :
  map entry_of (spec_row_bib_map ids paper_id cells) = described_entries ids paper_id cells
  /\ Forall (fun r => corpus_id r = (-1)%Z /\ title r = None /\ abstract r = None)
       (spec_row_bib_map ids paper_id cells).
Proof.
  unfold spec_row_bib_map, described_entries. split.
  - rewrite map_app, ref_entries_described, last_self_candidate_row.
    destruct (last_self_row 0 cells); reflexivity.
  - apply Forall_app. split.
    + generalize 0. induction cells as [|cell_val rest IH]; intros i; [constructor|].
      cbn [ref_entries]. destruct (cite_search cell_val) as [key|]; [|apply IH].
      destruct (dict_get ids key); [|apply IH].
      constructor; [cbn; auto | apply IH].
    + destruct (last_self_candidate 0 cells); constructor; [cbn; auto | constructor].
Qed.

Lemma described_refs_rows (ids : dict string) (cells : list string) :
  forall i,
    forallb (resolvable ids) cells = true ->
    map (fun e => snd (fst e)) (described_refs ids i cells) = marker_rows i cells
    /\ Forall (fun e => fst (fst e) = "ref") (described_refs ids i cells).
Proof.
  induction cells as [|cell_val rest IH]; intros i Hres; [split; [reflexivity|constructor]|].
  cbn [forallb] in Hres. apply andb_true_iff in Hres. destruct Hres as [Hv Hrest].
  unfold resolvable in Hv. cbn [described_refs marker_rows]. rewrite has_cite_search.
  destruct (cite_search cell_val) as [key|]; [|apply IH; exact Hrest].
  destruct (dict_get ids key) as [h|]; [|discriminate].
  destruct (IH (S i) Hrest) as [IH1 IH2]. cbn [map fst snd]. rewrite IH1.
  split; [reflexivity | constructor; [reflexivity | exact IH2]].
Qed.

Lemma last_self_row_spec (cells : list string) (j : nat) :
  last_self_row 0 cells = Some j ->
  (exists cell_val,
      nth_error cells j = Some cell_val
      /\ has_cite cell_val = false
      /\ contains_ignoring_case "standard" cell_val = false)
  /\ forall k cell_val, j < k -> nth_error cells k = Some cell_val ->
                        is_self_row cell_val = false.
Proof.
  rewrite <- last_self_candidate_row. intros Hj.
  destruct (last_self_candidate_spec _ _ _ Hj) as (_ & (v & Hv & Hc) & Hl).
  rewrite Nat.sub_0_r in Hv. split.
  - exists v. rewrite is_self_candidate_row in Hc. unfold is_self_row in Hc.
    apply andb_true_iff in Hc. destruct Hc as [Hc1 Hc2].
    apply negb_true_iff in Hc1, Hc2. auto.
  - intros k w Hk Hn. rewrite <- is_self_candidate_row. apply (Hl k w); [lia | exact Hn].
Qed.

(** C6, as stated, fails: the first cell of [four_rows_dict] holds a marker
    and its row yields no entry when the key of the marker is not among the
    hashes of the citations: the lookup raises [KeyError] and no list is
    returned. *)
Lemma get_table_row_bib_map_unresolved_marker :
  first_column four_rows_dict
  = Ok ["{{cite:abcdef0}}"; "no_cite-0"; "Standard model"; "{{cite:abcdef1}}"; "no_cite-1"]
  /\ has_cite "{{cite:abcdef0}}" = true
  /\ dict_get (cite_id_map [None; Some "abcdef1234"]) "abcdef0" = None
  /\ get_table_row_bib_map four_rows_dict [None; Some "abcdef1234"] "2308.00001"
     = Raise KeyError.
Proof. repeat split. Qed.

(** C6, amended: on a table whose columns have one length,
    [get_table_row_bib_map] raises [KeyError] when a marker of the first
    column has no key among the hashes.  Otherwise it returns one entry of
    type "ref" for each row whose cell holds a marker, in row order, with the
    hash of the key; no entry for a row without marker whose text holds
    "standard" in any letter case; and after the "ref" entries one entry of
    type "ours", with the id of the containing paper, for the last of the
    other rows without marker.  Every entry has the corpus id -1, and the
    output holds at most one "ours" entry. *)
Theorem get_table_row_bib_map_last_self_row table_json bib_hashes paper_id cells :
  first_column table_json = Ok cells ->
  let ids := cite_id_map bib_hashes in
  (forallb (resolvable ids) cells = false ->
   get_table_row_bib_map table_json bib_hashes paper_id = Raise KeyError)
  /\ (forallb (resolvable ids) cells = true ->
      exists out,
        get_table_row_bib_map table_json bib_hashes paper_id = Ok out
        /\ map entry_of out = described_entries ids paper_id cells
        /\ Forall (fun r => corpus_id r = (-1)%Z) out
        /\ List.length (filter (fun r => String.eqb (type r) "ours") out) <= 1
        /\ map (fun e => snd (fst e)) (described_refs ids 0 cells) = marker_rows 0 cells
        /\ Forall (fun e => fst (fst e) = "ref") (described_refs ids 0 cells))
  /\ (forall j, last_self_row 0 cells = Some j ->
        (exists cell_val,
            nth_error cells j = Some cell_val
            /\ has_cite cell_val = false
            /\ contains_ignoring_case "standard" cell_val = false)
        /\ forall k cell_val, j < k -> nth_error cells k = Some cell_val ->
                              is_self_row cell_val = false).
Proof.
  intros Hcol ids. split; [|split].
  - intros Hres. unfold get_table_row_bib_map. rewrite Hcol. cbn [bind].
    fold ids. rewrite map_rows_unresolved by exact Hres. reflexivity.
  - intros Hres. exists (spec_row_bib_map ids paper_id cells).
    destruct (spec_row_bib_map_described ids paper_id cells) as [Hd Hf].
    destruct (described_refs_rows ids cells 0 Hres) as [Hrows Hrefs].
    split; [|split; [exact Hd|split; [|split; [|split; [exact Hrows | exact Hrefs]]]]].
    + unfold get_table_row_bib_map. rewrite Hcol. cbn [bind]. fold ids.
      rewrite map_rows_spec by exact Hres. cbn [bind fst snd app].
      unfold spec_row_bib_map.
      destruct (last_self_candidate 0 cells); [reflexivity|].
      rewrite app_nil_r. reflexivity.
    + apply (Forall_impl _ (P := fun r => corpus_id r = (-1)%Z /\ title r = None
                                          /\ abstract r = None)); [|exact Hf].
      intros r [H _]. exact H.
    + change (fun r : bib_row => String.eqb (type r) "ours") with is_ours.
      unfold spec_row_bib_map. rewrite filter_app, ref_entries_are_refs. cbn [app].
      destruct (last_self_candidate 0 cells); simpl; lia.
  - intros j Hj. apply (last_self_row_spec cells j Hj).
Qed.

Lemma get_table_row_bib_map_last_self_row_witness :
  exists out,
    get_table_row_bib_map standard_last_methods known_keys "2308.00001" = Ok out
    /\ map entry_of out
       = [("ref", 0, "abcdef0999"); ("ref", 2, "abcdef1234"); ("ours", 1, "2308.00001")].
Proof.
  destruct (get_table_row_bib_map_last_self_row standard_last_methods known_keys
              "2308.00001"
              ["{{cite:abcdef0}} A"; "our method"; "{{cite:abcdef1}} B";
               "STANDARD baseline"] eq_refl) as (_ & H & _).
  destruct (H eq_refl) as (out & Hout & Hd & _).
  exists out. split; [exact Hout | exact Hd].
Defined.

(** ** The column of the references *)

Section SplitReferences.

Variables (first : string * list string) (others : dataframe).
Let table_df : dataframe := first :: others.
Let source := select_column table_df (-1)%Z first.
Let name := fst source.
Let references_col := fst (extract_references (snd source) 0).
Let remainders := snd (extract_references (snd source) 0).

Lemma select_column_In (cols : dataframe) :
  forall m c, select_column cols m c = c \/ In (select_column cols m c) cols.
Proof.
  induction cols as [|col rest IH]; simpl; intros m c; [left; reflexivity|].
  destruct (m <? Z.of_nat (num_cites_in (snd col)))%Z.
  - destruct (IH (Z.of_nat (num_cites_in (snd col))) col) as [-> | H]; auto.
  - destruct (IH m c) as [-> | H]; auto.
Qed.

Lemma source_In : In source table_df.
Proof.
  unfold source. destruct (select_column_In table_df (-1)%Z first) as [-> | H].
  - left. reflexivity.
  - exact H.
Qed.

Lemma mem_In (x : string) (l : list string) : mem x l = true <-> In x l.
Proof.
  unfold mem. rewrite existsb_exists. split.
  - intros [y [Hy He]]. apply String.eqb_eq in He. subst. exact Hy.
  - intros H. exists x. split; [exact H | apply String.eqb_refl].
Qed.

Lemma name_mem : mem name (columns table_df) = true.
Proof.
  apply mem_In. unfold columns, name. apply in_map. apply source_In.
Qed.

Lemma columns_rename (old new : string) (df : dataframe) :
  columns (rename_columns old new df)
  = map (fun c => if String.eqb c old then new else c) (columns df).
Proof.
  unfold columns, rename_columns. rewrite !map_map. apply map_ext.
  intros [c v]. simpl. destruct (String.eqb c old); reflexivity.
Qed.

Lemma columns_set_column (n : string) (values : list string) (df : dataframe) :
  mem n (columns df) = true -> columns (set_column n values df) = columns df.
Proof.
  intros H. unfold set_column. rewrite H. unfold columns. rewrite map_map.
  apply map_ext_in. intros [c v] _. simpl.
  destruct (String.eqb c n) eqn:E; [apply String.eqb_eq in E; subst|]; reflexivity.
Qed.

Lemma mem_rename_absent (old new : string) (cols : list string) :
  old <> new ->
  mem old (map (fun c => if String.eqb c old then new else c) cols) = false.
Proof.
  intros Hne. apply not_true_is_false. intros H. apply mem_In in H.
  apply in_map_iff in H. destruct H as [c [Hc _]].
  destruct (String.eqb c old) eqn:E.
  - congruence.
  - apply String.eqb_neq in E. congruence.
Qed.

Lemma mem_rename_present (old new : string) (cols : list string) :
  mem old cols = true ->
  mem new (map (fun c => if String.eqb c old then new else c) cols) = true.
Proof.
  intros H. apply mem_In in H. apply mem_In. apply in_map_iff.
  exists old. rewrite String.eqb_refl. auto.
Qed.

Lemma reordered_head :
  exists values rest, reordered name table_df = ("References", values) :: rest.
Proof.
  unfold reordered, select_columns.
  assert (Hin : In ("References", snd source) (renamed_source name table_df)).
  { unfold renamed_source, rename_columns. apply in_map_iff.
    exists source. split; [|apply source_In].
    fold name. rewrite String.eqb_refl. reflexivity. }
  remember (renamed_source name table_df) as df eqn:Hdf. clear Hdf.
  cbn [flat_map].
  assert (Hf : In ("References", snd source)
                 (filter (fun col : string * list string =>
                            String.eqb (fst col) "References") df)).
  { apply filter_In. split; [exact Hin | reflexivity]. }
  destruct (filter (fun col : string * list string =>
                      String.eqb (fst col) "References") df) as [|[c v] l] eqn:E;
    [contradiction|].
  assert (Hc : In (c, v) (filter (fun col : string * list string =>
                                    String.eqb (fst col) "References") df)).
  { rewrite E. left. reflexivity. }
  apply filter_In in Hc. destruct Hc as [_ Hc]. cbn [fst] in Hc.
  apply String.eqb_eq in Hc. subst c.
  exists v. eexists. rewrite <- app_comm_cons. reflexivity.
Qed.

Lemma split_all_dashes :
  existsb (fun val => negb (String.eqb val "-")) remainders = false ->
  split_references_column table_df = Ok (reordered name table_df, name).
Proof.
  intros H. unfold split_references_column, table_df.
  fold table_df. fold source. fold name. fold remainders. rewrite H.
  change (select_columns _ _) with (reordered name table_df).
  cbn [bind fst].
  destruct reordered_head as (v & r & ->). reflexivity.
Qed.

Lemma split_source_named_References :
  existsb (fun val => negb (String.eqb val "-")) remainders = true ->
  name = "References" ->
  split_references_column table_df
  = Ok (("References", references_col)
        :: set_column "References_OLD" remainders
             (rename_columns "References" "References_OLD" table_df),
        "References_OLD").
Proof.
  intros H Hn. unfold split_references_column, table_df.
  fold table_df. fold source. fold name. fold remainders. fold references_col.
  rewrite H, Hn. rewrite String.eqb_refl. cbn [fst snd].
  unfold insert_first.
  assert (Hold : mem "References_OLD"
                   (columns (rename_columns "References" "References_OLD" table_df))
                 = true).
  { rewrite columns_rename. apply mem_rename_present. rewrite <- Hn. apply name_mem. }
  rewrite columns_set_column by exact Hold.
  rewrite columns_rename, mem_rename_absent by discriminate.
  reflexivity.
Qed.

Lemma split_inserts_References :
  existsb (fun val => negb (String.eqb val "-")) remainders = true ->
  name <> "References" ->
  mem "References" (columns table_df) = false ->
  split_references_column table_df
  = Ok (("References", references_col) :: set_column name remainders table_df, name).
Proof.
  intros H Hn Hm. unfold split_references_column, table_df.
  fold table_df. fold source. fold name. fold remainders. fold references_col.
  rewrite H. apply String.eqb_neq in Hn. rewrite Hn. cbn [fst snd].
  unfold insert_first. rewrite columns_set_column by apply name_mem.
  rewrite Hm. reflexivity.
Qed.

Lemma split_collision_raises :
  existsb (fun val => negb (String.eqb val "-")) remainders = true ->
  name <> "References" ->
  mem "References" (columns table_df) = true ->
  split_references_column table_df = Raise ValueError.
Proof.
  intros H Hn Hm. unfold split_references_column, table_df.
  fold table_df. fold source. fold name. fold remainders. fold references_col.
  rewrite H. apply String.eqb_neq in Hn. rewrite Hn. cbn [fst snd].
  unfold insert_first. rewrite columns_set_column by apply name_mem.
  rewrite Hm. reflexivity.
Qed.

Lemma split_first_column df old :
  split_references_column table_df = Ok (df, old) ->
  exists values rest, df = ("References", values) :: rest.
Proof.
  intros H.
  destruct (existsb (fun val => negb (String.eqb val "-")) remainders) eqn:E.
  - destruct (String.eqb name "References") eqn:En.
    + apply String.eqb_eq in En. rewrite (split_source_named_References E En) in H.
      inversion H. eauto.
    + apply String.eqb_neq in En.
      destruct (mem "References" (columns table_df)) eqn:Em.
      * rewrite (split_collision_raises E En Em) in H. discriminate.
      * rewrite (split_inserts_References E En Em) in H. inversion H. eauto.
  - rewrite (split_all_dashes E) in H. inversion H. subst. apply reordered_head.
Qed.

End SplitReferences.

(** With distinct labels, a label selects its one column. *)
Lemma filter_none {A : Type} (f : A -> bool) (l : list A) :
  (forall x, In x l -> f x = false) -> filter f l = [].
Proof.
  induction l as [|x r IH]; simpl; intros H; [reflexivity|].
  rewrite (H x (or_introl eq_refl)). apply IH. intros y Hy. apply H. right. exact Hy.
Qed.

Lemma filter_label_NoDup (df : dataframe) (col : string * list string) :
  NoDup (columns df) -> In col df ->
  filter (fun c : string * list string => String.eqb (fst c) (fst col)) df = [col].
Proof.
  unfold columns.
  induction df as [|[c v] rest IH]; simpl; intros Hnd Hin; [contradiction|].
  inversion Hnd as [|x l Hnotin Hnd']; subst.
  destruct Hin as [<- | Hin].
  - simpl. rewrite String.eqb_refl. f_equal. apply filter_none.
    intros [c' v'] Hin. simpl. apply String.eqb_neq. intros ->.
    apply Hnotin. apply in_map_iff. exists (c, v'). auto.
  - destruct (String.eqb c (fst col)) eqn:E.
    + apply String.eqb_eq in E. subst c. exfalso. apply Hnotin.
      apply in_map. exact Hin.
    + apply IH; assumption.
Qed.

Lemma select_columns_sub (df sub : dataframe) :
  NoDup (columns df) -> (forall col, In col sub -> In col df) ->
  select_columns (columns sub) df = sub.
Proof.
  intros Hnd. unfold select_columns, columns.
  induction sub as [|col rest IH]; simpl; intros Hsub; [reflexivity|].
  rewrite IH by (intros c Hc; apply Hsub; right; exact Hc).
  rewrite (filter_label_NoDup df col Hnd) by (apply Hsub; left; reflexivity).
  reflexivity.
Qed.

Lemma columns_filter (p : string -> bool) (df : dataframe) :
  filter p (columns df) = columns (filter (fun col => p (fst col)) df).
Proof.
  unfold columns. induction df as [|[c v] rest IH]; simpl; [reflexivity|].
  destruct (p c); simpl; rewrite IH; reflexivity.
Qed.

(** When the labels are distinct and no other column is named "References",
    the reordered frame is the source, renamed, followed by the other
    columns in their order. *)
Lemma reordered_distinct (name : string) (values : list string) (table_df : dataframe) :
  NoDup (columns table_df) -> In (name, values) table_df ->
  (mem "References" (columns table_df) = true -> name = "References") ->
  reordered name table_df
  = ("References", values)
    :: filter (fun col => negb (String.eqb (fst col) name)) table_df.
Proof.
  intros Hnd Hin Hother.
  assert (Hlabel : forall c v, In (c, v) table_df -> c = "References" -> c = name).
  { intros c v Hc ->. symmetry. apply Hother. apply mem_In. unfold columns.
    apply in_map_iff. exists ("References", v). auto. }
  assert (Hnd' : NoDup (columns (renamed_source name table_df))).
  { unfold renamed_source. rewrite columns_rename. unfold columns.
    apply NoDup_map_NoDup_ForallPairs; [|exact Hnd].
    intros c1 c2 H1 H2. apply in_map_iff in H1, H2.
    destruct H1 as [[c1' v1] [<- H1]]. destruct H2 as [[c2' v2] [<- H2]]. simpl.
    destruct (String.eqb_spec c1' name) as [E1|E1];
      destruct (String.eqb_spec c2' name) as [E2|E2]; intros He.
    - congruence.
    - exfalso. apply E2. apply (Hlabel c2' v2 H2). congruence.
    - exfalso. apply E1. apply (Hlabel c1' v1 H1). congruence.
    - exact He. }
  assert (Hrest : filter (fun col : string * list string =>
                            negb (String.eqb (fst col) "References"))
                    (renamed_source name table_df)
                  = filter (fun col => negb (String.eqb (fst col) name)) table_df).
  { unfold renamed_source, rename_columns. clear Hin Hnd Hnd' Hother.
    induction table_df as [|[c v] rest IH]; simpl; [reflexivity|].
    rewrite <- IH by (intros c' v' H; apply (Hlabel c' v'); right; exact H).
    destruct (String.eqb c name) eqn:E; simpl.
    + reflexivity.
    + destruct (String.eqb c "References") eqn:E'; simpl; [|reflexivity].
      apply String.eqb_eq in E'. apply String.eqb_neq in E. exfalso. apply E.
      apply (Hlabel c v); [left; reflexivity | exact E']. }
  unfold reordered, select_columns. cbn [flat_map].
  assert (Hsrc : In ("References", values) (renamed_source name table_df)).
  { unfold renamed_source, rename_columns. apply in_map_iff.
    exists (name, values). simpl. rewrite String.eqb_refl. auto. }
  change (filter (fun col : string * list string => String.eqb (fst col) "References")
            (renamed_source name table_df))
    with (filter (fun col : string * list string =>
                    String.eqb (fst col) (fst ("References", values)))
            (renamed_source name table_df)).
  rewrite (filter_label_NoDup _ _ Hnd' Hsrc).
  rewrite (columns_filter (fun c => negb (String.eqb c "References"))).
  change (flat_map _ (columns ?sub)) with (select_columns (columns sub) (renamed_source name table_df)).
  rewrite select_columns_sub; [|exact Hnd'|].
  - rewrite Hrest. reflexivity.
  - intros col Hcol. apply filter_In in Hcol. apply Hcol.
Qed.

(** C4, as stated, fails: in [collision_frame] the column of the citations
    is "Method", some remainder is not a dash, and a column "References"
    exists that is not the source; it is not renamed to "References_OLD":
    the insertion of the new column raises [ValueError] and no table is
    returned. *)
Lemma split_references_column_collision :
  fst (select_column collision_frame (-1)%Z ("Method", ["{{cite:abcdef0}} A"; "{{cite:abcdef1}} B"]))
  = "Method"
  /\ snd (extract_references ["{{cite:abcdef0}} A"; "{{cite:abcdef1}} B"] 0) = ["A"; "B"]
  /\ mem "References" (columns collision_frame) = true
  /\ split_references_column collision_frame = Raise ValueError.
Proof. repeat split; reflexivity. Qed.

(** C4, amended: for a table with at least one column, when every remainder
    of the source column is the dash, the source column is renamed to
    "References" and the columns are reordered with "References" first, no
    column being added (with distinct labels and no other column named
    "References": the renamed source, then the other columns in their
    order); otherwise a column "References" of identifiers is inserted
    first, the source column holding the remainders, after the source has
    been renamed to "References_OLD" when it is itself named "References";
    when another column is named "References" the insertion raises
    [ValueError]; whenever a table is returned its first column is named
    "References". *)
Theorem split_references_column_cases (first : string * list string) (others : dataframe) :
  let table_df := first :: others in
  let source := select_column table_df (-1)%Z first in
  let name := fst source in
  let references_col := fst (extract_references (snd source) 0) in
  let remainders := snd (extract_references (snd source) 0) in
  let some_remainder := existsb (fun val => negb (String.eqb val "-")) remainders in
  (some_remainder = false ->
     split_references_column table_df = Ok (reordered name table_df, name)
     /\ (NoDup (columns table_df) ->
         (mem "References" (columns table_df) = true -> name = "References") ->
         reordered name table_df
         = ("References", snd source)
           :: filter (fun col => negb (String.eqb (fst col) name)) table_df))
  /\ (some_remainder = true -> name = "References" ->
      split_references_column table_df
      = Ok (("References", references_col)
            :: set_column "References_OLD" remainders
                 (rename_columns "References" "References_OLD" table_df),
            "References_OLD"))
  /\ (some_remainder = true -> name <> "References" ->
      mem "References" (columns table_df) = false ->
      split_references_column table_df
      = Ok (("References", references_col) :: set_column name remainders table_df, name))
  /\ (some_remainder = true -> name <> "References" ->
      mem "References" (columns table_df) = true ->
      split_references_column table_df = Raise ValueError)
  /\ (forall df old,
        split_references_column table_df = Ok (df, old) ->
        exists values rest, df = ("References", values) :: rest).
Proof.
  intros table_df source name references_col remainders some_remainder.
  split; [|split; [|split; [|split]]].
  - intros H. split.
    + apply split_all_dashes. exact H.
    + intros Hnd Hother. apply reordered_distinct; [exact Hnd | | exact Hother].
      unfold name. rewrite <- surjective_pairing. apply source_In.
  - apply split_source_named_References.
  - apply split_inserts_References.
  - apply split_collision_raises.
  - apply split_first_column.
Qed.

Lemma split_references_column_cases_witness :
  split_references_column markers_frame
  = Ok ([("References", ["{{cite:abcdef0}}"; "{{cite:abcdef1}}"]);
         ("Task", ["parsing"; "tagging"])], "Method").
Proof.
  destruct (proj1 (split_references_column_cases
                     ("Method", ["{{cite:abcdef0}}"; "{{cite:abcdef1}}"])
                     [("Task", ["parsing"; "tagging"])]) eq_refl) as [H _].
  exact H.
Defined.

(** ** Removal of columns and rows by the pipeline *)

Lemma in_remove_cols_app (c : string) (l1 l2 : list (option string)) :
  in_remove_cols c (l1 ++ l2) = in_remove_cols c l1 || in_remove_cols c l2.
Proof. unfold in_remove_cols. apply existsb_app. Qed.

Lemma in_remove_cols_add (c : string) (b : bool) (x : option string)
    (l : list (option string)) :
  in_remove_cols c (if b then l ++ [x] else l) = in_remove_cols c l || (b && opt_eqb x c).
Proof.
  destruct b; simpl.
  - rewrite in_remove_cols_app. simpl. rewrite orb_false_r. reflexivity.
  - rewrite orb_false_r. reflexivity.
Qed.

Ltac bool_cases :=
  repeat match goal with |- forall b : bool, _ => intros [] end; reflexivity.

(** What one iteration of the loop on columns adds to [remove_cols]. *)
Lemma remove_cols_step_spec filters old_col col values acc l :
  remove_cols_step filters old_col col values acc = Ok l ->
  forall c,
    in_remove_cols c l
    = in_remove_cols c acc
      || (String.eqb col c && (always_on_rule col values || flag_rule filters col values))
      || old_citation_rule filters old_col c.
Proof.
  unfold remove_cols_step, always_on_rule, flag_rule, aspect_rule, old_citation_rule.
  intros H c.
  destruct (mem "cols_no_ent_or_gen" filters || mem "cols_no_numeric" filters) eqn:Ef.
  - inv_bind H. rewrite Ha. apply Ok_inj in H. subst l.
    rewrite !in_remove_cols_add.
    change (opt_eqb (Some col) c) with (String.eqb col c).
    generalize (in_remove_cols c acc) (String.eqb col c)
      (mem "cols_no_old_citation_col" filters && opt_eqb old_col c)
      (only_additional_citations values) (numeric_header col)
      (mem "cols_no_formula" filters && existsb (contains "{{formula:") (values ++ [col]))
      (mem "cols_no_formula_colname" filters && contains "{{formula:" col)
      (mem "cols_no_names" filters && mem (lower col) NAME_HEADERS)
      (mem "col_no_generic" filters && mem col GENERIC_HEADERS)
      (mem "cols_no_float" filters && existsb (re_search FLOAT_REGEX) (values ++ [col]))
      (mem "cols_no_figure" filters && existsb (contains "{{figure") (values ++ [col]))
      (mem "cols_no_numeric" filters && String.eqb a "num")
      (mem "cols_no_ent_or_gen" filters && mem a ["gen"; "ent"]).
    bool_cases.
  - apply Ok_inj in H. subst l.
    rewrite !in_remove_cols_add.
    change (opt_eqb (Some col) c) with (String.eqb col c).
    rewrite andb_false_l.
    generalize (in_remove_cols c acc) (String.eqb col c)
      (mem "cols_no_old_citation_col" filters && opt_eqb old_col c)
      (only_additional_citations values) (numeric_header col)
      (mem "cols_no_formula" filters && existsb (contains "{{formula:") (values ++ [col]))
      (mem "cols_no_formula_colname" filters && contains "{{formula:" col)
      (mem "cols_no_names" filters && mem (lower col) NAME_HEADERS)
      (mem "col_no_generic" filters && mem col GENERIC_HEADERS)
      (mem "cols_no_float" filters && existsb (re_search FLOAT_REGEX) (values ++ [col]))
      (mem "cols_no_figure" filters && existsb (contains "{{figure") (values ++ [col])).
    bool_cases.
Qed.

Lemma collect_remove_cols_spec filters old_col cols :
  forall acc rc,
    collect_remove_cols filters old_col cols acc = Ok rc ->
    forall c,
      in_remove_cols c rc
      = in_remove_cols c acc
        || existsb (fun col => String.eqb (fst col) c
                               && (always_on_rule (fst col) (snd col)
                                   || flag_rule filters (fst col) (snd col))) cols
        || (negb (Nat.eqb (List.length cols) 0) && old_citation_rule filters old_col c).
Proof.
  induction cols as [|[col values] rest IH]; intros acc rc H c.
  - simpl in H. inversion H. cbn [existsb List.length Nat.eqb negb andb].
    rewrite !orb_false_r. reflexivity.
  - cbn [collect_remove_cols] in H. inv_bind H.
    rewrite (IH _ _ H c). rewrite (remove_cols_step_spec _ _ _ _ _ _ Ha c).
    cbn [existsb fst snd List.length Nat.eqb negb andb].
    generalize (in_remove_cols c acc) (String.eqb col c)
      (always_on_rule col values || flag_rule filters col values)
      (old_citation_rule filters old_col c)
      (existsb (fun col0 : string * list string =>
                  String.eqb (fst col0) c
                  && (always_on_rule (fst col0) (snd col0)
                      || flag_rule filters (fst col0) (snd col0))) rest)
      (negb (Nat.eqb (List.length rest) 0)).
    bool_cases.
Qed.

Lemma dict_set_In {V : Type} (d : dict V) (k : string) (x : V) (c : string) (v : V) :
  In (c, v) (dict_set d k x) -> (c = k /\ v = x) \/ In (c, v) d.
Proof.
  induction d as [|[k' v'] r IH]; simpl.
  - intros [H | []]. inversion H. auto.
  - destruct (String.eqb_spec k' k) as [->|Hne]; simpl.
    + intros [H | H]; [inversion H; auto | auto].
    + intros [H | H]; [auto|]. destruct (IH H) as [Hk | Hr]; auto.
Qed.

Lemma keys_dict_set {V : Type} (d : dict V) (k : string) (x : V) (c : string) :
  In c (keys (dict_set d k x)) <-> c = k \/ In c (keys d).
Proof.
  unfold keys. induction d as [|[k' v'] r IH]; simpl.
  - intuition congruence.
  - destruct (String.eqb_spec k' k) as [->|Hne]; simpl.
    + intuition congruence.
    + rewrite IH. intuition congruence.
Qed.

Section NewTableDict.

Variables (remove_cols : list (option string)) (remove_rows : list nat).

(** The column is dropped from [new_table_dict]. *)
Let dropped (col : string) : bool :=
  in_remove_cols col remove_cols && negb (String.eqb col "References").

Lemma build_new_table_dict_In cols :
  forall acc c v,
    In (c, v) (build_new_table_dict remove_cols remove_rows cols acc) ->
    In (c, v) acc
    \/ exists v0, In (c, v0) cols /\ dropped c = false /\ v = excise remove_rows v0.
Proof.
  induction cols as [|[col values] rest IH]; simpl; intros acc c v H; [auto|].
  fold (dropped col) in H. destruct (dropped col) eqn:Ed.
  - destruct (IH _ _ _ H) as [Ha | (v0 & Hin & Hd & Hv)]; [auto|].
    right. exists v0. auto.
  - destruct (IH _ _ _ H) as [Ha | (v0 & Hin & Hd & Hv)].
    + destruct (dict_set_In _ _ _ _ _ Ha) as [[-> ->] | Ha']; [|auto].
      right. exists values. auto.
    + right. exists v0. auto.
Qed.

Lemma build_new_table_dict_keys cols :
  forall acc c,
    In c (keys (build_new_table_dict remove_cols remove_rows cols acc))
    <-> In c (keys acc) \/ (In c (keys cols) /\ dropped c = false).
Proof.
  induction cols as [|[col values] rest IH]; simpl; intros acc c.
  - tauto.
  - fold (dropped col). destruct (dropped col) eqn:Ed; rewrite IH.
    + split; [tauto|]. intros [H | [[H | H] Hd]]; [tauto | | tauto].
      congruence.
    + rewrite keys_dict_set. split.
      * intros [[-> | H] | [H Hd]]; tauto.
      * intros [H | [[<- | H] Hd]]; tauto.
Qed.

End NewTableDict.

Lemma existsb_key_NoDup (f : string -> list string -> bool) (d : dict (list string))
    (c : string) (v : list string) :
  NoDup (keys d) -> In (c, v) d ->
  existsb (fun col => String.eqb (fst col) c && f (fst col) (snd col)) d = f c v.
Proof.
  unfold keys.
  induction d as [|[k w] r IH]; simpl; intros Hnd Hin; [contradiction|].
  inversion Hnd as [|x l Hnotin Hnd']; subst.
  destruct Hin as [H | H].
  - inversion H; subst. rewrite String.eqb_refl. simpl.
    destruct (f c v); [reflexivity|]. simpl.
    apply not_true_is_false. intros He. apply existsb_exists in He.
    destruct He as [[k' w'] [Hin' He]]. simpl in He.
    apply andb_true_iff in He. destruct He as [He _]. apply String.eqb_eq in He. subst k'.
    apply Hnotin. apply in_map_iff. exists (c, w'). auto.
  - destruct (String.eqb_spec k c) as [->|Hne]; simpl.
    + exfalso. apply Hnotin. apply in_map_iff. exists (c, v). auto.
    + apply IH; assumption.
Qed.

Lemma row_removed_valid filters (ids : list Z) (r : bib_row) :
  row_removed filters
    (if mem "rows_no_missing_full_texts" filters then ids else []) r
  = row_removed filters ids r.
Proof.
  unfold row_removed. destruct (mem "rows_no_missing_full_texts" filters); reflexivity.
Qed.

(** The loop on [row_bib_map]: the rows that no flag removes are kept in
    their order and numbered from the length of the list so far; the row
    numbers of the others are collected. *)
Lemma edit_rows_spec filters ids rows :
  forall acc acc',
    edit_rows filters ids rows acc = Ok acc' ->
    new_row_bib_map acc'
    = new_row_bib_map acc
      ++ renumber_from (List.length (new_row_bib_map acc))
           (filter (fun r => negb (row_removed filters ids r)) rows)
    /\ remove_rows acc' = remove_rows acc ++ map row (filter (row_removed filters ids) rows).
Proof.
  induction rows as [|r rest IH]; simpl; intros acc acc' H.
  - inversion H. rewrite !app_nil_r. auto.
  - inv_bind H. rename a into acc1. unfold edit_row in Ha.
    inv_bind Ha. rename a into no_title. inv_bind Ha. rename a into no_abstract.
    assert (Hrem : no_title || no_abstract
                   || (mem "rows_no_missing_full_texts" filters
                       && negb (existsb (Z.eqb (corpus_id r)) ids))
                   = row_removed filters ids r).
    { unfold row_removed. f_equal. f_equal.
      - destruct (mem "rows_no_missing_titles" filters); simpl in *.
        + inv_bind Ha0. inversion Ha0. unfold item in Ha2.
          destruct (title r); [inversion Ha2; reflexivity | discriminate].
        + inversion Ha0. reflexivity.
      - destruct (mem "rows_no_missing_abstracts" filters); simpl in *.
        + inv_bind Ha1. inversion Ha1. unfold item in Ha2.
          destruct (abstract r); [inversion Ha2; reflexivity | discriminate].
        + inversion Ha1. reflexivity. }
    rewrite Hrem in Ha. destruct (row_removed filters ids r) eqn:Er; simpl.
    + inversion Ha; subst acc1. clear Ha.
      destruct (IH _ _ H) as [Hn Hr]. simpl in Hn, Hr.
      rewrite Hn, Hr, <- app_assoc. auto.
    + inversion Ha; subst acc1. clear Ha.
      destruct (IH _ _ H) as [Hn Hr]. simpl in Hn, Hr.
      rewrite Hn, Hr, length_app, <- app_assoc. simpl.
      rewrite Nat.add_1_r. auto.
Qed.

Lemma renumber_from_rows (rows : list bib_row) :
  forall n, map row (renumber_from n rows) = seq n (List.length rows).
Proof.
  induction rows as [|r rest IH]; simpl; intros n; [reflexivity|].
  rewrite IH. reflexivity.
Qed.

Lemma renumber_from_length (rows : list bib_row) :
  forall n, List.length (renumber_from n rows) = List.length rows.
Proof.
  induction rows as [|r rest IH]; simpl; intros n; [reflexivity|].
  rewrite IH. reflexivity.
Qed.

Lemma dict_get_In {V : Type} (d : dict V) (k : string) (v : V) :
  dict_get d k = Some v -> In (k, v) d.
Proof.
  induction d as [|[k' v'] r IH]; simpl; [discriminate|].
  destruct (String.eqb_spec k' k) as [->|Hne].
  - intros H. inversion H. auto.
  - auto.
Qed.

Lemma column_flags_disabled filters old_col col values :
  column_flag_enabled filters = false ->
  column_removed filters old_col col values = always_on_rule col values.
Proof.
  unfold column_flag_enabled. simpl. intros H.
  repeat (apply orb_false_elim in H; let H1 := fresh "Hf" in destruct H as [H1 H]).
  unfold column_removed, flag_rule, aspect_rule, old_citation_rule.
  rewrite Hf, Hf0, Hf1, Hf2, Hf3, Hf4, Hf5, Hf6, Hf7. simpl.
  rewrite !orb_false_r. reflexivity.
Qed.

(** C5, as stated, fails: with an empty list of filters, so with no flag on
    columns enabled, the columns "2020" (a numeric header) and "Notes" (only
    dashes) of [years_record] are removed. *)
Lemma columns_removed_without_flag :
  column_flag_enabled [] = false
  /\ exists kept,
       get_high_quality_tables [] [years_record] (Some []) = Ok [kept]
       /\ keys (table_dict (table_json kept)) = ["References"; "Task"; "Model"].
Proof.
  split; [reflexivity|]. eexists. split; [vm_compute; reflexivity | reflexivity].
Qed.

(** C5, amended: in a record the pipeline keeps, a column other than
    "References" is removed if and only if one of the two rules that need no
    flag matches it (every cell is a dash or a bare citation marker; the
    header is purely numeric) or a rule whose flag is enabled matches it, so
    with no flag on columns enabled exactly the columns matching those two
    rules are removed; the record has at least 3 columns, or at least 2
    when [cols_no_ent_or_gen] or [cols_no_numeric] is enabled. *)
Theorem column_removal_rules ids tables filters out kept :
  get_high_quality_tables ids tables filters = Ok out -> In kept out ->
  exists tbl,
    In tbl tables
    /\ (NoDup (keys (table_dict (table_json tbl))) ->
        forall col values,
          In (col, values) (table_dict (table_json tbl)) -> col <> "References" ->
          (~ In col (keys (table_dict (table_json kept)))
           <-> column_removed (filters_in_force filters)
                 (old_citation_column (table_json tbl)) col values = true))
    /\ (forall old_col col values,
          column_flag_enabled (filters_in_force filters) = false ->
          column_removed (filters_in_force filters) old_col col values
          = always_on_rule col values)
    /\ min_columns (filters_in_force filters)
       <= List.length (table_dict (table_json kept)).
Proof.
  intros H Hin.
  destruct (get_high_quality_tables_In _ _ _ _ _ H Hin)
    as (tbl & s0 & s1 & valid & Ht & Hf).
  destruct (filter_table_kept _ _ _ _ _ _ Hf)
    as (c & refs & rows & rc & _ & _ & _ & _ & Hrc & Hmin & ->).
  exists tbl. split; [exact Ht|]. split; [|split].
  - intros Hnd col values Hcol Hne. simpl.
    rewrite build_new_table_dict_keys. simpl.
    assert (Hrem : in_remove_cols col rc
                   = column_removed (filters_in_force filters)
                       (old_citation_column (table_json tbl)) col values).
    { rewrite (collect_remove_cols_spec _ _ _ _ _ Hrc col). simpl.
      rewrite (existsb_key_NoDup
                 (fun c v => always_on_rule c v || flag_rule (filters_in_force filters) c v)
                 _ col values Hnd Hcol).
      destruct (table_dict (table_json tbl)); [contradiction|]. simpl.
      unfold column_removed. reflexivity. }
    rewrite Hrem. apply String.eqb_neq in Hne. rewrite Hne. simpl. rewrite andb_true_r.
    assert (Hk : In col (keys (table_dict (table_json tbl)))).
    { unfold keys. apply in_map_iff. exists (col, values). auto. }
    destruct (column_removed _ _ col values); split.
    + reflexivity.
    + intros _ [[] | [_ Hd]]. discriminate.
    + intros Hn. exfalso. apply Hn. right. auto.
    + discriminate.
  - intros. apply column_flags_disabled. assumption.
  - exact Hmin.
Qed.

Lemma column_removal_rules_witness :
  (~ In "2020" (keys years_table_kept)
   <-> column_removed [] None "2020" ["12"; "15"] = true)
  /\ 3 <= List.length years_table_kept.
Proof.
  assert (H1 : get_high_quality_tables [] [years_record] (Some [])
               = Ok [kept_record years_record years_table_kept []])
    by (vm_compute; reflexivity).
  destruct (column_removal_rules [] [years_record] (Some [])
              [kept_record years_record years_table_kept []]
              (kept_record years_record years_table_kept []) H1 (or_introl eq_refl))
    as (tbl & Hin & Hcols & _ & Hmin).
  destruct Hin as [<- | []].
  split; [|exact Hmin].
  apply (Hcols).
  - repeat constructor; simpl; intuition discriminate.
  - right. left. reflexivity.
  - discriminate.
Defined.

(** C7: a record of the output comes from a record of the input; its
    columns are columns of that record and "References" is among them; the
    values of a column are those of the input with the removed row
    positions excised; its [row_bib_map] holds the entries that no flag
    removes, in their order, numbered from 0 on. *)
Theorem pipeline_only_removes ids tables filters out kept :
  get_high_quality_tables ids tables filters = Ok out -> In kept out ->
  exists tbl,
    In tbl tables
    /\ let removed := row_removed (filters_in_force filters) ids in
       let removed_rows := map row (filter removed (row_bib_map tbl)) in
       incl (keys (table_dict (table_json kept))) (keys (table_dict (table_json tbl)))
       /\ In "References" (keys (table_dict (table_json kept)))
       /\ (forall col values,
             In (col, values) (table_dict (table_json kept)) ->
             exists values0,
               In (col, values0) (table_dict (table_json tbl))
               /\ values = excise removed_rows values0)
       /\ row_bib_map kept
          = renumber_from 0 (filter (fun r => negb (removed r)) (row_bib_map tbl))
       /\ map row (row_bib_map kept) = seq 0 (List.length (row_bib_map kept)).
Proof.
  intros H Hin. unfold get_high_quality_tables in H. fold (filters_in_force filters) in H.
  destruct (filter_tables_In _ _ _ _ _ _ H Hin) as (tbl & s0 & s1 & Ht & Hf).
  destruct (filter_table_kept _ _ _ _ _ _ Hf)
    as (c & refs & rows & rc & _ & _ & Hrefs & Hrows & Hrc & Hmin & ->).
  destruct (edit_rows_spec _ _ _ _ _ Hrows) as [Hnew Hrem]. simpl in Hnew, Hrem.
  assert (Hfilter : forall r,
             row_removed (filters_in_force filters)
               (if mem "rows_no_missing_full_texts" (filters_in_force filters)
                then ids else []) r
             = row_removed (filters_in_force filters) ids r)
    by (intros; apply row_removed_valid).
  rewrite (filter_ext _ _ Hfilter) in Hrem.
  rewrite (filter_ext _ (fun r => negb (row_removed (filters_in_force filters) ids r)))
    in Hnew by (intros r; rewrite Hfilter; reflexivity).
  exists tbl. split; [exact Ht|]. simpl.
  split; [|split; [|split; [|split]]].
  - intros col Hcol. apply build_new_table_dict_keys in Hcol. simpl in Hcol. tauto.
  - apply build_new_table_dict_keys. right. split.
    + unfold keys. apply in_map_iff. exists ("References", refs).
      split; [reflexivity | apply dict_get_In; exact Hrefs].
    + simpl. apply andb_false_r.
  - intros col values Hcol. apply build_new_table_dict_In in Hcol.
    destruct Hcol as [[] | (v0 & Hv0 & _ & ->)].
    exists v0. rewrite Hrem. auto.
  - exact Hnew.
  - rewrite Hnew, renumber_from_rows, renumber_from_length. reflexivity.
Qed.

Lemma pipeline_only_removes_witness :
  exists tbl,
    In tbl [untitled_record]
    /\ let removed := row_removed ["rows_no_missing_titles"] [] in
       let removed_rows := map row (filter removed (row_bib_map tbl)) in
       incl (keys untitled_table_kept) (keys (table_dict (table_json tbl)))
       /\ In "References" (keys untitled_table_kept)
       /\ (forall col values,
             In (col, values) untitled_table_kept ->
             exists values0,
               In (col, values0) (table_dict (table_json tbl))
               /\ values = excise removed_rows values0)
       /\ untitled_rows_kept
          = renumber_from 0 (filter (fun r => negb (removed r)) (row_bib_map tbl))
       /\ map row untitled_rows_kept = seq 0 (List.length untitled_rows_kept).
Proof.
  apply (pipeline_only_removes [] [untitled_record] (Some ["rows_no_missing_titles"])
           [kept_record untitled_record untitled_table_kept untitled_rows_kept]
           (kept_record untitled_record untitled_table_kept untitled_rows_kept)).
  - vm_compute. reflexivity.
  - left. reflexivity.
Defined.

(** ** The grid of [soup_to_json] *)

Lemma nth_error_list_set {A : Type} (l : list A) (i : nat) (x : A) :
  forall j, nth_error (list_set l i x) j
            = if Nat.eqb i j then (if j <? List.length l then Some x else None)
              else nth_error l j.
Proof.
  revert i. induction l as [|y r IH]; intros i j.
  - simpl. destruct j, (Nat.eqb i _); reflexivity.
  - destruct i as [|i], j as [|j]; simpl; try reflexivity.
    rewrite IH. destruct (Nat.eqb i j); [|reflexivity].
    change (S j <? S (List.length r)) with (j <? List.length r). reflexivity.
Qed.

Lemma length_list_set {A : Type} (l : list A) (i : nat) (x : A) :
  List.length (list_set l i x) = List.length l.
Proof.
  revert i. induction l as [|y r IH]; intros [|i]; simpl; auto.
Qed.

Lemma Forall_list_set {A : Type} (P : A -> Prop) (l : list A) (i : nat) (x : A) :
  Forall P l -> P x -> Forall P (list_set l i x).
Proof.
  revert i. induction l as [|y r IH]; intros i Hl Hx; [constructor|].
  inversion Hl; subst. destruct i; simpl; constructor; auto.
Qed.

(** Reading a position after a write. *)
Lemma grid_get_set (g : grid) (r c : nat) (v : string) (r' c' : nat) :
  grid_get g r c <> None ->
  grid_get (grid_set g r c v) r' c'
  = if Nat.eqb r r' && Nat.eqb c c' then Some v else grid_get g r' c'.
Proof.
  unfold grid_get, grid_set. intros Hin.
  destruct (nth_error g r) as [line|] eqn:Hr; [|congruence].
  rewrite nth_error_list_set.
  destruct (Nat.eqb_spec r r') as [<-|Hne]; simpl.
  - assert (Hlt : r < List.length g) by (apply nth_error_Some; congruence).
    apply Nat.ltb_lt in Hlt. rewrite Hlt. rewrite nth_error_list_set.
    destruct (Nat.eqb_spec c c') as [<-|Hc].
    + assert (Hlt' : c < List.length line) by (apply nth_error_Some; exact Hin).
      apply Nat.ltb_lt in Hlt'. rewrite Hlt'. reflexivity.
    + rewrite Hr. reflexivity.
  - reflexivity.
Qed.

Lemma rectangular_set (R C : nat) (g : grid) (r c : nat) (v : string) :
  rectangular R C g -> rectangular R C (grid_set g r c v).
Proof.
  intros [Hlen Hall]. unfold grid_set.
  destruct (nth_error g r) as [line|] eqn:Hr; [|split; assumption].
  split.
  - rewrite length_list_set. exact Hlen.
  - apply Forall_list_set; [exact Hall|]. rewrite length_list_set.
    apply nth_error_In in Hr. rewrite Forall_forall in Hall. auto.
Qed.

Lemma rectangular_get (R C : nat) (g : grid) (r c : nat) :
  rectangular R C g -> r < R -> c < C -> exists v, grid_get g r c = Some v.
Proof.
  intros [Hlen Hall] Hr Hc. unfold grid_get.
  destruct (nth_error g r) as [line|] eqn:E.
  - assert (Hl : List.length line = C).
    { apply nth_error_In in E. rewrite Forall_forall in Hall. auto. }
    destruct (nth_error line c) as [v|] eqn:E'; [eauto|].
    apply nth_error_None in E'. lia.
  - apply nth_error_None in E. lia.
Qed.

Lemma rectangular_out (R C : nat) (g : grid) (r c : nat) :
  rectangular R C g -> R <= r -> grid_get g r c = None.
Proof.
  intros [Hlen _] Hr. unfold grid_get.
  destruct (nth_error g r) eqn:E; [|reflexivity].
  assert (r < List.length g) by (apply nth_error_Some; congruence). lia.
Qed.

Lemma rectangular_initial (R C : nat) :
  rectangular R C (st_table (initial_state R C)).
Proof.
  simpl. split.
  - apply repeat_length.
  - apply Forall_forall. intros line Hin. apply repeat_spec in Hin. subst.
    apply repeat_length.
Qed.

(** *** Propagation of a row span *)

Section Propagate.

Variables (R C : nat) (row_i col : nat) (text : string).
Hypothesis Hcol : col < C.

(** The propagation never lets an exception escape; when it completes every
    target row is a row of the grid. *)
Lemma propagate_course (offsets : list nat) :
  forall g, rectangular R C g ->
    match propagate g row_i col text offsets with
    | Go g' => rectangular R C g' /\ forall off, In off offsets -> row_i + off < R
    | EmptyResult _ => True
    | Escapes _ => False
    end.
Proof.
  induction offsets as [|off rest IH]; simpl; intros g Hg.
  - split; [exact Hg | intros off []].
  - destruct (grid_get g (row_i + off) col) as [v|] eqn:E; [|exact I].
    specialize (IH (grid_set g (row_i + off) col (v +++ text))
                  (rectangular_set _ _ _ _ _ _ Hg)).
    destruct (propagate _ row_i col text rest) as [g'| |]; auto.
    destruct IH as [Hg' Hrest]. split; [exact Hg'|].
    intros o [<- | Ho]; [|auto].
    destruct (Nat.lt_ge_cases (row_i + off) R) as [Hlt | Hge]; [exact Hlt|].
    rewrite (rectangular_out _ _ _ _ _ Hg Hge) in E. discriminate.
Qed.

(** With all its targets in the grid the propagation completes: each target
    gets the text appended, every other position is left as it is. *)
Lemma propagate_in_range (offsets : list nat) :
  forall g, rectangular R C g -> NoDup offsets ->
    (forall off, In off offsets -> row_i + off < R) ->
    exists g',
      propagate g row_i col text offsets = Go g'
      /\ rectangular R C g'
      /\ (forall off v, In off offsets -> grid_get g (row_i + off) col = Some v ->
            grid_get g' (row_i + off) col = Some (v +++ text))
      /\ (forall r c, ~ (c = col /\ exists off, In off offsets /\ r = row_i + off) ->
            grid_get g' r c = grid_get g r c).
Proof.
  induction offsets as [|off rest IH]; simpl; intros g Hg Hnd Hin.
  - exists g. split; [reflexivity|]. split; [exact Hg|].
    split; [intros off v [] | reflexivity].
  - inversion Hnd as [|x l Hnotin Hnd']; subst.
    destruct (rectangular_get _ _ _ _ _ Hg (Hin off (or_introl eq_refl)) Hcol) as [v Hv].
    rewrite Hv.
    destruct (IH (grid_set g (row_i + off) col (v +++ text))
                (rectangular_set _ _ _ _ _ _ Hg) Hnd'
                (fun o Ho => Hin o (or_intror Ho)))
      as (g' & Hp & Hg' & Htargets & Hothers).
    assert (Hsome : grid_get g (row_i + off) col <> None) by congruence.
    exists g'. split; [exact Hp|]. split; [exact Hg'|]. split.
    + intros o w [<- | Ho] Hw.
      * rewrite Hothers.
        -- rewrite grid_get_set by exact Hsome. rewrite !Nat.eqb_refl. simpl. congruence.
        -- intros [_ (o' & Ho' & He)]. assert (o' = off) by lia. subst. contradiction.
      * apply Htargets; [exact Ho|].
        rewrite grid_get_set by exact Hsome.
        destruct (Nat.eqb_spec (row_i + off) (row_i + o)) as [He|Hne]; simpl.
        -- assert (o = off) by lia. subst. contradiction.
        -- exact Hw.
    + intros r c Hnot. rewrite Hothers.
      * rewrite grid_get_set by exact Hsome.
        destruct (Nat.eqb_spec (row_i + off) r) as [<-|Hr]; simpl; [|reflexivity].
        destruct (Nat.eqb_spec col c) as [<-|Hc]; [|reflexivity].
        exfalso. apply Hnot. split; [reflexivity|]. exists off. auto.
      * intros [Hc (o & Ho & He)]. apply Hnot. split; [exact Hc|]. exists o. auto.
Qed.

End Propagate.

(** *** Writing a cell *)

Lemma write_cell_unfold header_rows row_i col text g :
  write_cell header_rows row_i col text g
  = match multirow_search text with
    | Some (count, rest) =>
        match propagate g row_i col (strip rest) (seq 1 (count - 1)) with
        | Go g' => finish_cell header_rows row_i col rest g'
        | EmptyResult g' => EmptyResult g'
        | Escapes e => Escapes e
        end
    | None => finish_cell header_rows row_i col text g
    end.
Proof.
  unfold write_cell, finish_cell.
  destruct (multirow_search text) as [[count rest]|]; [|reflexivity].
  destruct (propagate g row_i col (strip rest) (seq 1 (count - 1))); reflexivity.
Qed.

Lemma finish_cell_spec header_rows row_i col cell_text g v :
  grid_get g row_i col = Some v ->
  finish_cell header_rows row_i col cell_text g
  = Go (if truthy v then g
        else grid_set g row_i col
               (written_text (existsb (Nat.eqb row_i) header_rows) cell_text)).
Proof.
  intros Hv. unfold finish_cell, written_text. rewrite Hv.
  set (t := if re_search hline cell_text then re_sub hline EmptyString cell_text
            else cell_text).
  destruct v as [|a v']; simpl truthy; cbn [negb andb].
  - destruct (is_na (strip t)); simpl; reflexivity.
  - destruct (is_na (strip t)); simpl; reflexivity.
Qed.

Section WriteCourse.

Variables (R C : nat) (header_rows : list nat) (row_i : nat).
Hypothesis Hrow : row_i < R.

Lemma write_cell_course col text g :
  rectangular R C g -> col < C ->
  match write_cell header_rows row_i col text g with
  | Go g' => rectangular R C g' /\ span_in_range R row_i text
  | EmptyResult _ => True
  | Escapes _ => False
  end.
Proof.
  intros Hg Hcol. rewrite write_cell_unfold.
  destruct (multirow_search text) as [[count rest]|] eqn:Em.
  - pose proof (propagate_course R C row_i col (strip rest) (seq 1 (count - 1)) g Hg)
      as Hp.
    destruct (propagate g row_i col (strip rest) (seq 1 (count - 1))) as [g'| |];
      [|exact I|exact Hp].
    destruct Hp as [Hg' Hoff].
    destruct (rectangular_get _ _ _ _ _ Hg' Hrow Hcol) as [v Hv].
    rewrite (finish_cell_spec _ _ _ _ _ _ Hv). split.
    + destruct (truthy v); [exact Hg' | apply rectangular_set; exact Hg'].
    + intros count' rest' H. rewrite Em in H. injection H as <- <-.
      destruct (count - 1) as [|n] eqn:En; [lia|].
      apply Hoff. apply in_seq. lia.
  - destruct (rectangular_get _ _ _ _ _ Hg Hrow Hcol) as [v Hv].
    rewrite (finish_cell_spec _ _ _ _ _ _ Hv). split.
    + destruct (truthy v); [exact Hg | apply rectangular_set; exact Hg].
    + intros count rest H. rewrite Em in H. discriminate.
Qed.

Lemma write_span_course col_i text (col_offsets : list nat) :
  forall g, rectangular R C g ->
    (forall off, In off col_offsets -> col_i + off < C) ->
    match write_span header_rows row_i col_i text col_offsets g with
    | Go g' => rectangular R C g' /\ (col_offsets <> [] -> span_in_range R row_i text)
    | EmptyResult _ => True
    | Escapes _ => False
    end.
Proof.
  induction col_offsets as [|off rest IH]; simpl; intros g Hg Hoff.
  - split; [exact Hg | congruence].
  - pose proof (write_cell_course (col_i + off) text g Hg (Hoff off (or_introl eq_refl)))
      as Hw.
    destruct (write_cell header_rows row_i (col_i + off) text g) as [g'| |]; simpl;
      [|exact I|exact Hw].
    destruct Hw as [Hg' Hs].
    specialize (IH g' Hg' (fun o Ho => Hoff o (or_intror Ho))).
    destruct (write_span header_rows row_i col_i text rest g') as [g''| |]; auto.
    destruct IH as [Hg'' _]. split; [exact Hg''|]. intros _. exact Hs.
Qed.

Lemma write_cells_course (cells : list Cell) :
  forall col_i g, rectangular R C g ->
    col_i + list_sum (map num_spanning_cols cells) <= C ->
    match write_cells header_rows row_i col_i cells g with
    | Go g' =>
        rectangular R C g'
        /\ forall cell, In cell cells -> 1 <= num_spanning_cols cell ->
                        span_in_range R row_i (cell_text cell)
    | EmptyResult _ => True
    | Escapes _ => False
    end.
Proof.
  induction cells as [|cell rest IH]; simpl; intros col_i g Hg Hsum.
  - split; [exact Hg | intros cell []].
  - assert (Hoff : forall off, In off (seq 0 (num_spanning_cols cell)) -> col_i + off < C).
    { intros off Hin. apply in_seq in Hin. lia. }
    pose proof (write_span_course col_i (cell_text cell) _ g Hg Hoff) as Hw.
    destruct (write_span header_rows row_i col_i (cell_text cell)
                (seq 0 (num_spanning_cols cell)) g) as [g'| |]; simpl;
      [|exact I|exact Hw].
    destruct Hw as [Hg' Hs].
    assert (Hsum' : col_i + num_spanning_cols cell
                    + list_sum (map num_spanning_cols rest) <= C) by lia.
    specialize (IH _ g' Hg' Hsum').
    destruct (write_cells header_rows row_i (col_i + num_spanning_cols cell) rest g')
      as [g''| |]; auto.
    destruct IH as [Hg'' Hrest]. split; [exact Hg''|].
    intros c [<- | Hin] Hspan; [|auto].
    apply Hs. destruct (num_spanning_cols cell); [lia | discriminate].
Qed.

End WriteCourse.

(** *** The loop on the rows *)

Lemma filter_length_pos {A : Type} (f : A -> bool) (l : list A) :
  (0 <? List.length (filter f l)) = existsb f l.
Proof.
  induction l as [|x r IH]; simpl; [reflexivity|].
  destruct (f x); simpl; [reflexivity | exact IH].
Qed.

Lemma filter_length_zero {A : Type} (f : A -> bool) (l : list A) :
  (List.length (filter f l) =? 0) = negb (existsb f l).
Proof.
  induction l as [|x r IH]; simpl; [reflexivity|].
  destruct (f x); simpl; [reflexivity | exact IH].
Qed.

(** One iteration of the loop, in the terms of the specification. *)
Lemma fill_row_unfold num_cols i cells st :
  fill_row num_cols i cells st
  = let seen := st_seen_cites st || row_has_cites cells in
    let hdr := st_header_rows st ++ new_header_rows num_cols (st_seen_cites st) i cells in
    if is_incomplete_row num_cols (st_seen_cites st) cells then
      RowDone {| st_table := st_table st;
                 st_incomplete_rows :=
                   st_incomplete_rows st ++ [(i, map cell_text cells)];
                 st_header_rows := hdr;
                 st_seen_cites := seen |}
    else
      match write_cells hdr i 0 cells (st_table st) with
      | Go g => RowDone {| st_table := g;
                           st_incomplete_rows := st_incomplete_rows st;
                           st_header_rows := hdr;
                           st_seen_cites := seen |}
      | EmptyResult g => RowEmptyResult g (st_incomplete_rows st)
      | Escapes e => RowEscapes e
      end.
Proof.
  unfold fill_row, new_header_rows, is_incomplete_row, short_header, row_has_cites.
  rewrite filter_length_pos, filter_length_zero.
  destruct (existsb has_cit cells), (st_seen_cites st), (List.length cells <? num_cols),
    (i <=? 1), (existsb has_figure cells);
    cbn [negb andb orb app]; rewrite ?app_nil_r, <- ?app_assoc; reflexivity.
Qed.

Lemma new_header_rows_In num_cols seen i cells j :
  In j (new_header_rows num_cols seen i cells)
  <-> j = i /\ is_header_row num_cols seen i cells = true.
Proof.
  unfold new_header_rows, is_header_row.
  destruct (negb (row_has_cites cells) && (i <=? 1) && negb seen),
    (short_header num_cols seen cells); simpl; intuition congruence.
Qed.

(** What a completed iteration leaves in the state. *)
Lemma fill_row_done num_cols i cells st st' :
  fill_row num_cols i cells st = RowDone st' ->
  st_seen_cites st' = st_seen_cites st || row_has_cites cells
  /\ st_header_rows st'
     = st_header_rows st ++ new_header_rows num_cols (st_seen_cites st) i cells
  /\ st_incomplete_rows st'
     = st_incomplete_rows st
       ++ (if is_incomplete_row num_cols (st_seen_cites st) cells
           then [(i, map cell_text cells)] else [])
  /\ (is_incomplete_row num_cols (st_seen_cites st) cells = true ->
      st_table st' = st_table st).
Proof.
  rewrite fill_row_unfold. cbv zeta.
  destruct (is_incomplete_row num_cols (st_seen_cites st) cells).
  - intros H. injection H as <-. simpl. auto.
  - destruct (write_cells _ i 0 cells (st_table st)); try discriminate.
    intros H. injection H as <-. simpl. rewrite app_nil_r.
    repeat split; auto. discriminate.
Qed.

Lemma fill_rows_classification num_cols rows :
  forall i st st',
    fill_rows num_cols i rows st = RowDone st' ->
    st_seen_cites st' = st_seen_cites st || existsb row_has_cites rows
    /\ st_incomplete_rows st'
       = st_incomplete_rows st ++ incomplete_from num_cols (st_seen_cites st) i rows
    /\ forall j,
         In j (st_header_rows st')
         <-> In j (st_header_rows st)
             \/ exists k cells,
                  nth_error rows k = Some cells /\ j = i + k
                  /\ is_header_row num_cols
                       (st_seen_cites st || existsb row_has_cites (firstn k rows))
                       j cells = true.
Proof.
  induction rows as [|cells rest IH]; simpl; intros i st st' H.
  - injection H as <-. rewrite orb_false_r, app_nil_r. split; [auto|]. split; [auto|].
    intros j. split; [auto|]. intros [Hj | (k & c & Hk & _)]; [exact Hj|].
    destruct k; discriminate.
  - destruct (fill_row num_cols i cells st) as [st1| |] eqn:E; try discriminate.
    destruct (fill_row_done _ _ _ _ _ E) as (Hseen & Hhdr & Hinc & _).
    destruct (IH _ _ _ H) as (Hs' & Hi' & Hh').
    split; [rewrite Hs', Hseen, orb_assoc; reflexivity|].
    split; [rewrite Hi', Hinc, Hseen, <- app_assoc; reflexivity|].
    intros j. rewrite Hh', Hhdr, in_app_iff, new_header_rows_In. split.
    + intros [[Hj | [-> Hj]] | (k & c & Hk & -> & Hj)].
      * auto.
      * right. exists 0, cells. simpl. rewrite orb_false_r, Nat.add_0_r. auto.
      * right. exists (S k), c. simpl. rewrite Hseen, <- orb_assoc in Hj.
        repeat split; [exact Hk | lia |].
        replace (i + S k) with (S i + k) by lia. exact Hj.
    + intros [Hj | (k & c & Hk & -> & Hj)]; [auto|].
      destruct k as [|k]; simpl in Hk, Hj.
      * injection Hk as <-. rewrite orb_false_r, Nat.add_0_r in Hj.
        left. right. rewrite Nat.add_0_r. auto.
      * right. exists k, c. rewrite Hseen, <- orb_assoc.
        repeat split; [exact Hk | lia |].
        replace (S i + k) with (i + S k) by lia. exact Hj.
Qed.

Lemma fill_row_course R C num_cols i cells st :
  rectangular R C (st_table st) -> i < R ->
  list_sum (map num_spanning_cols cells) <= C ->
  match fill_row num_cols i cells st with
  | RowDone st' =>
      rectangular R C (st_table st')
      /\ (is_incomplete_row num_cols (st_seen_cites st) cells = false ->
          forall cell, In cell cells -> 1 <= num_spanning_cols cell ->
                       span_in_range R i (cell_text cell))
  | RowEmptyResult _ _ => True
  | RowEscapes _ => False
  end.
Proof.
  intros Hg Hi Hsum. rewrite fill_row_unfold. cbv zeta.
  destruct (is_incomplete_row num_cols (st_seen_cites st) cells).
  - simpl. split; [exact Hg | discriminate].
  - pose proof (write_cells_course R C
                  (st_header_rows st ++ new_header_rows num_cols (st_seen_cites st) i cells)
                  i Hi cells 0 (st_table st) Hg Hsum) as Hw.
    destruct (write_cells _ i 0 cells (st_table st)); simpl; auto.
    destruct Hw as [Hg' Hs]. split; [exact Hg' | intros _; exact Hs].
Qed.

Lemma fill_rows_course R C num_cols rows :
  forall i st,
    rectangular R C (st_table st) -> i + List.length rows = R ->
    (forall cells, In cells rows -> list_sum (map num_spanning_cols cells) <= C) ->
    match fill_rows num_cols i rows st with
    | RowDone st' =>
        rectangular R C (st_table st')
        /\ forall k cells cell,
             nth_error rows k = Some cells ->
             is_incomplete_row num_cols
               (st_seen_cites st || existsb row_has_cites (firstn k rows)) cells = false ->
             In cell cells -> 1 <= num_spanning_cols cell ->
             span_in_range R (i + k) (cell_text cell)
    | RowEmptyResult _ _ => True
    | RowEscapes _ => False
    end.
Proof.
  induction rows as [|cells rest IH]; simpl; intros i st Hg Hlen Hsum.
  - split; [exact Hg|]. intros k c cell Hk. destruct k; discriminate.
  - assert (Hi : i < R) by lia.
    pose proof (fill_row_course R C num_cols i cells st Hg Hi
                  (Hsum cells (or_introl eq_refl))) as Hrow.
    destruct (fill_row num_cols i cells st) as [st1| |] eqn:E; auto.
    destruct Hrow as [Hg1 Hspan].
    destruct (fill_row_done _ _ _ _ _ E) as (Hseen & _).
    assert (Hlen' : S i + List.length rest = R) by lia.
    specialize (IH (S i) st1 Hg1 Hlen' (fun c Hc => Hsum c (or_intror Hc))).
    destruct (fill_rows num_cols (S i) rest st1) as [st'| |]; auto.
    destruct IH as [Hg' Hrest]. split; [exact Hg'|].
    intros k c cell Hk Hinc Hin Hsp. destruct k as [|k]; simpl in Hk, Hinc.
    + injection Hk as <-. rewrite orb_false_r in Hinc. rewrite Nat.add_0_r. auto.
    + replace (i + S k) with (S i + k) by lia.
      apply (Hrest k c cell Hk); auto.
      rewrite Hseen, <- orb_assoc. exact Hinc.
Qed.

Lemma fold_left_max_ge (l : list nat) :
  forall x, x <= fold_left Nat.max l x
            /\ forall y, In y l -> y <= fold_left Nat.max l x.
Proof.
  induction l as [|z r IH]; simpl; intros x.
  - split; [lia | intros y []].
  - destruct (IH (Nat.max x z)) as [H1 H2]. split; [lia|].
    intros y [<- | Hy]; [lia | auto].
Qed.

Lemma py_max_ge (l : list nat) (m : nat) :
  py_max l = Ok m -> forall y, In y l -> y <= m.
Proof.
  destruct l as [|x r]; simpl; [discriminate|].
  intros H. injection H as <-. destruct (fold_left_max_ge r x) as [H1 H2].
  intros y [<- | Hy]; auto.
Qed.

Lemma get_num_cols_spans table_soup num_cols :
  get_num_cols table_soup = Ok num_cols ->
  forall cells, In cells table_soup -> list_sum (map num_spanning_cols cells) <= num_cols.
Proof.
  unfold get_num_cols. intros H cells Hin.
  apply (py_max_ge _ _ H). apply in_or_app. right.
  apply in_map_iff. exists cells. auto.
Qed.

(** The filling loop of a table never lets an exception escape, and when it
    completes every row span of a written row stays in the table. *)
Lemma fill_table_course table_soup num_cols :
  get_num_cols table_soup = Ok num_cols ->
  match fill_rows num_cols 0 table_soup
          (initial_state (List.length table_soup) num_cols) with
  | RowDone st' =>
      forall k cells cell,
        nth_error table_soup k = Some cells ->
        is_incomplete_row num_cols (existsb row_has_cites (firstn k table_soup)) cells
        = false ->
        In cell cells -> 1 <= num_spanning_cols cell ->
        span_in_range (List.length table_soup) k (cell_text cell)
  | RowEmptyResult _ _ => True
  | RowEscapes _ => False
  end.
Proof.
  intros Hn.
  pose proof (fill_rows_course (List.length table_soup) num_cols num_cols table_soup 0
                (initial_state (List.length table_soup) num_cols)
                (rectangular_initial _ _) eq_refl (get_num_cols_spans _ _ Hn)) as H.
  destruct (fill_rows num_cols 0 table_soup _); auto.
  destruct H as [_ H]. exact H.
Qed.

(** ** Classification of the rows *)

Lemma incomplete_from_In num_cols rows :
  forall seen i0 i texts,
    In (i, texts) (incomplete_from num_cols seen i0 rows)
    <-> exists k cells,
          i = i0 + k /\ nth_error rows k = Some cells /\ texts = map cell_text cells
          /\ is_incomplete_row num_cols (seen || existsb row_has_cites (firstn k rows))
               cells = true.
Proof.
  induction rows as [|cells rest IH]; simpl; intros seen i0 i texts.
  - split; [intros [] | intros (k & c & _ & Hk & _); destruct k; discriminate].
  - rewrite in_app_iff, IH. split.
    + intros [H | (k & c & -> & Hk & -> & Hinc)].
      * destruct (is_incomplete_row num_cols seen cells) eqn:E; [|destruct H].
        destruct H as [H | []]. injection H as <- <-.
        exists 0, cells. simpl. rewrite Nat.add_0_r, orb_false_r. auto.
      * exists (S k), c. simpl. rewrite <- orb_assoc in Hinc.
        repeat split; [lia | exact Hk | exact Hinc].
    + intros (k & c & -> & Hk & -> & Hinc). destruct k as [|k]; simpl in Hk, Hinc.
      * injection Hk as <-. rewrite orb_false_r in Hinc. rewrite Hinc.
        left. left. rewrite Nat.add_0_r. reflexivity.
      * right. exists k, c. rewrite <- orb_assoc.
        repeat split; [lia | exact Hk | exact Hinc].
Qed.

(** C2, as stated, fails: the first row of [figure_header_soup] has one cell
    in a table of two columns and holds a figure; no citation has been seen,
    so the row is a header row through the rule on short rows, it is not
    appended to [incomplete_rows] and its text is written into the grid. *)
Lemma short_figure_header_is_written :
  existsb has_figure [plain "{{figure:1}}"] = true
  /\ get_num_cols figure_header_soup = Ok 2
  /\ exists st,
       fill_table figure_header_soup = Ok (RowDone st)
       /\ In 0 (st_header_rows st)
       /\ st_incomplete_rows st
          = [(2, ["{{cite:abcdef1}}"; "{{figure:2}}"]); (3, ["d"])]
       /\ nth_error (st_table st) 0 = Some ["{{figure:1}}"; EmptyString].
Proof.
  split; [reflexivity|]. split; [reflexivity|].
  exists figure_header_state. split; [vm_compute; reflexivity|].
  split; [left; reflexivity|]. split; reflexivity.
Qed.

(** C2, amended: when the filling loop of [soup_to_json] completes, row [i]
    is a header row if and only if it has no citation cell, [i <= 1] and no
    earlier row has a citation, or it has fewer cells than there are columns
    and no citation has been seen, this row included; a row is appended to
    [incomplete_rows], as its index and the texts of its cells, if and only
    if it is not a header row by the rule on short rows and it has fewer
    cells than there are columns or a cell that holds a figure placeholder;
    such a row leaves the grid as it is and the loop goes on. *)
Theorem row_classification table_soup num_cols st :
  get_num_cols table_soup = Ok num_cols ->
  fill_table table_soup = Ok (RowDone st) ->
  (forall i cells,
      nth_error table_soup i = Some cells ->
      (In i (st_header_rows st)
       <-> is_header_row num_cols (existsb row_has_cites (firstn i table_soup)) i cells
           = true))
  /\ st_incomplete_rows st = incomplete_from num_cols false 0 table_soup
  /\ (forall i texts,
        In (i, texts) (st_incomplete_rows st)
        <-> exists cells,
              nth_error table_soup i = Some cells /\ texts = map cell_text cells
              /\ is_incomplete_row num_cols (existsb row_has_cites (firstn i table_soup))
                   cells = true)
  /\ (forall i cells st0,
        is_incomplete_row num_cols (st_seen_cites st0) cells = true ->
        exists st1,
          fill_row num_cols i cells st0 = RowDone st1
          /\ st_table st1 = st_table st0
          /\ st_incomplete_rows st1
             = st_incomplete_rows st0 ++ [(i, map cell_text cells)]).
Proof.
  intros Hn Hfill. unfold fill_table in Hfill. rewrite Hn in Hfill. simpl in Hfill.
  apply Ok_inj in Hfill.
  destruct (fill_rows_classification _ _ _ _ _ Hfill) as (_ & Hinc & Hhdr).
  simpl in Hinc, Hhdr.
  split; [|split; [|split]].
  - intros i cells Hi. rewrite Hhdr. split.
    + intros [[] | (k & c & Hk & -> & Hh)]. simpl in Hh.
      rewrite Hi in Hk. injection Hk as <-. exact Hh.
    + intros Hh. right. exists i, cells. auto.
  - exact Hinc.
  - intros i texts. rewrite Hinc, incomplete_from_In. simpl. split.
    + intros (k & c & -> & Hk & -> & Hi). exists c. auto.
    + intros (c & Hk & -> & Hi). exists i, c. auto.
  - intros i cells st0 Hi. rewrite fill_row_unfold. cbv zeta. rewrite Hi.
    eexists. split; [reflexivity|]. simpl. auto.
Qed.

Lemma row_classification_witness :
  (forall i cells,
      nth_error figure_header_soup i = Some cells ->
      (In i [0; 0]
       <-> is_header_row 2 (existsb row_has_cites (firstn i figure_header_soup)) i cells
           = true))
  /\ [(2, ["{{cite:abcdef1}}"; "{{figure:2}}"]); (3, ["d"])]
     = incomplete_from 2 false 0 figure_header_soup.
Proof.
  assert (H0 : get_num_cols figure_header_soup = Ok 2) by reflexivity.
  assert (H1 : fill_table figure_header_soup = Ok (RowDone figure_header_state))
    by (vm_compute; reflexivity).
  destruct (row_classification figure_header_soup 2 figure_header_state H0 H1)
    as (Hh & Hi & _).
  split; [exact Hh | exact Hi].
Defined.

(** ** The row-span marker *)

Lemma multirow_search_unfold s :
  multirow_search s
  = match multirow_at s with
    | Some m => Some m
    | None =>
        match s with
        | EmptyString => None
        | String _ r => multirow_search r
        end
    end.
Proof. destruct s; reflexivity. Qed.

Lemma multirow_search_leading d c r :
  is_digit d = true -> c <> newline ->
  multirow_search (String d (String "*" (String c r)))
  = Some (digit_value d, String c (line_prefix r)).
Proof.
  intros Hd Hc.
  assert (Hm : multirow_at (String d (String "*" (String c r)))
               = Some (digit_value d, String c (line_prefix r))).
  { unfold multirow_at. rewrite Hd.
    destruct (Ascii.eqb_spec c newline) as [-> | _]; [congruence | reflexivity]. }
  rewrite multirow_search_unfold, Hm. reflexivity.
Qed.

Lemma write_cell_propagates R C header_rows row_i col text count rest g v :
  rectangular R C g -> row_i < R -> col < C ->
  multirow_search text = Some (count, rest) ->
  row_i + (count - 1) < R ->
  grid_get g row_i col = Some v ->
  exists g',
    write_cell header_rows row_i col text g = Go g'
    /\ (forall k w, 1 <= k < count -> grid_get g (row_i + k) col = Some w ->
          grid_get g' (row_i + k) col = Some (w +++ strip rest))
    /\ grid_get g' row_i col
       = Some (if truthy v then v
               else written_text (existsb (Nat.eqb row_i) header_rows) rest)
    /\ (forall r c, ~ (c = col /\ row_i <= r < row_i + Nat.max 1 count) ->
          grid_get g' r c = grid_get g r c).
Proof.
  intros Hg Hrow Hcol Hm Hrange Hv.
  rewrite write_cell_unfold, Hm.
  destruct (propagate_in_range R C row_i col (strip rest) Hcol (seq 1 (count - 1)) g Hg
              (seq_NoDup _ _))
    as (g1 & Hp & Hg1 & Htargets & Hothers).
  { intros off Hoff. apply in_seq in Hoff. lia. }
  rewrite Hp.
  assert (Hv1 : grid_get g1 row_i col = Some v).
  { rewrite Hothers; [exact Hv|]. intros [_ (off & Hoff & He)].
    apply in_seq in Hoff. lia. }
  assert (Hsome : grid_get g1 row_i col <> None) by congruence.
  rewrite (finish_cell_spec _ _ _ _ _ _ Hv1).
  eexists. split; [reflexivity|]. split; [|split].
  - intros k w Hk Hw.
    assert (Hk1 : grid_get g1 (row_i + k) col = Some (w +++ strip rest)).
    { apply Htargets; [apply in_seq; lia | exact Hw]. }
    destruct (truthy v); [exact Hk1|].
    rewrite grid_get_set by exact Hsome.
    destruct (Nat.eqb_spec row_i (row_i + k)) as [He|_]; [lia|]. exact Hk1.
  - destruct (truthy v); [exact Hv1|].
    rewrite grid_get_set by exact Hsome. rewrite !Nat.eqb_refl. reflexivity.
  - intros r c Hnot.
    assert (Hrc : grid_get g1 r c = grid_get g r c).
    { apply Hothers. intros [Hc (off & Hoff & ->)]. apply in_seq in Hoff.
      apply Hnot. split; [exact Hc | lia]. }
    destruct (truthy v); [exact Hrc|].
    rewrite grid_get_set by exact Hsome.
    destruct (Nat.eqb_spec row_i r) as [<-|_]; simpl; [|exact Hrc].
    destruct (Nat.eqb_spec col c) as [<-|_]; [|exact Hrc].
    exfalso. apply Hnot. split; [reflexivity | lia].
Qed.

Lemma row_span_out_of_range table_soup num_cols i cells cell count rest :
  get_num_cols table_soup = Ok num_cols ->
  nth_error table_soup i = Some cells -> In cell cells ->
  1 <= num_spanning_cols cell ->
  is_incomplete_row num_cols (existsb row_has_cites (firstn i table_soup)) cells = false ->
  multirow_search (cell_text cell) = Some (count, rest) ->
  List.length table_soup <= i + (count - 1) ->
  exists g inc,
    soup_to_json table_soup
    = Ok {| table := g; incomplete_rows := inc;
            old_citation_column := None; table_dict := [] |}.
Proof.
  intros Hn Hi Hin Hspan Hinc Hm Hout.
  pose proof (fill_table_course table_soup num_cols Hn) as Hc.
  unfold soup_to_json, fill_table. rewrite Hn. simpl.
  destruct (fill_rows num_cols 0 table_soup _) as [st| g inc | e].
  - specialize (Hc i cells cell Hi Hinc Hin Hspan count rest Hm). lia.
  - exists g, inc. reflexivity.
  - contradiction.
Qed.

(** * Further properties of the code *)

(** ** The predicates on citations *)

(** The first column, read without bound check, fails on a row without
    cell. *)
Lemma first_col_citations_raises (trs : list Row) :
  (exists row, In row trs /\ row = []) <-> first_col_citations trs = Raise IndexError.
Proof.
  induction trs as [|row rest IH]; simpl.
  - split; [intros (r & [] & _) | discriminate].
  - destruct row as [|cell cells].
    + split; [reflexivity | intros _; exists []; auto].
    + split.
      * intros (r & [Hr | Hr] & He); [subst; discriminate|].
        assert (H : first_col_citations rest = Raise IndexError) by (apply IH; eauto).
        rewrite H. reflexivity.
      * intros H. destruct (first_col_citations rest) as [l|e] eqn:E; [discriminate|].
        simpl in H. injection H as ->.
        destruct (proj2 IH eq_refl) as (r & Hr & He). exists r. auto.
Qed.

Lemma first_col_citations_exn (trs : list Row) (e : exn) :
  first_col_citations trs = Raise e -> e = IndexError.
Proof.
  induction trs as [|row rest IH]; simpl; [discriminate|].
  destruct row as [|cell cells]; [intros H; injection H; auto|].
  destruct (first_col_citations rest); simpl; [discriminate|].
  intros H. injection H as <-. apply IH. reflexivity.
Qed.

(** X2: [has_cites_in_first_row_or_col] raises, and then [IndexError],
    exactly when its first row that is not empty has fewer than two
    citations (or there is none) and some row has no cell; the scan of
    [has_cites_in_rows_or_cols] skips such rows and always answers. *)
Theorem has_cites_in_first_row_or_col_raises (table_soup : Soup) :
  (is_ok (has_cites_in_first_row_or_col table_soup) = false
   <-> first_row_has_cites table_soup = false
       /\ exists row, In row table_soup /\ row = [])
  /\ forall e, has_cites_in_first_row_or_col table_soup = Raise e -> e = IndexError.
Proof.
  unfold has_cites_in_first_row_or_col. split.
  - destruct (first_row_has_cites table_soup); simpl.
    + split; [discriminate | intros [H _]; discriminate].
    + rewrite first_col_citations_raises.
      destruct (first_col_citations table_soup) as [l|e] eqn:E; simpl.
      * split; [discriminate | intros [_ H]; discriminate].
      * split; [|reflexivity]. intros _. split; [reflexivity|].
        f_equal. apply (first_col_citations_exn _ _ E).
  - intros e. destruct (first_row_has_cites table_soup); [discriminate|].
    destruct (first_col_citations table_soup) as [l|e'] eqn:E; simpl; [discriminate|].
    intros H. injection H as <-. apply (first_col_citations_exn _ _ E).
Qed.

Lemma has_cites_in_first_row_or_col_raises_witness :
  is_ok (has_cites_in_first_row_or_col empty_row_soup) = false.
Proof.
  apply (proj1 (has_cites_in_first_row_or_col_raises empty_row_soup)).
  split; [reflexivity|]. exists []. split; [right; left; reflexivity | reflexivity].
Defined.

Lemma first_row_scan (trs : list Row) :
  forall m, first_row_has_cites trs = true -> fst (scan_rows trs m) = true.
Proof.
  induction trs as [|cells rest IH]; intros m H; [discriminate|].
  cbn [first_row_has_cites] in H. cbn [scan_rows].
  destruct (all_empty cells); [apply IH; exact H|].
  rewrite H. reflexivity.
Qed.

Lemma scan_rows_max (trs : list Row) :
  forall m, fst (scan_rows trs m) = false ->
            m <= snd (scan_rows trs m)
            /\ forall row, In row trs -> all_empty row = false ->
                           List.length row <= snd (scan_rows trs m).
Proof.
  induction trs as [|cells rest IH]; intros m H.
  - simpl. split; [lia | intros row []].
  - cbn [scan_rows] in *. destruct (all_empty cells) eqn:Ea.
    + destruct (IH _ H) as [Hm Hrows]. split; [exact Hm|].
      intros row [<- | Hin] He; [congruence | auto].
    + destruct (2 <=? row_cits cells); [discriminate|].
      destruct (IH _ H) as [Hm Hrows]. split; [lia|].
      intros row [<- | Hin] He; [lia | auto].
Qed.

Lemma first_col_citations_col (trs : list Row) (l : list bool) :
  first_col_citations trs = Ok l -> col_citations trs 0 = l.
Proof.
  unfold col_citations. revert l.
  induction trs as [|row rest IH]; simpl; intros l H.
  - injection H as <-. reflexivity.
  - destruct row as [|cell cells]; [discriminate|].
    destruct (first_col_citations rest) as [l'|]; simpl in H; [|discriminate].
    injection H as <-. simpl. f_equal. apply IH. reflexivity.
Qed.

Lemma first_col_found (trs : list Row) (l : list bool) :
  first_col_citations trs = Ok l -> 1 <= count_found l ->
  exists cell cells, In (cell :: cells) trs /\ cell_has_cit cell = true.
Proof.
  unfold count_found. revert l.
  induction trs as [|row rest IH]; simpl; intros l H Hc.
  - injection H as <-. simpl in Hc. lia.
  - destruct row as [|cell cells]; [discriminate|].
    destruct (first_col_citations rest) as [l'|]; simpl in H; [|discriminate].
    injection H as <-. simpl in Hc. destruct (cell_has_cit cell) eqn:E.
    + exists cell, cells. auto.
    + destruct (IH l' eq_refl Hc) as (c & cs & Hin & Hh). exists c, cs. auto.
Qed.

(** X3: the stricter check implies the weaker one: when every cell that
    holds a citation has a text that is not blank, a table that passes
    [has_cites_in_first_row_or_col] passes [has_cites_in_rows_or_cols]. *)
Theorem has_cites_in_first_row_or_col_stricter (table_soup : Soup) :
  (forall row cell, In row table_soup -> In cell row -> cell_has_cit cell = true ->
                    truthy (strip (cell_text cell)) = true) ->
  has_cites_in_first_row_or_col table_soup = Ok true ->
  has_cites_in_rows_or_cols table_soup = true.
Proof.
  intros Htext. unfold has_cites_in_first_row_or_col, has_cites_in_rows_or_cols.
  destruct (first_row_has_cites table_soup) eqn:Ef.
  - intros _. rewrite (first_row_scan _ 0 Ef). reflexivity.
  - destruct (first_col_citations table_soup) as [l|] eqn:El; cbn [bind]; [|discriminate].
    intros H. apply Ok_inj in H. apply Nat.leb_le in H.
    destruct (fst (scan_rows table_soup 0)) eqn:Es; [reflexivity|].
    destruct (first_col_found _ _ El) as (cell & cells & Hin & Hc); [lia|].
    destruct (scan_rows_max _ 0 Es) as [_ Hmax].
    assert (Hne : all_empty (cell :: cells) = false).
    { simpl. rewrite (Htext _ cell Hin (or_introl eq_refl) Hc). reflexivity. }
    specialize (Hmax _ Hin Hne). simpl in Hmax.
    assert (Hpos : (0 <? snd (scan_rows table_soup 0)) = true) by (apply Nat.ltb_lt; lia).
    rewrite Hpos. cbn [negb andb]. apply existsb_exists. exists 0. split.
    + apply in_seq. lia.
    + cbv beta. rewrite (first_col_citations_col _ _ El). apply Nat.leb_le. exact H.
Qed.

Lemma has_cites_in_first_row_or_col_stricter_witness :
  has_cites_in_rows_or_cols mapped_soup = true.
Proof.
  apply (has_cites_in_first_row_or_col_stricter mapped_soup).
  - intros row cell Hr Hc Hcit.
    repeat (destruct Hr as [<- | Hr]; [repeat (destruct Hc as [<- | Hc];
              [first [reflexivity | discriminate Hcit] |]); destruct Hc |]).
    destruct Hr.
  - reflexivity.
Defined.

(** ** The collapse of the header rows *)

Lemma merge_rows_0_1_rect (R C : nat) (table : grid) :
  rectangular (S (S R)) C table ->
  exists table', merge_rows_0_1 table = Ok table' /\ rectangular (S R) C table'
                 /\ skipn 2 table = skipn 1 table'.
Proof.
  intros [Hlen Hall]. destruct table as [|row_i [|row_j rest]]; try discriminate.
  simpl. eexists. split; [reflexivity|]. split; [|reflexivity].
  inversion Hall as [|? ? Hi Hall']; subst. inversion Hall' as [|? ? Hj Hrest]; subst.
  split.
  - simpl in *. lia.
  - constructor; [|exact Hrest].
    rewrite length_map, length_combine. lia.
Qed.

Lemma merge_header_rect (n : nat) :
  forall R C table,
    rectangular (n + S R) C table ->
    exists table', merge_header n table = Ok table' /\ rectangular (S R) C table'
                   /\ skipn (S n) table = skipn 1 table'.
Proof.
  induction n as [|n IH]; intros R C table Hrect.
  - exists table. auto.
  - replace (S n + S R) with (S (S (n + R))) in Hrect by lia.
    destruct (merge_rows_0_1_rect _ _ _ Hrect) as (t1 & Hm & Hr1 & Hs1).
    cbn [merge_header]. rewrite Hm. cbn [bind].
    replace (S (n + R)) with (n + S R) in Hr1 by lia.
    destruct (IH _ _ _ Hr1) as (t2 & Hm2 & Hr2 & Hs2).
    exists t2. split; [exact Hm2|]. split; [exact Hr2|].
    rewrite <- Hs2.
    replace (S (S n)) with (n + 2) by lia. rewrite <- skipn_skipn, Hs1, skipn_skipn.
    f_equal. lia.
Qed.

Lemma merge_rows_0_1_cases (table : grid) :
  match merge_rows_0_1 table with
  | Ok t => S (List.length t) = List.length table /\ 1 <= List.length t
  | Raise e => e = IndexError /\ List.length table < 2
  end.
Proof.
  destruct table as [|a [|b rest]]; simpl; auto. split; [reflexivity | lia].
Qed.

Lemma merge_header_S (n : nat) (table : grid) :
  merge_header (S n) table = (t <- merge_rows_0_1 table ;; merge_header n t).
Proof. reflexivity. Qed.

Lemma merge_header_short (n : nat) :
  forall table, List.length table <= S n -> merge_header (S n) table = Raise IndexError.
Proof.
  induction n as [|n IH]; intros table Hlen; rewrite merge_header_S;
    pose proof (merge_rows_0_1_cases table) as Hc;
    destruct (merge_rows_0_1 table) as [t|e]; cbn [bind].
  - lia.
  - destruct Hc as [-> _]. reflexivity.
  - apply IH. lia.
  - destruct Hc as [-> _]. reflexivity.
Qed.

(** X4: collapsing the header of a rectangular table by [n] merges succeeds
    when the table has more than [n] rows: the result has [n] rows fewer,
    all of the same width, and the rows below the merged ones are
    unchanged; with at most [n] rows (and [n > 0]) [merge_rows] raises
    [IndexError]. *)
Theorem merge_header_rows (n R C : nat) (table : grid) :
  rectangular R C table ->
  (n < R ->
   exists table',
     merge_header n table = Ok table'
     /\ rectangular (R - n) C table'
     /\ skipn (S n) table = skipn 1 table')
  /\ (0 < n -> R <= n -> merge_header n table = Raise IndexError).
Proof.
  intros Hrect. split.
  - intros Hn. replace R with (n + S (R - n - 1)) in Hrect by lia.
    destruct (merge_header_rect _ _ _ _ Hrect) as (t' & Hm & Hr & Hs).
    exists t'. split; [exact Hm|]. split; [|exact Hs].
    replace (R - n) with (S (R - n - 1)) by lia. exact Hr.
  - intros Hpos Hle. destruct n as [|n]; [lia|].
    apply merge_header_short. destruct Hrect as [Hl _]. lia.
Qed.

Lemma merge_header_rows_witness :
  exists table',
    merge_header 1 [["a"; "b"]; ["c"; EmptyString]; ["d"; "e"]] = Ok table'
    /\ rectangular 2 2 table'
    /\ skipn 2 [["a"; "b"]; ["c"; EmptyString]; ["d"; "e"]] = skipn 1 table'.
Proof.
  assert (Hrect : rectangular 3 2 [["a"; "b"]; ["c"; EmptyString]; ["d"; "e"]]).
  { split; [reflexivity | repeat constructor]. }
  apply (proj1 (merge_header_rows 1 3 2 _ Hrect)). lia.
Defined.

(** ** The number of columns *)

Lemma fold_left_max_In (l : list nat) :
  forall x, fold_left Nat.max l x = x \/ In (fold_left Nat.max l x) l.
Proof.
  induction l as [|y r IH]; simpl; intros x; [auto|].
  destruct (IH (Nat.max x y)) as [H | H]; [|auto].
  rewrite H. destruct (Nat.max_spec x y) as [[_ ->] | [_ ->]]; auto.
Qed.

Lemma py_max_In (l : list nat) (m : nat) : py_max l = Ok m -> In m l.
Proof.
  destruct l as [|x r]; simpl; [discriminate|].
  intros H. injection H as <-. destruct (fold_left_max_In r x) as [-> | H]; auto.
Qed.

Lemma py_max_Ok (l : list nat) : l <> [] -> exists m, py_max l = Ok m.
Proof. destruct l; [congruence | simpl; eauto]. Qed.



(** ** Frames keep their shape *)

Lemma extract_references_length (values : list string) :
  forall n,
    List.length (fst (extract_references values n)) = List.length values
    /\ List.length (snd (extract_references values n)) = List.length values.
Proof.
  induction values as [|v rest IH]; simpl; intros n; [auto|].
  destruct (cite_search v); simpl.
  - destruct (IH n) as [H1 H2]. rewrite H1, H2. auto.
  - destruct (IH (S n)) as [H1 H2]. rewrite H1, H2. auto.
Qed.

Lemma frame_rect_rename (n : nat) (old new : string) (df : dataframe) :
  frame_rect n df -> frame_rect n (rename_columns old new df).
Proof.
  unfold frame_rect, rename_columns. intros H. apply Forall_map.
  apply (Forall_impl _ (P := fun col => List.length (snd col) = n)); [|exact H].
  intros [c v] Hc. simpl in *. destruct (String.eqb c old); exact Hc.
Qed.

Lemma frame_rect_set_column (n : nat) (name : string) (values : list string)
    (df : dataframe) :
  frame_rect n df -> List.length values = n -> frame_rect n (set_column name values df).
Proof.
  unfold frame_rect, set_column. intros H Hv. destruct (mem name (columns df)).
  - apply Forall_map.
    apply (Forall_impl _ (P := fun col => List.length (snd col) = n)); [|exact H].
    intros [c v] Hc. simpl in *. destruct (String.eqb c name); simpl; assumption.
  - apply Forall_app. split; [exact H|]. constructor; [exact Hv | constructor].
Qed.

Lemma select_columns_In (labels : list string) (df : dataframe) (col : string * list string) :
  In col (select_columns labels df) -> In col df.
Proof.
  unfold select_columns. intros H. apply in_flat_map in H.
  destruct H as (l & _ & H). apply filter_In in H. apply H.
Qed.

Lemma frame_rect_select (n : nat) (labels : list string) (df : dataframe) :
  frame_rect n df -> frame_rect n (select_columns labels df).
Proof.
  unfold frame_rect. rewrite !Forall_forall. intros H col Hin.
  apply H. apply (select_columns_In _ _ _ Hin).
Qed.

(** [split_references_column] on a frame with a column: it returns a frame
    of the same height whose first column is "References", or raises
    [ValueError]. *)
Lemma split_references_column_rect (n : nat) (first : string * list string)
    (others : dataframe) :
  frame_rect n (first :: others) ->
  match split_references_column (first :: others) with
  | Ok (df, _) => frame_rect n df /\ exists values rest, df = ("References", values) :: rest
  | Raise e => e = ValueError
  end.
Proof.
  intros Hrect.
  pose proof (source_In first others) as Hsrc. cbv zeta in Hsrc.
  set (source := select_column (first :: others) (-1)%Z first) in *.
  assert (Hlen : List.length (snd source) = n).
  { unfold frame_rect in Hrect. rewrite Forall_forall in Hrect. apply Hrect. exact Hsrc. }
  destruct (extract_references_length (snd source) 0) as [Hrefs Hrems].
  destruct (existsb (fun val => negb (String.eqb val "-"))
              (snd (extract_references (snd source) 0))) eqn:E.
  - destruct (String.eqb_spec (fst source) "References") as [En | En].
    + rewrite (split_source_named_References first others E En).
      fold source. split; [|eauto].
      constructor; [cbn [snd]; congruence|].
      apply frame_rect_set_column; [|congruence].
      apply frame_rect_rename. exact Hrect.
    + destruct (mem "References" (columns (first :: others))) eqn:Em.
      * rewrite (split_collision_raises first others E En Em). reflexivity.
      * rewrite (split_inserts_References first others E En Em).
        fold source. split; [|eauto].
        constructor; [cbn [snd]; congruence|].
        apply frame_rect_set_column; [exact Hrect | congruence].
  - rewrite (split_all_dashes first others E). split.
    + unfold reordered. apply frame_rect_select. apply frame_rect_rename. exact Hrect.
    + apply reordered_head.
Qed.

Lemma frame_rect_map_values (n : nat) (f : string -> string) (df : dataframe) :
  frame_rect n df -> frame_rect n (map (fun col => (fst col, map f (snd col))) df).
Proof.
  unfold frame_rect. intros H. apply Forall_map.
  apply (Forall_impl _ (P := fun col => List.length (snd col) = n)); [|exact H].
  intros [c v] Hc. simpl in *. rewrite length_map. exact Hc.
Qed.

Lemma frame_rect_map_labels (n : nat) (f : string -> string) (df : dataframe) :
  frame_rect n df -> frame_rect n (map (fun col => (f (fst col), snd col)) df).
Proof.
  unfold frame_rect. intros H. apply Forall_map.
  apply (Forall_impl _ (P := fun col => List.length (snd col) = n)); [|exact H].
  intros [c v] Hc. exact Hc.
Qed.

(** The transposition of a frame with a column raises [ValueError] or
    returns a frame with a column, all of whose columns have one height. *)
Lemma transpose_frame_rect (n : nat) (first : string * list string) (others : dataframe) :
  frame_rect n (first :: others) ->
  match transpose_frame (first :: others) with
  | Ok df => df <> [] /\ exists m, frame_rect m df
  | Raise e => e = ValueError
  end.
Proof.
  intros Hrect. unfold transpose_frame. destruct first as [c0 v0].
  destruct (mem c0 (columns others)); [reflexivity|].
  destruct (mem c0 v0).
  - split; [discriminate | eauto].
  - split; [discriminate|]. exists (List.length others).
    constructor.
    + simpl. unfold columns. apply length_map.
    + apply Forall_map. apply Forall_forall. intros i _. simpl. apply length_map.
Qed.

(** [postprocess_table_df] on a frame with a column. *)
Lemma postprocess_table_df_rect (n : nat) (first : string * list string)
    (others : dataframe) :
  frame_rect n (first :: others) ->
  match postprocess_table_df (first :: others) with
  | Ok (df, _) =>
      (exists m, frame_rect m df) /\ exists values rest, df = ("References", values) :: rest
  | Raise e => e = ValueError
  end.
Proof.
  intros Hrect. unfold postprocess_table_df.
  assert (Hstep : forall df m, df <> [] -> frame_rect m df ->
            match split_references_column
                    (map (fun col => (process_cell (fst col), snd col))
                       (map (fun col => (fst col, map process_cell (snd col))) df)) with
            | Ok (df', _) =>
                (exists m, frame_rect m df')
                /\ exists values rest, df' = ("References", values) :: rest
            | Raise e => e = ValueError
            end).
  { intros df m Hne Hm.
    pose proof (frame_rect_map_labels m process_cell _
                  (frame_rect_map_values m process_cell _ Hm)) as Hm'.
    destruct df as [|col rest]; [congruence|]. simpl map in *.
    pose proof (split_references_column_rect m _ _ Hm') as Hs.
    destruct (split_references_column _) as [[df' old]|e]; [|exact Hs].
    destruct Hs as [Hr Hh]. split; [eauto | exact Hh]. }
  destruct (0 <? count "{{cite:" (join " " (columns (first :: others)))).
  - pose proof (transpose_frame_rect n first others Hrect) as Ht.
    destruct (transpose_frame (first :: others)) as [df|e]; cbn [bind]; [|exact Ht].
    destruct Ht as [Hne [m Hm]]. apply (Hstep df m Hne Hm).
  - cbn [bind]. apply (Hstep (first :: others) n); [discriminate | exact Hrect].
Qed.

(** *** The dictionary of a frame *)

Lemma dict_set_head {V : Type} (d : dict V) (k0 : string) (v0 : V) (k : string) (v : V) :
  exists v', dict_set ((k0, v0) :: d) k v = (k0, v') :: tl (dict_set ((k0, v0) :: d) k v).
Proof. simpl. destruct (String.eqb k0 k); eexists; reflexivity. Qed.

Lemma to_dict_from_head (df : dataframe) :
  forall (k0 : string) (v0 : list string) (d : dict (list string)),
  exists v' d',
    fold_left (fun d col => dict_set d (fst col) (snd col)) df ((k0, v0) :: d)
    = (k0, v') :: d'.
Proof.
  induction df as [|col rest IH]; simpl; intros k0 v0 d; [eauto|].
  destruct (String.eqb k0 (fst col)); apply IH.
Qed.

Lemma keys_dict_set_NoDup {V : Type} (d : dict V) (k : string) (v : V) :
  NoDup (keys d) -> NoDup (keys (dict_set d k v)).
Proof.
  unfold keys. induction d as [|[k' v'] r IH]; simpl; intros H.
  - constructor; [intros [] | constructor].
  - inversion H as [|x l Hnotin Hnd]; subst.
    destruct (String.eqb_spec k' k) as [->|Hne]; simpl.
    + constructor; assumption.
    + constructor; [|apply IH; exact Hnd].
      intros Hin. fold (keys (dict_set r k v)) in Hin.
      apply keys_dict_set in Hin. destruct Hin as [-> | Hin]; [congruence|].
      apply Hnotin. exact Hin.
Qed.

Lemma to_dict_fold (df : dataframe) :
  forall (n : nat) (acc : dict (list string)),
    frame_rect n df -> frame_rect n acc -> NoDup (keys acc) ->
    frame_rect n (fold_left (fun d col => dict_set d (fst col) (snd col)) df acc)
    /\ NoDup (keys (fold_left (fun d col => dict_set d (fst col) (snd col)) df acc)).
Proof.
  induction df as [|[c v] rest IH]; simpl; intros n acc Hdf Hacc Hnd; [auto|].
  apply Forall_cons_iff in Hdf. destruct Hdf as [Hc Hrest]. apply IH; [exact Hrest | |].
  - unfold frame_rect in *. rewrite Forall_forall in *. intros [c' v'] Hin.
    apply dict_set_In in Hin. destruct Hin as [[-> ->] | Hin]; [exact Hc|].
    apply (Hacc _ Hin).
  - apply keys_dict_set_NoDup. exact Hnd.
Qed.

(** The dictionary of a frame whose first column is "References": its first
    key is "References", its keys are distinct and its values have the
    height of the frame. *)
Lemma to_dict_shape (n : nat) (values : list string) (rest : dataframe) :
  frame_rect n (("References", values) :: rest) ->
  exists refs d,
    to_dict (("References", values) :: rest) = ("References", refs) :: d
    /\ frame_rect n (to_dict (("References", values) :: rest))
    /\ NoDup (keys (to_dict (("References", values) :: rest))).
Proof.
  intros Hrect. unfold to_dict.
  destruct (to_dict_from_head rest "References" values []) as (refs & d & Hd).
  exists refs, d. split; [exact Hd|].
  apply (to_dict_fold _ n []); [exact Hrect | constructor | constructor].
Qed.

(** ** What [soup_to_json] returns *)

Lemma fill_table_done (table_soup : Soup) (num_cols : nat) :
  get_num_cols table_soup = Ok num_cols ->
  match fill_rows num_cols 0 table_soup
          (initial_state (List.length table_soup) num_cols) with
  | RowDone st =>
      rectangular (List.length table_soup) num_cols (st_table st)
      /\ forall j, In j (st_header_rows st) -> j < List.length table_soup
  | RowEmptyResult _ _ => True
  | RowEscapes _ => False
  end.
Proof.
  intros Hn.
  pose proof (fill_rows_course (List.length table_soup) num_cols num_cols table_soup 0
                (initial_state (List.length table_soup) num_cols)
                (rectangular_initial _ _) eq_refl (get_num_cols_spans _ _ Hn)) as Hc.
  destruct (fill_rows num_cols 0 table_soup _) as [st| |] eqn:E; auto.
  destruct Hc as [Hrect _]. split; [exact Hrect|].
  destruct (fill_rows_classification _ _ _ _ _ E) as (_ & _ & Hhdr).
  intros j Hj. apply Hhdr in Hj. destruct Hj as [[] | (k & cells & Hk & -> & _)].
  apply nth_error_Some. simpl. congruence.
Qed.

Lemma get_num_cols_exn (table_soup : Soup) (e : exn) :
  get_num_cols table_soup = Raise e -> e = ValueError.
Proof.
  unfold get_num_cols, py_max.
  destruct (_ ++ _); [intros H; injection H; auto | discriminate].
Qed.

Lemma DataFrame_rect (C : nat) (data : grid) (cols : list string) :
  Forall (fun line : list string => List.length line = C) data ->
  List.length cols = C ->
  exists df, DataFrame data cols = Ok df
             /\ frame_rect (List.length data) df /\ List.length df = C.
Proof.
  intros Hdata Hcols. unfold DataFrame.
  assert (Hall : forallb (fun r : list string => List.length r =? List.length cols) data
                 = true).
  { apply forallb_forall. intros r Hr. rewrite Forall_forall in Hdata.
    apply Nat.eqb_eq. rewrite (Hdata r Hr). auto. }
  rewrite Hall. eexists. split; [reflexivity|]. split.
  - apply Forall_map. apply Forall_forall. intros j _. simpl. apply length_map.
  - rewrite length_map, length_seq. exact Hcols.
Qed.

(** The results of [soup_to_json]. *)
Lemma soup_to_json_cases (table_soup : Soup) :
  match soup_to_json table_soup with
  | Ok tj =>
      table_dict tj = []
      \/ exists refs d n,
           table_dict tj = ("References", refs) :: d
           /\ frame_rect n (table_dict tj)
           /\ NoDup (keys (table_dict tj))
           /\ exists old, old_citation_column tj = Some old
  | Raise e => e = ValueError
  end.
Proof.
  unfold soup_to_json, fill_table.
  destruct (get_num_cols table_soup) as [num_cols|e] eqn:En; cbn [bind];
    [|apply (get_num_cols_exn _ _ En)].
  pose proof (fill_table_done _ _ En) as Hfill.
  destruct (fill_rows num_cols 0 table_soup _) as [st|g inc|e]; [|left; reflexivity|contradiction].
  destruct Hfill as [Hrect Hhdr].
  assert (Hmerged : exists merged,
             match st_header_rows st with
             | [] => Ok (st_table st)
             | h :: hs => merge_header (fold_left Nat.max hs h) (st_table st)
             end = Ok merged
             /\ Forall (fun line : list string => List.length line = num_cols) merged).
  { destruct (st_header_rows st) as [|h hs] eqn:Eh.
    - exists (st_table st). split; [reflexivity | apply Hrect].
    - assert (Hmax : fold_left Nat.max hs h < List.length table_soup).
      { destruct (fold_left_max_In hs h) as [-> | Hin]; apply Hhdr; simpl; auto. }
      set (m := fold_left Nat.max hs h) in *.
      replace (List.length table_soup)
        with (m + S (List.length table_soup - m - 1)) in Hrect by lia.
      destruct (merge_header_rect _ _ _ _ Hrect) as (t' & Hm & Hr & _).
      exists t'. split; [exact Hm | apply Hr]. }
  destruct Hmerged as (merged & -> & Hall). cbn [bind].
  remember (filter (fun row : list string => existsb truthy row) merged)
    as table_filtered eqn:Et.
  assert (Hf : Forall (fun line : list string =>
                         List.length line = num_cols /\ existsb truthy line = true)
                 table_filtered).
  { apply Forall_forall. intros line Hin. rewrite Et in Hin. apply filter_In in Hin.
    rewrite Forall_forall in Hall. split; [apply Hall|]; apply Hin. }
  clear Et.
  destruct (negb (existsb (fun row => truthy (join EmptyString row)) table_filtered))
    eqn:Eany; [left; reflexivity|].
  destruct table_filtered as [|cols data]; [discriminate|].
  apply Forall_cons_iff in Hf. destruct Hf as [[Hcols Hne] Hdata].
  assert (Hdata' : Forall (fun line : list string => List.length line = num_cols) data).
  { apply (Forall_impl _ (P := fun line : list string =>
                                  List.length line = num_cols
                                  /\ existsb truthy line = true)); [|exact Hdata].
    intros line [H _]. exact H. }
  destruct (DataFrame_rect num_cols data cols Hdata' Hcols) as (df & -> & Hdf & Hlen).
  cbn [bind].
  destruct df as [|first others].
  { destruct cols; [discriminate | simpl in *; lia]. }
  pose proof (postprocess_table_df_rect _ first others Hdf) as Hp.
  destruct (postprocess_table_df (first :: others)) as [[df' old]|e]; cbn [bind];
    [|exact Hp].
  destruct Hp as [[m Hm] (values & rest & ->)].
  destruct (to_dict_shape m values rest Hm) as (refs & d & Hd & Hr & Hnd).
  right. exists refs, d, m. cbn [table_dict old_citation_column fst snd].
  split; [exact Hd|]. split; [exact Hr|]. split; [exact Hnd|]. eauto.
Qed.

(** X7: a [table_dict] that [soup_to_json] returns is empty or has
    "References" as its first key, distinct keys and value lists of one
    length, and then the old citation column is recorded. *)
Theorem soup_to_json_table_dict (table_soup : Soup) (tj : TableJson) :
  soup_to_json table_soup = Ok tj -> table_dict tj <> [] ->
  exists refs d,
    table_dict tj = ("References", refs) :: d
    /\ (forall col values, In (col, values) (table_dict tj) ->
          List.length values = List.length refs)
    /\ NoDup (keys (table_dict tj))
    /\ exists old, old_citation_column tj = Some old.
Proof.
  intros H Hne. pose proof (soup_to_json_cases table_soup) as Hc.
  rewrite H in Hc. destruct Hc as [Hc | (refs & d & n & Hd & Hr & Hnd & Hold)];
    [congruence|].
  exists refs, d. split; [exact Hd|]. split; [|split; [exact Hnd | exact Hold]].
  unfold frame_rect in Hr. rewrite Forall_forall in Hr.
  assert (Hrefs : List.length refs = n).
  { apply (Hr ("References", refs)). rewrite Hd. left. reflexivity. }
  intros col values Hin. rewrite Hrefs. apply (Hr (col, values) Hin).
Qed.

Lemma soup_to_json_table_dict_witness :
  exists refs d,
    [("References", ["{{cite:abcdef0}}"; "{{cite:abcdef1}}"]);
     ("Method", ["A"; "B"]); ("Feature", ["yes"; "no"])]
    = ("References", refs) :: d
    /\ (forall col values,
          In (col, values)
             [("References", ["{{cite:abcdef0}}"; "{{cite:abcdef1}}"]);
              ("Method", ["A"; "B"]); ("Feature", ["yes"; "no"])] ->
          List.length values = List.length refs)
    /\ NoDup (keys [("References", ["{{cite:abcdef0}}"; "{{cite:abcdef1}}"]);
                    ("Method", ["A"; "B"]); ("Feature", ["yes"; "no"])])
    /\ exists old, Some "Method" = Some old.
Proof.
  apply (soup_to_json_table_dict mapped_soup
           {| table := [["Method"; "Feature"]; ["{{cite:abcdef0}} A"; "yes"];
                        ["{{cite:abcdef1}} B"; "no"]];
              incomplete_rows := [];
              old_citation_column := Some "Method";
              table_dict :=
                [("References", ["{{cite:abcdef0}}"; "{{cite:abcdef1}}"]);
                 ("Method", ["A"; "B"]); ("Feature", ["yes"; "no"])] |}).
  - vm_compute. reflexivity.
  - discriminate.
Defined.

(** ** [soup_to_json] on any [cols] attribute *)

Lemma index_natural (len c : nat) :
  AnyCols.index len (Z.of_nat c) = if c <? len then Some c else None.
Proof.
  unfold AnyCols.index.
  destruct (Nat.ltb_spec c len) as [Hlt | Hge].
  - replace ((0 <=? Z.of_nat c) && (Z.of_nat c <? Z.of_nat len))%Z with true
      by (symmetry; apply andb_true_iff; split; [apply Z.leb_le | apply Z.ltb_lt]; lia).
    rewrite Nat2Z.id. reflexivity.
  - replace (Z.of_nat c <? Z.of_nat len)%Z with false
      by (symmetry; apply Z.ltb_ge; lia).
    replace (Z.of_nat c <? 0)%Z with false by (symmetry; apply Z.ltb_ge; lia).
    rewrite andb_false_r. reflexivity.
Qed.

Lemma grid_get_natural (g : grid) (r c : nat) :
  AnyCols.grid_get g r (Z.of_nat c) = grid_get g r c.
Proof.
  unfold AnyCols.grid_get, grid_get. destruct (nth_error g r) as [line|]; [|reflexivity].
  rewrite index_natural. destruct (Nat.ltb_spec c (List.length line)) as [Hlt | Hge];
    [reflexivity|].
  symmetry. apply nth_error_None. exact Hge.
Qed.

Lemma list_set_beyond {A : Type} (l : list A) (i : nat) (x : A) :
  List.length l <= i -> list_set l i x = l.
Proof.
  revert i. induction l as [|y r IH]; intros i Hi; [reflexivity|].
  destruct i as [|i]; cbn [List.length] in Hi; [lia|].
  cbn [list_set]. rewrite IH by lia. reflexivity.
Qed.

Lemma list_set_same {A : Type} (l : list A) (i : nat) (x : A) :
  nth_error l i = Some x -> list_set l i x = l.
Proof.
  revert i. induction l as [|y r IH]; intros i Hi; [reflexivity|].
  destruct i as [|i]; cbn [nth_error] in Hi; cbn [list_set].
  - injection Hi as ->. reflexivity.
  - rewrite (IH _ Hi). reflexivity.
Qed.

Lemma grid_set_natural (g : grid) (r c : nat) (v : string) :
  AnyCols.grid_set g r (Z.of_nat c) v = grid_set g r c v.
Proof.
  unfold AnyCols.grid_set, grid_set. destruct (nth_error g r) as [line|] eqn:E;
    [|reflexivity].
  rewrite index_natural. destruct (Nat.ltb_spec c (List.length line)) as [Hlt | Hge];
    [reflexivity|].
  rewrite (list_set_beyond line c v Hge). symmetry. apply list_set_same. exact E.
Qed.

Lemma propagate_natural (row_i col : nat) (text : string) (offsets : list nat) :
  forall g, AnyCols.propagate g row_i (Z.of_nat col) text offsets
            = propagate g row_i col text offsets.
Proof.
  induction offsets as [|off rest IH]; intros g; [reflexivity|].
  cbn [AnyCols.propagate propagate]. rewrite grid_get_natural.
  destruct (grid_get g (row_i + off) col) as [v|]; [|reflexivity].
  rewrite grid_set_natural. apply IH.
Qed.

Lemma write_cell_natural header_rows (row_i col : nat) (text : string) (g : grid) :
  AnyCols.write_cell header_rows row_i (Z.of_nat col) text g
  = write_cell header_rows row_i col text g.
Proof.
  unfold AnyCols.write_cell, write_cell.
  destruct (multirow_search text) as [[count rest]|].
  - rewrite propagate_natural.
    destruct (propagate g row_i col (strip rest) (seq 1 (count - 1))) as [g'| |];
      cbn [fbind fst snd]; [|reflexivity|reflexivity].
    rewrite !grid_get_natural.
    destruct (is_na _); cbn [fbind];
      destruct (grid_get g' row_i col) as [v|]; cbn [fbind]; try reflexivity;
      rewrite grid_set_natural; reflexivity.
  - cbn [fbind fst snd]. rewrite !grid_get_natural.
    destruct (is_na _); cbn [fbind];
      destruct (grid_get g row_i col) as [v|]; cbn [fbind]; try reflexivity;
      rewrite grid_set_natural; reflexivity.
Qed.

Lemma write_span_natural header_rows (row_i col_i : nat) (text : string)
    (col_offsets : list nat) :
  forall g, AnyCols.write_span header_rows row_i (Z.of_nat col_i) text col_offsets g
            = write_span header_rows row_i col_i text col_offsets g.
Proof.
  induction col_offsets as [|off rest IH]; intros g; [reflexivity|].
  cbn [AnyCols.write_span write_span]. rewrite <- Nat2Z.inj_add, write_cell_natural.
  destruct (write_cell header_rows row_i (col_i + off) text g); cbn [fbind];
    [apply IH | reflexivity | reflexivity].
Qed.

Lemma num_spanning_cols_natural (cell : AnyCols.Cell) :
  natural_cols cell = true ->
  AnyCols.num_spanning_cols cell = Ok (Z.of_nat (num_spanning_cols (AnyCols.natural cell))).
Proof.
  unfold natural_cols, AnyCols.num_spanning_cols, num_spanning_cols, AnyCols.natural.
  cbn [cell_cols]. destruct (AnyCols.cell_cols cell) as [|n|]; [reflexivity| |discriminate].
  intros H. apply Z.leb_le in H. rewrite Z2Nat.id by exact H. reflexivity.
Qed.

Lemma write_cells_natural header_rows (row_i : nat) (cells : AnyCols.Row) :
  forallb natural_cols cells = true ->
  forall col_i g,
    AnyCols.write_cells header_rows row_i (Z.of_nat col_i) cells g
    = write_cells header_rows row_i col_i (map AnyCols.natural cells) g.
Proof.
  induction cells as [|cell rest IH]; intros Hn col_i g; [reflexivity|].
  cbn [forallb] in Hn. apply andb_true_iff in Hn. destruct Hn as [Hc Hrest].
  cbn [AnyCols.write_cells write_cells map].
  rewrite (num_spanning_cols_natural cell Hc), Nat2Z.id, write_span_natural.
  change (cell_text (AnyCols.natural cell)) with (AnyCols.cell_text cell).
  destruct (write_span header_rows row_i col_i (AnyCols.cell_text cell)
              (seq 0 (num_spanning_cols (AnyCols.natural cell))) g); cbn [fbind];
    [|reflexivity|reflexivity].
  rewrite <- Nat2Z.inj_add. apply (IH Hrest).
Qed.

Lemma filter_has_cit_natural (cells : AnyCols.Row) :
  List.length (filter AnyCols.has_cit cells)
  = List.length (filter has_cit (map AnyCols.natural cells)).
Proof.
  induction cells as [|cell rest IH]; [reflexivity|]. cbn [filter map].
  change (has_cit (AnyCols.natural cell)) with (AnyCols.has_cit cell).
  destruct (AnyCols.has_cit cell); cbn [List.length]; rewrite IH; reflexivity.
Qed.

Lemma existsb_has_figure_natural (cells : AnyCols.Row) :
  existsb AnyCols.has_figure cells = existsb has_figure (map AnyCols.natural cells).
Proof.
  induction cells as [|cell rest IH]; [reflexivity|]. cbn [existsb map].
  rewrite IH. reflexivity.
Qed.

Lemma fill_row_natural (num_cols row_i : nat) (cells : AnyCols.Row) (st : fill_state) :
  forallb natural_cols cells = true ->
  AnyCols.fill_row (Z.of_nat num_cols) row_i cells st
  = fill_row num_cols row_i (map AnyCols.natural cells) st.
Proof.
  intros Hn. unfold AnyCols.fill_row, fill_row.
  rewrite <- filter_has_cit_natural, <- existsb_has_figure_natural, length_map.
  replace (Z.of_nat (List.length cells) <? Z.of_nat num_cols)%Z
    with (List.length cells <? num_cols)
    by (destruct (Nat.ltb_spec (List.length cells) num_cols);
        [symmetry; apply Z.ltb_lt; lia | symmetry; apply Z.ltb_ge; lia]).
  change 0%Z with (Z.of_nat 0).
  rewrite !(write_cells_natural _ _ _ Hn).
  rewrite map_map. reflexivity.
Qed.

Lemma fill_rows_natural (num_cols : nat) (rows : AnyCols.Soup) :
  forallb (forallb natural_cols) rows = true ->
  forall row_i st,
    AnyCols.fill_rows (Z.of_nat num_cols) row_i rows st
    = fill_rows num_cols row_i (map (map AnyCols.natural) rows) st.
Proof.
  induction rows as [|cells rest IH]; intros Hn row_i st; [reflexivity|].
  cbn [forallb] in Hn. apply andb_true_iff in Hn. destruct Hn as [Hc Hrest].
  cbn [AnyCols.fill_rows fill_rows map]. rewrite (fill_row_natural _ _ _ _ Hc).
  destruct (fill_row num_cols row_i (map AnyCols.natural cells) st);
    [apply (IH Hrest) | reflexivity | reflexivity].
Qed.

Lemma sum_spanning_cols_natural (cells : AnyCols.Row) :
  forallb natural_cols cells = true ->
  AnyCols.sum_spanning_cols cells
  = Ok (Z.of_nat (list_sum (map num_spanning_cols (map AnyCols.natural cells)))).
Proof.
  induction cells as [|cell rest IH]; intros Hn; [reflexivity|].
  cbn [forallb] in Hn. apply andb_true_iff in Hn. destruct Hn as [Hc Hrest].
  cbn [AnyCols.sum_spanning_cols]. rewrite (num_spanning_cols_natural cell Hc), (IH Hrest).
  cbn [bind map]. change (list_sum (?x :: ?l)) with (x + list_sum l).
  rewrite Nat2Z.inj_add. reflexivity.
Qed.

Lemma sums_natural (rows : AnyCols.Soup) :
  forallb (forallb natural_cols) rows = true ->
  AnyCols.sums rows
  = Ok (map Z.of_nat
          (map (fun row => list_sum (map num_spanning_cols row))
             (map (map AnyCols.natural) rows))).
Proof.
  induction rows as [|row rest IH]; intros Hn; [reflexivity|].
  cbn [forallb] in Hn. apply andb_true_iff in Hn. destruct Hn as [Hc Hrest].
  cbn [AnyCols.sums]. rewrite (sum_spanning_cols_natural row Hc), (IH Hrest). reflexivity.
Qed.

Lemma fold_left_max_natural (l : list nat) :
  forall x, fold_left Z.max (map Z.of_nat l) (Z.of_nat x) = Z.of_nat (fold_left Nat.max l x).
Proof.
  induction l as [|y r IH]; intros x; [reflexivity|].
  cbn [map fold_left]. rewrite <- Nat2Z.inj_max. apply IH.
Qed.

Lemma py_max_natural (l : list nat) :
  AnyCols.py_max (map Z.of_nat l)
  = match py_max l with
    | Ok m => Ok (Z.of_nat m)
    | Raise e => Raise e
    end.
Proof.
  destruct l as [|x r]; [reflexivity|]. cbn [map AnyCols.py_max py_max].
  rewrite fold_left_max_natural. reflexivity.
Qed.

Lemma get_num_cols_natural (table_soup : AnyCols.Soup) :
  forallb (forallb natural_cols) table_soup = true ->
  AnyCols.get_num_cols table_soup
  = match get_num_cols (map (map AnyCols.natural) table_soup) with
    | Ok m => Ok (Z.of_nat m)
    | Raise e => Raise e
    end.
Proof.
  intros Hn. unfold AnyCols.get_num_cols, get_num_cols.
  rewrite (sums_natural _ Hn). cbn [bind].
  rewrite <- py_max_natural, map_app, !map_map. f_equal. f_equal.
  apply map_ext. intros row. rewrite length_map. reflexivity.
Qed.

(** On cells whose attribute is absent or a natural number, [AnyCols] is the
    embedding on natural numbers. *)
Lemma soup_to_json_natural (table_soup : AnyCols.Soup) :
  forallb (forallb natural_cols) table_soup = true ->
  AnyCols.soup_to_json table_soup = soup_to_json (map (map AnyCols.natural) table_soup).
Proof.
  intros Hn. unfold AnyCols.soup_to_json, soup_to_json, AnyCols.fill_table, fill_table.
  rewrite (get_num_cols_natural _ Hn).
  destruct (get_num_cols (map (map AnyCols.natural) table_soup)) as [num_cols|e];
    cbn [bind]; [|reflexivity].
  rewrite (fill_rows_natural _ _ Hn). unfold AnyCols.initial_state, initial_state.
  rewrite Nat2Z.id, length_map. reflexivity.
Qed.

Lemma sum_spanning_cols_exn (cells : AnyCols.Row) (e : exn) :
  AnyCols.sum_spanning_cols cells = Raise e -> e = ValueError.
Proof.
  induction cells as [|cell rest IH]; cbn [AnyCols.sum_spanning_cols]; [discriminate|].
  unfold AnyCols.num_spanning_cols at 1.
  destruct (AnyCols.cell_cols cell); cbn [bind]; try congruence;
    destruct (AnyCols.sum_spanning_cols rest); cbn [bind]; try discriminate;
    intros H; injection H as <-; apply IH; reflexivity.
Qed.

Lemma sum_spanning_cols_not_a_number (cells : AnyCols.Row) :
  forallb no_negative_cols cells = true -> forallb natural_cols cells = false ->
  is_ok (AnyCols.sum_spanning_cols cells) = false.
Proof.
  induction cells as [|cell rest IH]; cbn [forallb]; intros Hneg Hnat; [discriminate|].
  apply andb_true_iff in Hneg. destruct Hneg as [Hc Hrest].
  cbn [AnyCols.sum_spanning_cols]. unfold AnyCols.num_spanning_cols at 1.
  unfold no_negative_cols in Hc. unfold natural_cols in Hnat at 1.
  destruct (AnyCols.cell_cols cell) as [|n|]; cbn [bind]; [| |reflexivity].
  - cbn [andb] in Hnat. specialize (IH Hrest Hnat).
    destruct (AnyCols.sum_spanning_cols rest); [discriminate | reflexivity].
  - rewrite Hc in Hnat. cbn [andb] in Hnat. specialize (IH Hrest Hnat).
    destruct (AnyCols.sum_spanning_cols rest); [discriminate | reflexivity].
Qed.

Lemma sums_exn (rows : AnyCols.Soup) (e : exn) :
  AnyCols.sums rows = Raise e -> e = ValueError.
Proof.
  induction rows as [|row rest IH]; cbn [AnyCols.sums]; [discriminate|].
  destruct (AnyCols.sum_spanning_cols row) as [s|e'] eqn:Es; cbn [bind].
  - destruct (AnyCols.sums rest); cbn [bind]; [discriminate|].
    intros H. injection H as <-. apply IH. reflexivity.
  - intros H. injection H as <-. apply (sum_spanning_cols_exn _ _ Es).
Qed.

Lemma sums_not_a_number (rows : AnyCols.Soup) :
  forallb (forallb no_negative_cols) rows = true ->
  forallb (forallb natural_cols) rows = false ->
  is_ok (AnyCols.sums rows) = false.
Proof.
  induction rows as [|row rest IH]; cbn [forallb]; intros Hneg Hnat; [discriminate|].
  apply andb_true_iff in Hneg. destruct Hneg as [Hc Hrest].
  cbn [AnyCols.sums].
  destruct (forallb natural_cols row) eqn:Er.
  - cbn [andb] in Hnat. specialize (IH Hrest Hnat).
    destruct (AnyCols.sum_spanning_cols row); cbn [bind]; [|reflexivity].
    destruct (AnyCols.sums rest); [discriminate | reflexivity].
  - pose proof (sum_spanning_cols_not_a_number row Hc Er) as H.
    destruct (AnyCols.sum_spanning_cols row); [discriminate | reflexivity].
Qed.


(** *** The grid only grows *)

Lemma append_empty_r (s : string) : s +++ EmptyString = s.
Proof. induction s as [|c r IH]; cbn [String.append]; [reflexivity | rewrite IH; reflexivity]. Qed.

Lemma append_assoc (a b c : string) : (a +++ b) +++ c = a +++ (b +++ c).
Proof.
  induction a as [|x r IH]; cbn [String.append]; [reflexivity | rewrite IH; reflexivity].
Qed.

Lemma extends_refl (g : grid) : extends g g.
Proof. intros r c v H. exists EmptyString. rewrite append_empty_r. exact H. Qed.

Lemma extends_trans (g1 g2 g3 : grid) : extends g1 g2 -> extends g2 g3 -> extends g1 g3.
Proof.
  intros H12 H23 r c v H. destruct (H12 r c v H) as [w Hw].
  destruct (H23 r c _ Hw) as [w' Hw']. exists (w +++ w'). rewrite <- append_assoc. exact Hw'.
Qed.

Lemma grid_set_extends (g : grid) (r c : nat) (v w : string) :
  grid_get g r c = Some v -> extends g (grid_set g r c (v +++ w)).
Proof.
  intros Hv r' c' v' H'. rewrite grid_get_set by congruence.
  destruct (Nat.eqb_spec r r') as [<-|_]; cbn [andb]; [|exists EmptyString].
  - destruct (Nat.eqb_spec c c') as [<-|_]; [|exists EmptyString].
    + exists w. congruence.
    + rewrite append_empty_r. exact H'.
  - rewrite append_empty_r. exact H'.
Qed.

Lemma propagate_extends (row_i col : nat) (text : string) (offsets : list nat) :
  forall g g', propagate g row_i col text offsets = Go g' -> extends g g'.
Proof.
  induction offsets as [|off rest IH]; cbn [propagate]; intros g g' H.
  - injection H as <-. apply extends_refl.
  - destruct (grid_get g (row_i + off) col) as [v|] eqn:E; [|discriminate].
    apply (extends_trans _ _ _ (grid_set_extends _ _ _ _ text E)). apply (IH _ _ H).
Qed.

Lemma finish_cell_extends header_rows row_i col cell_text g g' :
  finish_cell header_rows row_i col cell_text g = Go g' -> extends g g'.
Proof.
  destruct (grid_get g row_i col) as [v|] eqn:E.
  - rewrite (finish_cell_spec _ _ _ _ _ _ E). intros H. injection H as <-.
    destruct v as [|a v']; cbn [truthy is_empty negb]; [|apply extends_refl].
    apply (grid_set_extends g row_i col EmptyString _ E).
  - unfold finish_cell. rewrite E. cbv zeta.
    destruct (is_na _); cbn [fbind]; discriminate.
Qed.

Lemma write_cell_extends header_rows row_i col text g g' :
  write_cell header_rows row_i col text g = Go g' -> extends g g'.
Proof.
  rewrite write_cell_unfold.
  destruct (multirow_search text) as [[count rest]|]; [|apply finish_cell_extends].
  destruct (propagate g row_i col (strip rest) (seq 1 (count - 1))) as [g1| |] eqn:Ep;
    try discriminate.
  intros H. apply (extends_trans _ g1); [apply (propagate_extends _ _ _ _ _ _ Ep)|].
  apply (finish_cell_extends _ _ _ _ _ _ H).
Qed.

Lemma write_span_extends header_rows row_i col_i text (col_offsets : list nat) :
  forall g g', write_span header_rows row_i col_i text col_offsets g = Go g' ->
               extends g g'.
Proof.
  induction col_offsets as [|off rest IH]; cbn [write_span]; intros g g' H.
  - injection H as <-. apply extends_refl.
  - destruct (write_cell header_rows row_i (col_i + off) text g) as [g1| |] eqn:E;
      cbn [fbind] in H; try discriminate.
    apply (extends_trans _ g1); [apply (write_cell_extends _ _ _ _ _ _ E) | apply (IH _ _ H)].
Qed.

Lemma write_cells_extends header_rows row_i (cells : list Cell) :
  forall col_i g g', write_cells header_rows row_i col_i cells g = Go g' -> extends g g'.
Proof.
  induction cells as [|cell rest IH]; cbn [write_cells]; intros col_i g g' H.
  - injection H as <-. apply extends_refl.
  - destruct (write_span header_rows row_i col_i (cell_text cell)
                (seq 0 (num_spanning_cols cell)) g) as [g1| |] eqn:E;
      cbn [fbind] in H; try discriminate.
    apply (extends_trans _ g1); [apply (write_span_extends _ _ _ _ _ _ _ E)|].
    apply (IH _ _ _ H).
Qed.

Lemma fill_row_extends num_cols i cells st st' :
  fill_row num_cols i cells st = RowDone st' -> extends (st_table st) (st_table st').
Proof.
  rewrite fill_row_unfold. cbv zeta.
  destruct (is_incomplete_row num_cols (st_seen_cites st) cells).
  - intros H. injection H as <-. apply extends_refl.
  - destruct (write_cells _ i 0 cells (st_table st)) as [g| |] eqn:E; try discriminate.
    intros H. injection H as <-. apply (write_cells_extends _ _ _ _ _ _ E).
Qed.

Lemma fill_rows_extends num_cols rows :
  forall i st st', fill_rows num_cols i rows st = RowDone st' ->
                   extends (st_table st) (st_table st').
Proof.
  induction rows as [|cells rest IH]; cbn [fill_rows]; intros i st st' H.
  - injection H as <-. apply extends_refl.
  - destruct (fill_row num_cols i cells st) as [st1| |] eqn:E; try discriminate.
    apply (extends_trans _ (st_table st1));
      [apply (fill_row_extends _ _ _ _ _ E) | apply (IH _ _ _ H)].
Qed.

(** *** A row span in the grid the loop leaves *)

Lemma write_cells_app header_rows row_i (before after : list Cell) :
  forall col_i g g',
    write_cells header_rows row_i col_i (before ++ after) g = Go g' ->
    exists g1,
      write_cells header_rows row_i col_i before g = Go g1
      /\ write_cells header_rows row_i
           (col_i + list_sum (map num_spanning_cols before)) after g1 = Go g'.
Proof.
  induction before as [|cell rest IH]; intros col_i g g' H.
  - exists g. cbn [map list_sum]. rewrite Nat.add_0_r. auto.
  - cbn [app write_cells] in *.
    destruct (write_span header_rows row_i col_i (cell_text cell)
                (seq 0 (num_spanning_cols cell)) g) as [g0| |]; cbn [fbind] in *;
      try discriminate.
    destruct (IH _ _ _ H) as (g1 & H1 & H2). exists g1. split; [exact H1|].
    replace (col_i + list_sum (map num_spanning_cols (cell :: rest)))
      with (col_i + num_spanning_cols cell + list_sum (map num_spanning_cols rest))
      by (simpl; lia).
    exact H2.
Qed.

Lemma fill_rows_nth num_cols rows :
  forall i0 st st' i cells,
    fill_rows num_cols i0 rows st = RowDone st' ->
    nth_error rows i = Some cells ->
    exists st1 st2,
      fill_rows num_cols i0 (firstn i rows) st = RowDone st1
      /\ fill_row num_cols (i0 + i) cells st1 = RowDone st2
      /\ fill_rows num_cols (S (i0 + i)) (skipn (S i) rows) st2 = RowDone st'.
Proof.
  induction rows as [|row rest IH]; intros i0 st st' i cells H Hn;
    [destruct i; discriminate|].
  cbn [fill_rows] in H.
  destruct (fill_row num_cols i0 row st) as [st0| |] eqn:E; try discriminate.
  destruct i as [|i]; cbn [nth_error] in Hn.
  - injection Hn as <-. exists st, st0. rewrite Nat.add_0_r. cbn [firstn skipn fill_rows].
    auto.
  - destruct (IH _ _ _ _ _ H Hn) as (st1 & st2 & H1 & H2 & H3).
    exists st1, st2. cbn [firstn skipn fill_rows]. rewrite E.
    replace (i0 + S i) with (S i0 + i) by lia. auto.
Qed.

(** The rows before row [i]: the grid keeps its shape. *)
Lemma fill_rows_prefix R C num_cols rows :
  forall i st st',
    rectangular R C (st_table st) -> i + List.length rows <= R ->
    (forall cells, In cells rows -> list_sum (map num_spanning_cols cells) <= C) ->
    fill_rows num_cols i rows st = RowDone st' ->
    rectangular R C (st_table st').
Proof.
  induction rows as [|cells rest IH]; cbn [fill_rows List.length]; intros i st st' Hg Hlen Hsum H.
  - injection H as <-. exact Hg.
  - pose proof (fill_row_course R C num_cols i cells st Hg ltac:(lia)
                  (Hsum cells (or_introl eq_refl))) as Hrow.
    destruct (fill_row num_cols i cells st) as [st1| |]; try discriminate.
    destruct Hrow as [Hg1 _].
    apply (IH (S i) st1 st' Hg1 ltac:(lia) (fun c Hc => Hsum c (or_intror Hc)) H).
Qed.

Lemma list_sum_app_map (f : Cell -> nat) (l1 l2 : list Cell) :
  list_sum (map f (l1 ++ l2)) = list_sum (map f l1) + list_sum (map f l2).
Proof. rewrite map_app, list_sum_app. reflexivity. Qed.

(** When the loop completes, the text after the marker of a written cell
    stands in the same column of each of the next [count - 1] rows. *)
Lemma row_span_in_grid table_soup num_cols st i before cell after count rest k :
  get_num_cols table_soup = Ok num_cols ->
  fill_table table_soup = Ok (RowDone st) ->
  nth_error table_soup i = Some (before ++ cell :: after) ->
  is_incomplete_row num_cols (existsb row_has_cites (firstn i table_soup))
    (before ++ cell :: after) = false ->
  1 <= num_spanning_cols cell ->
  multirow_search (cell_text cell) = Some (count, rest) ->
  1 <= k < count ->
  i + k < List.length table_soup
  /\ exists pre post,
       grid_get (st_table st) (i + k) (list_sum (map num_spanning_cols before))
       = Some (pre +++ (strip rest +++ post)).
Proof.
  intros Hn Hfill Hi Hinc Hspan Hm Hk.
  unfold fill_table in Hfill. rewrite Hn in Hfill. cbn [bind] in Hfill.
  apply Ok_inj in Hfill.
  set (R := List.length table_soup) in *. set (cells := before ++ cell :: after) in *.
  destruct (fill_rows_nth _ _ _ _ _ _ _ Hfill Hi) as (st1 & st2 & H1 & H2 & H3).
  cbn [Nat.add] in H2, H3.
  assert (HiR : i < R) by (apply nth_error_Some; congruence).
  assert (Hsums : forall c, In c table_soup -> list_sum (map num_spanning_cols c) <= num_cols)
    by (apply get_num_cols_spans; exact Hn).
  assert (Hg1 : rectangular R num_cols (st_table st1)).
  { apply (fill_rows_prefix R num_cols num_cols (firstn i table_soup) 0
             (initial_state R num_cols) st1 (rectangular_initial _ _)).
    - rewrite length_firstn. fold R. lia.
    - intros c Hc. apply Hsums. rewrite <- (firstn_skipn i table_soup).
      apply in_or_app. left. exact Hc.
    - exact H1. }
  destruct (fill_rows_classification _ _ _ _ _ H1) as (Hseen & _).
  cbn [initial_state st_seen_cites orb] in Hseen.
  rewrite fill_row_unfold in H2. cbv zeta in H2. rewrite Hseen, Hinc in H2.
  set (hdr := st_header_rows st1
              ++ new_header_rows num_cols (existsb row_has_cites (firstn i table_soup)) i
                   cells) in *.
  destruct (write_cells hdr i 0 cells (st_table st1)) as [g2| |] eqn:Ew; try discriminate.
  injection H2 as <-. cbn [st_table] in H3.
  assert (Hrow : list_sum (map num_spanning_cols cells) <= num_cols).
  { apply Hsums. apply (nth_error_In _ _ Hi). }
  unfold cells in Hrow, Ew. rewrite list_sum_app_map in Hrow.
  change (list_sum (map num_spanning_cols (cell :: after)))
    with (num_spanning_cols cell + list_sum (map num_spanning_cols after)) in Hrow.
  destruct (write_cells_app _ _ _ _ _ _ _ Ew) as (ga & Ha & Hb).
  cbn [Nat.add] in Hb. set (col := list_sum (map num_spanning_cols before)) in *.
  assert (Hbefore : 0 + col <= num_cols) by lia.
  assert (Hga : rectangular R num_cols ga).
  { pose proof (write_cells_course R num_cols hdr i HiR before 0 (st_table st1) Hg1
                  Hbefore) as Hc.
    rewrite Ha in Hc. apply Hc. }
  cbn [write_cells] in Hb.
  destruct (num_spanning_cols cell) as [|span] eqn:Es; [lia|].
  cbn [seq write_span] in Hb. rewrite Nat.add_0_r in Hb.
  destruct (write_cell hdr i col (cell_text cell) ga) as [gb| |] eqn:Ec;
    cbn [fbind] in Hb; try discriminate.
  assert (Hcol : col < num_cols) by lia.
  pose proof (write_cell_course R num_cols hdr i HiR col (cell_text cell) ga Hga Hcol)
    as Hcourse.
  rewrite Ec in Hcourse. destruct Hcourse as [_ Hrange].
  specialize (Hrange count rest Hm).
  destruct (rectangular_get _ _ _ _ _ Hga HiR Hcol) as [v Hv].
  destruct (write_cell_propagates R num_cols hdr i col (cell_text cell) count rest ga v
              Hga HiR Hcol Hm Hrange Hv) as (gb' & Hgb' & Htargets & _).
  rewrite Ec in Hgb'. injection Hgb' as <-.
  split; [fold R; lia|].
  assert (HkR : i + k < R) by lia.
  destruct (rectangular_get _ _ _ _ _ Hga HkR Hcol) as [w Hw].
  pose proof (Htargets k w Hk Hw) as Hgb.
  assert (Hext : extends gb (st_table st)).
  { destruct (write_span hdr i col (cell_text cell) (seq 1 span) gb) as [gc| |] eqn:Es';
      cbn [fbind] in Hb; try discriminate.
    apply (extends_trans _ gc); [apply (write_span_extends _ _ _ _ _ _ _ Es')|].
    apply (extends_trans _ g2); [apply (write_cells_extends _ _ _ _ _ _ Hb)|].
    apply (fill_rows_extends _ _ _ _ _ H3). }
  destruct (Hext _ _ _ Hgb) as [post Hpost].
  exists w, post. rewrite Hpost, append_assoc. reflexivity.
Qed.

(** The grid the loop leaves is the table [soup_to_json] returns, without
    its empty rows, when no row after the first is a header row. *)
Lemma soup_to_json_table table_soup st tj :
  fill_table table_soup = Ok (RowDone st) ->
  (forall h, In h (st_header_rows st) -> h = 0) ->
  soup_to_json table_soup = Ok tj ->
  table tj = filter (fun row => existsb truthy row) (st_table st).
Proof.
  intros Hfill Hh. unfold soup_to_json. rewrite Hfill. cbn [bind].
  assert (Hm : match st_header_rows st with
               | [] => Ok (st_table st)
               | h :: hs => merge_header (fold_left Nat.max hs h) (st_table st)
               end = Ok (st_table st)).
  { destruct (st_header_rows st) as [|h hs]; [reflexivity|].
    assert (fold_left Nat.max hs h = 0) as ->.
    { destruct (fold_left_max_In hs h) as [-> | Hin]; apply Hh; cbn [In]; auto. }
    reflexivity. }
  rewrite Hm. cbn [bind].
  destruct (negb (existsb _ _)); [intros H; apply Ok_inj in H; subst tj; reflexivity|].
  destruct (filter _ (st_table st)) as [|cols data]; [discriminate|].
  destruct (DataFrame data cols) as [df|]; cbn [bind]; [|discriminate].
  destruct (postprocess_table_df df) as [r|]; cbn [bind]; [|discriminate].
  intros H. apply Ok_inj in H. subst tj. reflexivity.
Qed.

Lemma append_truthy (a b c : string) : truthy b = true -> truthy (a +++ (b +++ c)) = true.
Proof.
  destruct a as [|x a]; [|reflexivity]. destruct b as [|y b]; [discriminate | reflexivity].
Qed.

(** The row span in the result of [soup_to_json]. *)
Lemma row_span_in_table table_soup num_cols st tj i before cell after count rest k :
  get_num_cols table_soup = Ok num_cols ->
  fill_table table_soup = Ok (RowDone st) ->
  (forall h, In h (st_header_rows st) -> h = 0) ->
  soup_to_json table_soup = Ok tj ->
  nth_error table_soup i = Some (before ++ cell :: after) ->
  is_incomplete_row num_cols (existsb row_has_cites (firstn i table_soup))
    (before ++ cell :: after) = false ->
  1 <= num_spanning_cols cell ->
  multirow_search (cell_text cell) = Some (count, rest) ->
  1 <= k < count ->
  exists line pre post,
    nth_error (st_table st) (i + k) = Some line
    /\ nth_error line (list_sum (map num_spanning_cols before))
       = Some (pre +++ (strip rest +++ post))
    /\ (truthy (strip rest) = true -> In line (table tj)).
Proof.
  intros Hn Hfill Hh Hj Hi Hinc Hspan Hm Hk.
  destruct (row_span_in_grid _ _ _ _ _ _ _ _ _ _ Hn Hfill Hi Hinc Hspan Hm Hk)
    as (_ & pre & post & Hg).
  unfold grid_get in Hg.
  destruct (nth_error (st_table st) (i + k)) as [line|] eqn:El; [|discriminate].
  exists line, pre, post. split; [reflexivity|]. split; [exact Hg|].
  intros Ht. rewrite (soup_to_json_table _ _ _ Hfill Hh Hj). apply filter_In.
  split; [apply (nth_error_In _ _ El)|].
  apply existsb_exists. exists (pre +++ (strip rest +++ post)).
  split; [apply (nth_error_In _ _ Hg) | apply append_truthy; exact Ht].
Qed.


(** ** The assembly of the data set *)

Lemma first_column_rect (n : nat) (k : string) (values : list string)
    (rest : dict (list string)) :
  frame_rect n ((k, values) :: rest) -> first_column ((k, values) :: rest) = Ok values.
Proof.
  intros H. apply Forall_cons_iff in H. destruct H as [Hv Hr]. cbn [snd] in Hv.
  cbn [first_column].
  replace (forallb _ rest) with true; [reflexivity|].
  symmetry. apply forallb_forall. intros col Hin. rewrite Forall_forall in Hr.
  apply Nat.eqb_eq. rewrite (Hr col Hin). symmetry. exact Hv.
Qed.

Lemma map_rows_exn ids paper_id cells i acc ours_row e :
  map_rows ids paper_id i cells acc ours_row = Raise e -> e = KeyError.
Proof.
  intros H. destruct (forallb (resolvable ids) cells) eqn:Hres.
  - rewrite map_rows_spec in H by exact Hres. discriminate.
  - rewrite map_rows_unresolved in H by exact Hres. congruence.
Qed.

(** On a table with columns of one length the mapper returns the entries of
    the markers and of the last self row, or raises [KeyError]. *)
Lemma get_table_row_bib_map_cases (n : nat) (k : string) (values : list string)
    (rest : dict (list string)) (bib_hashes : list (option string)) (paper_id : string) :
  frame_rect n ((k, values) :: rest) ->
  (forallb (resolvable (cite_id_map bib_hashes)) values = true
   /\ get_table_row_bib_map ((k, values) :: rest) bib_hashes paper_id
      = Ok (spec_row_bib_map (cite_id_map bib_hashes) paper_id values))
  \/ (forallb (resolvable (cite_id_map bib_hashes)) values = false
      /\ get_table_row_bib_map ((k, values) :: rest) bib_hashes paper_id = Raise KeyError).
Proof.
  intros Hr. unfold get_table_row_bib_map. rewrite (first_column_rect n) by exact Hr.
  cbn [bind].
  destruct (forallb (resolvable (cite_id_map bib_hashes)) values) eqn:Hres; [left | right];
    (split; [reflexivity|]).
  - rewrite map_rows_spec by exact Hres. cbn [bind fst snd app]. unfold spec_row_bib_map.
    destruct (last_self_candidate 0 values); [reflexivity|].
    rewrite app_nil_r. reflexivity.
  - rewrite map_rows_unresolved by exact Hres. reflexivity.
Qed.

Lemma should_skip_exn (table_labels : dict bool) (filters : list string) (e : exn) :
  should_skip table_labels filters = Raise e -> e = KeyError.
Proof.
  induction filters as [|name rest IH]; cbn [should_skip]; [discriminate|].
  destruct (dict_get table_labels name) as [[|]|]; [exact IH | discriminate | congruence].
Qed.

Lemma attach_papers_map (input_papers : dict paper_info) (rows : list bib_row) :
  forall missing,
    attach_papers input_papers rows missing
    = (map (with_paper input_papers) rows,
       missing ++ map bib_hash_or_arxiv_id
                    (filter (fun r => negb (listed input_papers r)) rows)).
Proof.
  induction rows as [|r rest IH]; intros missing; cbn [attach_papers map filter].
  - rewrite app_nil_r. reflexivity.
  - unfold with_paper at 1, listed at 1.
    destruct (dict_get input_papers (bib_hash_or_arxiv_id r)) as [info|];
      rewrite IH; cbn [fst snd negb map]; [reflexivity|].
    rewrite <- app_assoc. reflexivity.
Qed.

(** One iteration of the loop: the table is passed over, recorded as
    skipped, or gives one record. *)
Lemma create_dataset_step_cases filters tbl acc acc' :
  create_dataset_step filters tbl acc = Ok acc' ->
  (passes_labels filters tbl = false
   /\ dataset acc' = dataset acc
   /\ skipped_table_hashes acc' = skipped_table_hashes acc)
  \/ (passes_labels filters tbl = true /\ reconstructed tbl = false
      /\ dataset acc' = dataset acc
      /\ skipped_table_hashes acc' = skipped_table_hashes acc ++ [lt_table_hash tbl])
  \/ (passes_labels filters tbl = true /\ reconstructed tbl = true
      /\ skipped_table_hashes acc' = skipped_table_hashes acc
      /\ exists s, dataset acc' = dataset acc ++ [s] /\ emitted tbl s).
Proof.
  unfold create_dataset_step, passes_labels, reconstructed. intros H.
  destruct (match lt_labels tbl with
            | Some table_labels => should_skip table_labels filters
            | None => Ok false
            end) as [[|]|e] eqn:Hskip; cbn [bind] in H; [| |discriminate].
  - left. apply Ok_inj in H. subst acc'.
    destruct (lt_labels tbl); [rewrite Hskip; auto | discriminate].
  - right.
    assert (Hp : match lt_labels tbl with
                 | Some table_labels =>
                     match should_skip table_labels filters with
                     | Ok false => true
                     | _ => false
                     end
                 | None => true
                 end = true).
    { destruct (lt_labels tbl); [rewrite Hskip|]; reflexivity. }
    rewrite Hp. clear Hskip Hp.
    unfold guarded_soup_to_json in *.
    destruct (soup_to_json (lt_soup tbl)) as [tj|e] eqn:Hs.
    + destruct (table_dict tj) as [|c l] eqn:Hd.
      * left. apply Ok_inj in H. subst acc'. auto.
      * right. inv_bind H. apply Ok_inj in H. subst acc'.
        cbn [dataset skipped_table_hashes]. split; [reflexivity|].
        split; [reflexivity|]. split; [reflexivity|].
        eexists. split; [reflexivity|].
        unfold emitted. cbn [table_json table_html _table_hash paper_id bib_hash
                               row_bib_map].
        split; [exact Hs|]. split; [reflexivity|]. split; [reflexivity|].
        split; [reflexivity|]. split; [reflexivity|].
        exists a. rewrite Hd. split; [exact Ha|].
        destruct (lt_input_papers tbl) as [input_papers|]; [|reflexivity].
        rewrite attach_papers_map. reflexivity.
    + left. cbn [table_dict empty_table_json] in *. apply Ok_inj in H. subst acc'. auto.
Qed.

Lemma create_dataset_step_exn filters tbl acc e :
  create_dataset_step filters tbl acc = Raise e -> e = KeyError.
Proof.
  unfold create_dataset_step. intros H.
  destruct (match lt_labels tbl with
            | Some table_labels => should_skip table_labels filters
            | None => Ok false
            end) as [[|]|e'] eqn:Hskip; cbn [bind] in H.
  - discriminate.
  - unfold guarded_soup_to_json in H.
    pose proof (soup_to_json_cases (lt_soup tbl)) as Hc.
    destruct (soup_to_json (lt_soup tbl)) as [tj|e'].
    + destruct Hc as [Hc | (refs & d & n & Hd & Hr & _)].
      * rewrite Hc in H. discriminate.
      * rewrite Hd in H, Hr.
        destruct (get_table_row_bib_map_cases n "References" refs d
                    (map sha (find_all_cit (lt_soup tbl))) (lt_paper_id tbl) Hr)
          as [[_ Hm] | [_ Hm]]; rewrite Hm in H; cbn [bind] in H; [discriminate|].
        congruence.
    + cbn [table_dict empty_table_json] in H. discriminate.
  - destruct (lt_labels tbl) as [table_labels|]; [|discriminate].
    injection H as <-. apply (should_skip_exn _ _ _ Hskip).
Qed.

Lemma create_dataset_loop_exn filters tables :
  forall acc e, create_dataset_loop filters tables acc = Raise e -> e = KeyError.
Proof.
  induction tables as [|tbl rest IH]; cbn [create_dataset_loop]; intros acc e H;
    [discriminate|].
  destruct (create_dataset_step filters tbl acc) as [acc'|e'] eqn:Hstep; cbn [bind] in H.
  - apply (IH _ _ H).
  - injection H as <-. apply (create_dataset_step_exn _ _ _ _ Hstep).
Qed.

(** X8: [create_dataset] raises nothing but [KeyError]: a label that a
    filter asks for is missing, or a marker of the reference column has no
    key among the citations of the table.  The table that [soup_to_json]
    returns never makes [get_table_row_bib_map] fail in another way. *)
Theorem create_dataset_raises_KeyError (labeled_tables : list labeled_table)
    (filters : list string) (e : exn) :
  create_dataset labeled_tables filters = Raise e -> e = KeyError.
Proof.
  unfold create_dataset. intros H.
  destruct (create_dataset_loop filters labeled_tables empty_assembly) as [acc|e'] eqn:Hl;
    cbn [bind] in H; [discriminate|].
  injection H as <-. apply (create_dataset_loop_exn _ _ _ _ Hl).
Qed.

Lemma create_dataset_raises_KeyError_witness :
  create_dataset [labelled "t0" unmapped_soup] [] = Raise KeyError /\ KeyError = KeyError.
Proof.
  split; [vm_compute; reflexivity|].
  apply (create_dataset_raises_KeyError [labelled "t0" unmapped_soup] [] KeyError).
  vm_compute. reflexivity.
Defined.

Lemma create_dataset_loop_accounting filters tables :
  forall acc acc',
    create_dataset_loop filters tables acc = Ok acc' ->
    map _table_hash (dataset acc')
    = map _table_hash (dataset acc)
      ++ map lt_table_hash
           (filter (fun tbl => passes_labels filters tbl && reconstructed tbl) tables)
    /\ skipped_table_hashes acc'
       = skipped_table_hashes acc
         ++ map lt_table_hash
              (filter (fun tbl => passes_labels filters tbl && negb (reconstructed tbl))
                 tables).
Proof.
  induction tables as [|tbl rest IH]; cbn [create_dataset_loop]; intros acc acc' H.
  - apply Ok_inj in H. subst acc'. cbn [filter map]. rewrite !app_nil_r. auto.
  - inv_bind H. destruct (IH _ _ H) as [IHd IHs]. rewrite IHd, IHs. cbn [filter].
    destruct (create_dataset_step_cases _ _ _ _ Ha)
      as [(Hp & Hd & Hs) | [(Hp & Hr & Hd & Hs) | (Hp & Hr & Hs & s & Hd & He)]];
      rewrite Hp, ?Hr, Hd, Hs; cbn [andb negb map]; auto.
    + rewrite <- app_assoc. auto.
    + rewrite map_app, <- app_assoc. cbn [map app].
      destruct He as (_ & _ & -> & _). auto.
Qed.

(** X9: every table is accounted for once.  When [create_dataset] returns,
    the hashes of its records are, in order, those of the tables that pass
    the label filters and that [soup_to_json] reconstructs, and the hashes
    it has recorded as skipped are those of the tables that pass the label
    filters and are not reconstructed. *)
Theorem create_dataset_accounting (labeled_tables : list labeled_table)
    (filters : list string) (ds : list sample) :
  create_dataset labeled_tables filters = Ok ds ->
  map _table_hash ds
  = map lt_table_hash
      (filter (fun tbl => passes_labels filters tbl && reconstructed tbl) labeled_tables)
  /\ exists acc,
       create_dataset_loop filters labeled_tables empty_assembly = Ok acc
       /\ dataset acc = ds
       /\ skipped_table_hashes acc
          = map lt_table_hash
              (filter (fun tbl => passes_labels filters tbl && negb (reconstructed tbl))
                 labeled_tables).
Proof.
  unfold create_dataset. intros H. inv_bind H. apply Ok_inj in H. subst ds.
  destruct (create_dataset_loop_accounting _ _ _ _ Ha) as [Hd Hs].
  split; [exact Hd|]. exists a. auto.
Qed.

Lemma create_dataset_accounting_witness :
  exists ds,
    create_dataset [labelled "t0" overflowing_soup; labelled "t1" mapped_soup] [] = Ok ds
    /\ map _table_hash ds = ["t1"].
Proof.
  eexists. split; [vm_compute; reflexivity|].
  refine (proj1 (create_dataset_accounting
                   [labelled "t0" overflowing_soup; labelled "t1" mapped_soup] [] _ _)).
  vm_compute. reflexivity.
Defined.
(** ** The rows of a record *)

Lemma dict_get_dict_set {V : Type} (d : dict V) (k : string) (v : V) (k0 : string) :
  dict_get (dict_set d k v) k0 = if String.eqb k k0 then Some v else dict_get d k0.
Proof.
  induction d as [|[k' v'] r IH]; cbn [dict_set dict_get].
  - reflexivity.
  - destruct (String.eqb_spec k' k) as [->|Hne]; cbn [dict_get].
    + destruct (String.eqb k k0); reflexivity.
    + rewrite IH. destruct (String.eqb_spec k' k0) as [->|Hne0]; [|reflexivity].
      destruct (String.eqb_spec k k0) as [->|_]; congruence.
Qed.

Lemma cite_id_map_from (key : string) (bib_hashes : list (option string)) :
  forall d : dict string,
    dict_get (fold_left (fun d b =>
                           match b with
                           | Some bib_ref => dict_set d (take 7 bib_ref) bib_ref
                           | None => d
                           end) bib_hashes d) key
    = match last_with_prefix key bib_hashes with
      | Some bib_ref => Some bib_ref
      | None => dict_get d key
      end.
Proof.
  induction bib_hashes as [|b rest IH]; intros d; cbn [fold_left last_with_prefix].
  - reflexivity.
  - rewrite IH. destruct (last_with_prefix key rest); [reflexivity|].
    destruct b as [bib_ref|]; [|reflexivity].
    rewrite dict_get_dict_set. destruct (String.eqb (take 7 bib_ref) key); reflexivity.
Qed.

Lemma last_with_prefix_In (key : string) (bib_hashes : list (option string))
    (bib_ref : string) :
  last_with_prefix key bib_hashes = Some bib_ref ->
  In (Some bib_ref) bib_hashes /\ take 7 bib_ref = key.
Proof.
  induction bib_hashes as [|b rest IH]; cbn [last_with_prefix]; [discriminate|].
  destruct (last_with_prefix key rest) as [h|].
  - intros H. injection H as ->. destruct (IH eq_refl). split; [right|]; assumption.
  - destruct b as [h|]; [|discriminate].
    destruct (String.eqb_spec (take 7 h) key) as [E|]; [|discriminate].
    intros H. injection H as ->. split; [left; reflexivity | exact E].
Qed.

(** X10: the map of known keys of [get_table_row_bib_map] sends a key to the
    last hash of the list that starts with it: hashes that are missing are
    passed over, and of two hashes with the same first seven characters the
    later one wins. *)
Theorem cite_id_map_last_wins (bib_hashes : list (option string)) (key : string) :
  dict_get (cite_id_map bib_hashes) key = last_with_prefix key bib_hashes
  /\ forall bib_ref,
       dict_get (cite_id_map bib_hashes) key = Some bib_ref ->
       In (Some bib_ref) bib_hashes /\ take 7 bib_ref = key.
Proof.
  assert (H : dict_get (cite_id_map bib_hashes) key = last_with_prefix key bib_hashes).
  { unfold cite_id_map. rewrite cite_id_map_from.
    destruct (last_with_prefix key bib_hashes); reflexivity. }
  split; [exact H|]. intros bib_ref Hg. rewrite H in Hg.
  apply (last_with_prefix_In _ _ _ Hg).
Qed.

Lemma marker_rows_In (cells : list string) :
  forall i k,
    In k (marker_rows i cells) ->
    i <= k < i + List.length cells
    /\ exists cell_val, nth_error cells (k - i) = Some cell_val /\ has_cite cell_val = true.
Proof.
  induction cells as [|cell_val rest IH]; cbn [marker_rows]; intros i k H; [destruct H|].
  assert (Hrest : In k (marker_rows (S i) rest) ->
                  i <= k < i + List.length (cell_val :: rest)
                  /\ exists v, nth_error (cell_val :: rest) (k - i) = Some v
                               /\ has_cite v = true).
  { intros Hin. destruct (IH _ _ Hin) as (Hle & v & Hv & Hc). cbn [List.length].
    split; [lia|]. exists v. replace (k - i) with (S (k - S i)) by lia. auto. }
  destruct (has_cite cell_val) eqn:Hc; [|exact (Hrest H)].
  destruct H as [<- | H]; [|exact (Hrest H)].
  cbn [List.length]. split; [lia|]. exists cell_val. rewrite Nat.sub_diag. auto.
Qed.

Lemma marker_rows_NoDup (cells : list string) : forall i, NoDup (marker_rows i cells).
Proof.
  induction cells as [|cell_val rest IH]; cbn [marker_rows]; intros i; [constructor|].
  destruct (has_cite cell_val); [|apply IH].
  constructor; [|apply IH]. intros Hin. apply marker_rows_In in Hin. lia.
Qed.

Lemma NoDup_snoc {A : Type} (l : list A) (x : A) :
  NoDup l -> ~ In x l -> NoDup (l ++ [x]).
Proof.
  induction 1 as [|y l Hy Hl IH]; cbn [app]; intros Hx.
  - constructor; [intros []|constructor].
  - constructor.
    + intros Hin. apply in_app_or in Hin. destruct Hin as [Hin | [-> | []]].
      * exact (Hy Hin).
      * apply Hx. left. reflexivity.
    + apply IH. intros Hin. apply Hx. right. exact Hin.
Qed.

(** The rows of the entries [get_table_row_bib_map] returns. *)
Lemma spec_row_bib_map_rows (ids : dict string) (paper_id : string) (cells : list string) :
  forallb (resolvable ids) cells = true ->
  Forall (fun r => row r < List.length cells) (spec_row_bib_map ids paper_id cells)
  /\ NoDup (map row (spec_row_bib_map ids paper_id cells))
  /\ List.length (filter is_ours (spec_row_bib_map ids paper_id cells)) <= 1.
Proof.
  intros Hres.
  assert (Hrows : map row (spec_row_bib_map ids paper_id cells)
                  = marker_rows 0 cells
                    ++ match last_self_candidate 0 cells with
                       | Some j => [j]
                       | None => []
                       end).
  { unfold spec_row_bib_map. rewrite map_app, ref_entries_rows by exact Hres.
    destruct (last_self_candidate 0 cells); reflexivity. }
  assert (Hself : forall j, last_self_candidate 0 cells = Some j ->
                            j < List.length cells /\ ~ In j (marker_rows 0 cells)).
  { intros j Hj. destruct (last_self_candidate_spec _ _ _ Hj) as (_ & (v & Hv & Hc) & _).
    split.
    - rewrite Nat.sub_0_r in Hv. apply nth_error_Some. congruence.
    - intros Hin. apply marker_rows_In in Hin. destruct Hin as (_ & w & Hw & Hcw).
      rewrite Hv in Hw. injection Hw as <-. unfold is_self_candidate in Hc.
      rewrite Hcw in Hc. discriminate. }
  split; [|split].
  - apply Forall_forall. intros r Hin. apply (in_map row) in Hin. rewrite Hrows in Hin.
    apply in_app_or in Hin. destruct Hin as [Hin | Hin].
    + apply marker_rows_In in Hin. lia.
    + destruct (last_self_candidate 0 cells) as [j|]; [|destruct Hin].
      destruct Hin as [<- | []]. apply (Hself j eq_refl).
  - rewrite Hrows. destruct (last_self_candidate 0 cells) as [j|].
    + apply NoDup_snoc; [apply marker_rows_NoDup | apply (Hself j eq_refl)].
    + rewrite app_nil_r. apply marker_rows_NoDup.
  - unfold spec_row_bib_map. rewrite filter_app, ref_entries_are_refs. cbn [app].
    destruct (last_self_candidate 0 cells); simpl; lia.
Qed.

Lemma with_paper_row (input_papers : dict paper_info) (rows : list bib_row) :
  map row (map (with_paper input_papers) rows) = map row rows
  /\ filter is_ours (map (with_paper input_papers) rows)
     = map (with_paper input_papers) (filter is_ours rows).
Proof.
  induction rows as [|r rest [IH1 IH2]]; [split; reflexivity|]. cbn [map filter].
  assert (Hr : row (with_paper input_papers r) = row r
               /\ is_ours (with_paper input_papers r) = is_ours r).
  { unfold with_paper, is_ours.
    destruct (dict_get input_papers (bib_hash_or_arxiv_id r)); split; reflexivity. }
  destruct Hr as [Hr1 Hr2]. rewrite Hr1, Hr2, IH1, IH2. split; [reflexivity|].
  destruct (is_ours r); reflexivity.
Qed.

Lemma create_dataset_loop_emitted filters tables :
  forall acc acc',
    create_dataset_loop filters tables acc = Ok acc' ->
    forall s, In s (dataset acc') ->
              In s (dataset acc) \/ exists tbl, In tbl tables /\ emitted tbl s.
Proof.
  induction tables as [|tbl rest IH]; cbn [create_dataset_loop]; intros acc acc' H s Hin.
  - apply Ok_inj in H. subst acc'. left. exact Hin.
  - inv_bind H. destruct (IH _ _ H s Hin) as [Hs | (t & Ht & He)].
    + destruct (create_dataset_step_cases _ _ _ _ Ha)
        as [(_ & Hd & _) | [(_ & _ & Hd & _) | (_ & _ & _ & s' & Hd & He)]];
        rewrite Hd in Hs; [left; exact Hs | left; exact Hs |].
      apply in_app_or in Hs. destruct Hs as [Hs | [<- | []]]; [left; exact Hs|].
      right. exists tbl. split; [left; reflexivity | exact He].
    + right. exists t. split; [right; exact Ht | exact He].
Qed.

(** A record of the data set, from the table it was made of. *)
Lemma emitted_shape (tbl : labeled_table) (s : sample) :
  emitted tbl s ->
  exists refs d n,
    table_dict (table_json s) = ("References", refs) :: d
    /\ frame_rect n (table_dict (table_json s))
    /\ forallb (resolvable (cite_id_map (bib_hash s))) refs = true
    /\ row_bib_map s
       = match lt_input_papers tbl with
         | Some input_papers =>
             map (with_paper input_papers)
               (spec_row_bib_map (cite_id_map (bib_hash s)) (paper_id s) refs)
         | None => spec_row_bib_map (cite_id_map (bib_hash s)) (paper_id s) refs
         end.
Proof.
  intros (Hs & _ & _ & _ & _ & rbm & Hm & Hrows).
  pose proof (soup_to_json_cases (lt_soup tbl)) as Hc. rewrite Hs in Hc.
  destruct Hc as [Hc | (refs & d & n & Hd & Hr & _)].
  - rewrite Hc in Hm. discriminate.
  - exists refs, d, n. split; [exact Hd|]. split; [exact Hr|].
    rewrite Hd in Hm, Hr.
    destruct (get_table_row_bib_map_cases n "References" refs d (bib_hash s) (paper_id s) Hr)
      as [[Hres Hok] | [_ Hko]]; [|congruence].
    split; [exact Hres|]. rewrite Hok in Hm. apply Ok_inj in Hm. subst rbm. exact Hrows.
Qed.

(** X11: every record [create_dataset] returns holds the table that
    [soup_to_json] makes of its markup, with "References" as first column,
    and a row map whose entries point to rows of that table, no two of them
    to the same row, at most one of them a self entry. *)
Theorem create_dataset_sample (labeled_tables : list labeled_table)
    (filters : list string) (ds : list sample) (s : sample) :
  create_dataset labeled_tables filters = Ok ds -> In s ds ->
  soup_to_json (table_html s) = Ok (table_json s)
  /\ bib_hash s = map sha (find_all_cit (table_html s))
  /\ exists refs d,
       table_dict (table_json s) = ("References", refs) :: d
       /\ Forall (fun r => row r < List.length refs) (row_bib_map s)
       /\ NoDup (map row (row_bib_map s))
       /\ List.length (filter is_ours (row_bib_map s)) <= 1.
Proof.
  unfold create_dataset. intros H Hin. inv_bind H. apply Ok_inj in H. subst ds.
  destruct (create_dataset_loop_emitted _ _ _ _ Ha s Hin) as [[] | (tbl & _ & He)].
  destruct (emitted_shape _ _ He) as (refs & d & n & Hd & _ & Hres & Hrows).
  destruct He as (Hs & Hh & _ & _ & Hb & _).
  rewrite Hh. split; [exact Hs|]. split; [exact Hb|].
  exists refs, d. split; [exact Hd|].
  destruct (spec_row_bib_map_rows (cite_id_map (bib_hash s)) (paper_id s) refs Hres)
    as (Hlt & Hnd & Hours).
  rewrite Hrows. destruct (lt_input_papers tbl) as [input_papers|]; [|auto].
  destruct (with_paper_row input_papers
              (spec_row_bib_map (cite_id_map (bib_hash s)) (paper_id s) refs)) as [Hr Hf].
  split; [|split].
  - apply Forall_forall. intros r Hr'. apply (in_map row) in Hr'. rewrite Hr in Hr'.
    apply in_map_iff in Hr'. destruct Hr' as (r0 & <- & Hr0).
    rewrite Forall_forall in Hlt. apply (Hlt r0 Hr0).
  - rewrite Hr. exact Hnd.
  - rewrite Hf, length_map. exact Hours.
Qed.

Lemma create_dataset_sample_witness :
  exists s,
    create_dataset [labelled "t1" mapped_soup] [] = Ok [s]
    /\ soup_to_json (table_html s) = Ok (table_json s)
    /\ NoDup (map row (row_bib_map s)).
Proof.
  eexists. split; [vm_compute; reflexivity|].
  match goal with
  | |- context [table_json ?s] =>
      destruct (create_dataset_sample [labelled "t1" mapped_soup] [] [s] s)
        as (H1 & _ & refs & d & _ & _ & H2 & _)
  end.
  - vm_compute. reflexivity.
  - left. reflexivity.
  - split; [exact H1 | exact H2].
Defined.

Lemma ref_entries_In (ids : dict string) (cells : list string) :
  forall i r,
    In r (ref_entries ids i cells) ->
    i <= row r
    /\ exists cell_val key,
         nth_error cells (row r - i) = Some cell_val
         /\ cite_search cell_val = Some key
         /\ dict_get ids key = Some (bib_hash_or_arxiv_id r)
         /\ r = ref_entry (bib_hash_or_arxiv_id r) (row r).
Proof.
  induction cells as [|cell_val rest IH]; cbn [ref_entries]; intros i r H; [destruct H|].
  assert (Hrest : In r (ref_entries ids (S i) rest) ->
                  i <= row r
                  /\ exists v key,
                       nth_error (cell_val :: rest) (row r - i) = Some v
                       /\ cite_search v = Some key
                       /\ dict_get ids key = Some (bib_hash_or_arxiv_id r)
                       /\ r = ref_entry (bib_hash_or_arxiv_id r) (row r)).
  { intros Hin. destruct (IH _ _ Hin) as (Hle & v & key & Hv & Hrest).
    split; [lia|]. exists v, key. replace (row r - i) with (S (row r - S i)) by lia.
    auto. }
  destruct (cite_search cell_val) as [key|] eqn:Hk; [|exact (Hrest H)].
  destruct (dict_get ids key) as [bib_hash_match|] eqn:Hg; [|exact (Hrest H)].
  destruct H as [<- | H]; [|exact (Hrest H)].
  cbn [ref_entry row bib_hash_or_arxiv_id]. split; [lia|].
  exists cell_val, key. rewrite Nat.sub_diag. auto.
Qed.

(** The entries of the mapper, one by one. *)
Lemma spec_row_bib_map_In (ids : dict string) (paper_id : string) (cells : list string)
    (r : bib_row) :
  In r (spec_row_bib_map ids paper_id cells) ->
  exists cell_val,
    nth_error cells (row r) = Some cell_val
    /\ ((r = ref_entry (bib_hash_or_arxiv_id r) (row r)
         /\ exists key, cite_search cell_val = Some key
                        /\ dict_get ids key = Some (bib_hash_or_arxiv_id r))
        \/ (r = ours_entry paper_id (row r)
            /\ cite_search cell_val = None
            /\ contains "standard" (lower cell_val) = false)).
Proof.
  unfold spec_row_bib_map. intros H. apply in_app_or in H. destruct H as [H | H].
  - destruct (ref_entries_In _ _ _ _ H) as (_ & v & key & Hv & Hk & Hg & Hr).
    rewrite Nat.sub_0_r in Hv. exists v. split; [exact Hv|]. left. eauto.
  - destruct (last_self_candidate 0 cells) as [j|] eqn:Hj; [|destruct H].
    destruct H as [<- | []]. cbn [ours_entry row].
    destruct (last_self_candidate_spec _ _ _ Hj) as (_ & (v & Hv & Hc) & _).
    rewrite Nat.sub_0_r in Hv. exists v. split; [exact Hv|]. right.
    unfold is_self_candidate in Hc. rewrite has_cite_search in Hc.
    apply andb_true_iff in Hc. destruct Hc as [Hc1 Hc2]. apply negb_true_iff in Hc2.
    split; [reflexivity|]. split; [|exact Hc2].
    destruct (cite_search v); [discriminate | reflexivity].
Qed.

Lemma create_dataset_emitted (labeled_tables : list labeled_table) (filters : list string)
    (ds : list sample) (s : sample) :
  create_dataset labeled_tables filters = Ok ds -> In s ds ->
  exists tbl, In tbl labeled_tables /\ emitted tbl s.
Proof.
  unfold create_dataset. intros H Hin. inv_bind H. apply Ok_inj in H. subst ds.
  destruct (create_dataset_loop_emitted _ _ _ _ Ha s Hin) as [[] | H]. exact H.
Qed.

(** X12: in a record of [create_dataset], an entry of type "ref" stands for
    a row whose reference cell holds a marker, and its id is the last hash
    among the citations of the table that starts with the key of the marker;
    an entry of type "ours" stands for a row whose reference cell holds no
    marker and no "standard", and its id is the id of the paper. *)
Theorem create_dataset_row_entries (labeled_tables : list labeled_table)
    (filters : list string) (ds : list sample) (s : sample) (r : bib_row) :
  create_dataset labeled_tables filters = Ok ds -> In s ds -> In r (row_bib_map s) ->
  exists refs d cell_val,
    table_dict (table_json s) = ("References", refs) :: d
    /\ nth_error refs (row r) = Some cell_val
    /\ ((type r = "ref"
         /\ exists key, cite_search cell_val = Some key
                        /\ last_with_prefix key (bib_hash s)
                           = Some (bib_hash_or_arxiv_id r))
        \/ (type r = "ours"
            /\ bib_hash_or_arxiv_id r = paper_id s
            /\ cite_search cell_val = None
            /\ contains "standard" (lower cell_val) = false)).
Proof.
  intros H Hin Hr. destruct (create_dataset_emitted _ _ _ _ H Hin) as (tbl & _ & He).
  destruct (emitted_shape _ _ He) as (refs & d & n & Hd & _ & _ & Hrows).
  exists refs, d.
  assert (H0 : exists r0,
             In r0 (spec_row_bib_map (cite_id_map (bib_hash s)) (paper_id s) refs)
             /\ row r = row r0 /\ type r = type r0
             /\ bib_hash_or_arxiv_id r = bib_hash_or_arxiv_id r0).
  { rewrite Hrows in Hr. destruct (lt_input_papers tbl) as [input_papers|].
    - apply in_map_iff in Hr. destruct Hr as (r0 & <- & Hr0). exists r0.
      split; [exact Hr0|]. unfold with_paper.
      destruct (dict_get input_papers (bib_hash_or_arxiv_id r0)); auto.
    - exists r. auto. }
  destruct H0 as (r0 & Hr0 & -> & -> & ->).
  destruct (spec_row_bib_map_In _ _ _ _ Hr0)
    as (v & Hv & [(Hre & key & Hk & Hg) | (Hou & Hk & Hst)]);
    exists v; (split; [exact Hd|]); (split; [exact Hv|]).
  - left. split; [rewrite Hre; reflexivity|]. exists key. split; [exact Hk|].
    unfold cite_id_map in Hg. rewrite cite_id_map_from in Hg.
    destruct (last_with_prefix key (bib_hash s)); [exact Hg | discriminate].
  - right. split; [rewrite Hou; reflexivity|]. split; [rewrite Hou; reflexivity|]. auto.
Qed.

Lemma create_dataset_row_entries_witness :
  exists s r refs d cell_val,
    create_dataset [labelled "t1" mapped_soup] [] = Ok [s]
    /\ nth_error (row_bib_map s) 1 = Some r
    /\ table_dict (table_json s) = ("References", refs) :: d
    /\ nth_error refs (row r) = Some cell_val.
Proof.
  eexists. eexists.
  match goal with
  | |- exists refs d cell_val, ?C = Ok [?s0] /\ nth_error _ _ = Some ?r0 /\ _ =>
      assert (Hc : C = Ok [s0]) by (vm_compute; reflexivity);
      assert (Hr : nth_error (row_bib_map s0) 1 = Some r0) by (vm_compute; reflexivity);
      destruct (create_dataset_row_entries [labelled "t1" mapped_soup] [] [s0] s0 r0 Hc
                  (or_introl eq_refl) (nth_error_In _ _ Hr))
        as (refs & d & cell_val & Hd & Hv & _)
  end.
  exists refs, d, cell_val. auto.
Defined.

Lemma spec_row_bib_map_fresh (ids : dict string) (paper_id : string) (cells : list string)
    (r : bib_row) :
  In r (spec_row_bib_map ids paper_id cells) ->
  corpus_id r = (-1)%Z /\ title r = None /\ abstract r = None.
Proof.
  intros H. destruct (spec_row_bib_map_In _ _ _ _ H) as (_ & _ & [[-> _] | [-> _]]); auto.
Qed.

(** X13: in a record of [create_dataset], an entry whose id is a key of
    [input_papers] of the table carries the corpus id, the title and the
    abstract listed there; every other entry, and every entry of a table
    without [input_papers], keeps the corpus id -1 and has no title and no
    abstract. *)
Theorem create_dataset_paper_information (labeled_tables : list labeled_table)
    (filters : list string) (ds : list sample) (s : sample) :
  create_dataset labeled_tables filters = Ok ds -> In s ds ->
  exists tbl,
    In tbl labeled_tables
    /\ _table_hash s = lt_table_hash tbl
    /\ table_html s = lt_soup tbl
    /\ forall r, In r (row_bib_map s) ->
         match lt_input_papers tbl with
         | Some input_papers =>
             match dict_get input_papers (bib_hash_or_arxiv_id r) with
             | Some info =>
                 corpus_id r = pi_corpus_id info
                 /\ title r = Some (pi_title info)
                 /\ abstract r = Some (pi_abstract info)
             | None => corpus_id r = (-1)%Z /\ title r = None /\ abstract r = None
             end
         | None => corpus_id r = (-1)%Z /\ title r = None /\ abstract r = None
         end.
Proof.
  intros H Hin. destruct (create_dataset_emitted _ _ _ _ H Hin) as (tbl & Ht & He).
  exists tbl. split; [exact Ht|].
  destruct (emitted_shape _ _ He) as (refs & d & n & _ & _ & _ & Hrows).
  destruct He as (_ & Hh & Hhash & _).
  split; [exact Hhash|]. split; [exact Hh|].
  intros r Hr. rewrite Hrows in Hr. destruct (lt_input_papers tbl) as [input_papers|].
  - apply in_map_iff in Hr. destruct Hr as (r0 & <- & Hr0).
    apply spec_row_bib_map_fresh in Hr0. unfold with_paper.
    destruct (dict_get input_papers (bib_hash_or_arxiv_id r0)) as [info|] eqn:Hg.
    + cbn [bib_hash_or_arxiv_id corpus_id title abstract]. rewrite Hg. auto.
    + rewrite Hg. exact Hr0.
  - apply (spec_row_bib_map_fresh _ _ _ _ Hr).
Qed.

Lemma create_dataset_paper_information_witness :
  exists s,
    create_dataset [with_papers "t1" mapped_soup] [] = Ok [s]
    /\ map corpus_id (row_bib_map s) = [42%Z; (-1)%Z]
    /\ exists tbl,
         In tbl [with_papers "t1" mapped_soup]
         /\ _table_hash s = lt_table_hash tbl
         /\ table_html s = lt_soup tbl
         /\ forall r, In r (row_bib_map s) ->
              match lt_input_papers tbl with
              | Some input_papers =>
                  match dict_get input_papers (bib_hash_or_arxiv_id r) with
                  | Some info =>
                      corpus_id r = pi_corpus_id info
                      /\ title r = Some (pi_title info)
                      /\ abstract r = Some (pi_abstract info)
                  | None => corpus_id r = (-1)%Z /\ title r = None /\ abstract r = None
                  end
              | None => corpus_id r = (-1)%Z /\ title r = None /\ abstract r = None
              end.
Proof.
  eexists. split; [vm_compute; reflexivity|]. split; [vm_compute; reflexivity|].
  apply (create_dataset_paper_information [with_papers "t1" mapped_soup] []
           _ _ eq_refl (or_introl eq_refl)).
Defined.
(** ** The quality filter pipeline: duplicates, order, exceptions and shape *)

Ltac skipped H := left; apply Ok_inj in H; injection H as <- <-; auto.

Lemma filter_table_seen filters ids seen tbl r seen' :
  filter_table filters ids seen tbl = Ok (r, seen') ->
  (r = None /\ seen' = seen)
  \/ exists kept,
       r = Some kept
       /\ untouched kept = untouched tbl
       /\ if mem "no_dup" filters
          then mem (signature kept) seen = false /\ seen' = set_add (signature kept) seen
          else seen' = seen.
Proof.
  unfold filter_table. intros H.
  destruct (mem "no_formula" filters && _); [skipped H|].
  inv_bind H. destruct a; [skipped H|].
  inv_bind H. destruct a; [skipped H|].
  destruct (mem "no_no_cite" filters && _); [skipped H|].
  destruct (mem "max_one_no_cite" filters && _); [skipped H|].
  destruct (mem "no_merged_headers" filters && _); [skipped H|].
  inv_bind H. rename a into references.
  destruct (forallb _ references); [skipped H|].
  destruct (mem "no_missing_titles" filters && _); [skipped H|].
  inv_bind H. destruct a; [skipped H|].
  inv_bind H. rename a into rows.
  destruct (mem "more_than_two_rows" filters && _); [skipped H|].
  destruct (mem "more_than_two_uniq_rows" filters && _); [skipped H|].
  inv_bind H. rename a into remove_cols.
  match type of H with
  | context [?n <? ?m] => destruct (n <? m); [skipped H|]
  end.
  destruct (mem "no_dup" filters).
  - match type of H with
    | context [mem ?x seen] => destruct (mem x seen) eqn:Hseen; [skipped H|]
    end.
    right. apply Ok_inj in H. injection H as <- <-. eexists. split; [reflexivity|].
    split; [reflexivity|]. unfold signature. cbn [table_json table_dict]. auto.
  - right. apply Ok_inj in H. injection H as <- <-. eexists. split; [reflexivity|].
    split; [reflexivity|]. reflexivity.
Qed.

Lemma set_add_In (x : string) (s : list string) (y : string) :
  In y (set_add x s) <-> y = x \/ In y s.
Proof.
  unfold set_add. destruct (mem x s) eqn:Hm.
  - apply mem_In in Hm. split; [auto|]. intros [-> | H]; assumption.
  - rewrite in_app_iff. cbn [In]. intuition congruence.
Qed.

Lemma filter_tables_seen filters ids tables :
  forall seen out,
    filter_tables filters ids seen tables = Ok out ->
    Subsequence (map untouched out) (map untouched tables)
    /\ (mem "no_dup" filters = true ->
        NoDup (map signature out)
        /\ forall kept, In kept out -> ~ In (signature kept) seen).
Proof.
  induction tables as [|tbl rest IH]; cbn [filter_tables]; intros seen out H.
  - apply Ok_inj in H. subst out. split; [constructor|]. intros _.
    split; [constructor | intros kept []].
  - inv_bind H. destruct a as [r seen1]. cbn [fst snd] in H. inv_bind H.
    rename a into out'. destruct (IH _ _ Ha0) as [IHs IHd].
    destruct (filter_table_seen _ _ _ _ _ _ Ha) as [[-> ->] | (kept & -> & Hu & Hseen)];
      apply Ok_inj in H; subst out; cbn [map].
    + split; [constructor; exact IHs | exact IHd].
    + split; [rewrite Hu; constructor; exact IHs|].
      intros Hnd. rewrite Hnd in Hseen. destruct Hseen as [Hnew ->].
      destruct (IHd Hnd) as [IHn IHk]. split.
      * constructor; [|exact IHn]. intros Hin. apply in_map_iff in Hin.
        destruct Hin as (k & Hk & Hin). apply (IHk k Hin). apply set_add_In.
        left. exact Hk.
      * intros k [<- | Hin].
        -- intros Hin. apply mem_In in Hin. congruence.
        -- intros Hs. apply (IHk k Hin). apply set_add_In. right. exact Hs.
Qed.

(** X14: under [no_dup] no two records of the output of the pipeline have
    the same signature, the text of the table without its reference column
    and with every marker replaced. *)
Theorem no_dup_signatures_distinct (ids : list Z) (tables : list sample)
    (filters : option (list string)) (out : list sample) :
  mem "no_dup" (filters_in_force filters) = true ->
  get_high_quality_tables ids tables filters = Ok out ->
  NoDup (map signature out).
Proof.
  unfold get_high_quality_tables. intros Hnd H.
  destruct (filter_tables_seen _ _ _ _ _ H) as [_ Hd]. apply (Hd Hnd).
Qed.

Lemma no_dup_signatures_distinct_witness :
  get_high_quality_tables [] [years_record; years_record] None
  = Ok [kept_record years_record years_table_kept (row_bib_map years_record)]
  /\ NoDup (map signature
              [kept_record years_record years_table_kept (row_bib_map years_record)]).
Proof.
  split; [vm_compute; reflexivity|].
  apply (no_dup_signatures_distinct [] [years_record; years_record] None).
  - reflexivity.
  - vm_compute. reflexivity.
Defined.

(** X15: the pipeline keeps the records in the order of its input, each at
    most once, and copies every field but the table and the row map. *)
Theorem pipeline_keeps_order (ids : list Z) (tables : list sample)
    (filters : option (list string)) (out : list sample) :
  get_high_quality_tables ids tables filters = Ok out ->
  Subsequence (map untouched out) (map untouched tables).
Proof.
  unfold get_high_quality_tables. intros H.
  destruct (filter_tables_seen _ _ _ _ _ H) as [Hs _]. exact Hs.
Qed.

Lemma pipeline_keeps_order_witness :
  Subsequence
    (map untouched [kept_record years_record years_table_kept (row_bib_map years_record)])
    (map untouched [years_record; years_record]).
Proof.
  apply (pipeline_keeps_order [] [years_record; years_record] None).
  vm_compute. reflexivity.
Defined.

Lemma item_exn {V : Type} (field : option V) (e : exn) :
  item field = Raise e -> e = KeyError.
Proof. destruct field; cbn [item]; congruence. Qed.

Lemma nulls_exn (get : bib_row -> option (option string)) (rows : list bib_row) (e : exn) :
  nulls get rows = Raise e -> e = KeyError.
Proof.
  induction rows as [|r rest IH]; cbn [nulls]; [discriminate|].
  destruct (item (get r)) as [v|e'] eqn:Hi; cbn [bind].
  - destruct (nulls get rest) as [l|e'']; cbn [bind]; [discriminate|].
    intros H. injection H as <-. apply IH. reflexivity.
  - intros H. injection H as <-. apply (item_exn _ _ Hi).
Qed.

Lemma edit_row_exn filters ids r acc e :
  edit_row filters ids r acc = Raise e -> e = KeyError.
Proof.
  unfold edit_row. intros H.
  destruct (mem "rows_no_missing_titles" filters).
  - destruct (item (title r)) as [t|e'] eqn:Ht; cbn [bind] in H;
      [|injection H as <-; apply (item_exn _ _ Ht)].
    destruct (mem "rows_no_missing_abstracts" filters).
    + destruct (item (abstract r)) as [a|e'] eqn:Hab; cbn [bind] in H;
        [|injection H as <-; apply (item_exn _ _ Hab)].
      destruct (_ || _ || _); discriminate.
    + cbn [bind] in H. destruct (_ || _ || _); discriminate.
  - cbn [bind] in H. destruct (mem "rows_no_missing_abstracts" filters).
    + destruct (item (abstract r)) as [a|e'] eqn:Hab; cbn [bind] in H;
        [|injection H as <-; apply (item_exn _ _ Hab)].
      destruct (_ || _ || _); discriminate.
    + cbn [bind] in H. destruct (_ || _ || _); discriminate.
Qed.

Lemma edit_rows_exn filters ids rows :
  forall acc e, edit_rows filters ids rows acc = Raise e -> e = KeyError.
Proof.
  induction rows as [|r rest IH]; cbn [edit_rows]; intros acc e H; [discriminate|].
  destruct (edit_row filters ids r acc) as [acc'|e'] eqn:Hr; cbn [bind] in H.
  - apply (IH _ _ H).
  - injection H as <-. apply (edit_row_exn _ _ _ _ _ Hr).
Qed.

Lemma remove_cols_step_exn filters old_col col values acc e :
  remove_cols_step filters old_col col values acc = Raise e ->
  e = IndexError /\ values = [].
Proof.
  unfold remove_cols_step. intros H.
  destruct (mem "cols_no_ent_or_gen" filters || mem "cols_no_numeric" filters);
    [|discriminate].
  destruct values as [|first rest]; [cbn [SummarizeDataset.get_aspect_type bind] in H|].
  - injection H as <-. auto.
  - exfalso. rewrite get_aspect_type_cascade in H. discriminate.
Qed.

Lemma collect_remove_cols_exn filters old_col cols :
  forall acc e,
    collect_remove_cols filters old_col cols acc = Raise e ->
    e = IndexError /\ exists col, In (col, []) cols.
Proof.
  induction cols as [|[col values] rest IH]; cbn [collect_remove_cols]; intros acc e H;
    [discriminate|].
  destruct (remove_cols_step filters old_col col values acc) as [l|e'] eqn:Hs;
    cbn [bind] in H.
  - destruct (IH _ _ H) as [He [c Hc]]. split; [exact He|]. exists c. right. exact Hc.
  - injection H as <-. destruct (remove_cols_step_exn _ _ _ _ _ _ Hs) as [He ->].
    split; [exact He|]. exists col. left. reflexivity.
Qed.

Lemma dict_item_exn {V : Type} (d : dict V) (k : string) (e : exn) :
  dict_item d k = Raise e -> e = KeyError.
Proof. unfold dict_item. destruct (dict_get d k); congruence. Qed.

(** What [filter_table] can raise: a key that is missing, or the empty
    column that the aspect classifier indexes. *)
Lemma filter_table_exn filters ids seen tbl e :
  filter_table filters ids seen tbl = Raise e ->
  e = KeyError
  \/ (e = IndexError
      /\ (exists references,
            dict_get (table_dict (table_json tbl)) "References" = Some references
            /\ forallb (fun cell => String.eqb (strip cell) "-") references = false)
      /\ exists col, In (col, []) (table_dict (table_json tbl))).
Proof.
  unfold filter_table. intros H.
  destruct (mem "no_formula" filters && _); [discriminate|].
  match type of H with
  | bind ?m _ = _ => destruct m as [no_caption|e'] eqn:Hcap; cbn [bind] in H
  end.
  2:{ left. injection H as <-.
      destruct (mem "has_caption" filters).
      - destruct (item (caption tbl)) as [c|e''] eqn:Hi; cbn [bind] in Hcap.
        + destruct (String.eqb c "NO_CAPTION"); cbn [bind] in Hcap; discriminate.
        + injection Hcap as <-. apply (item_exn _ _ Hi).
      - cbn [bind] in Hcap. destruct (item (caption tbl)) as [c|e''] eqn:Hi;
          cbn [bind] in Hcap; [discriminate|].
        injection Hcap as <-. apply (item_exn _ _ Hi). }
  destruct no_caption; [discriminate|].
  match type of H with
  | bind ?m _ = _ => destruct m as [no_ref|e'] eqn:Href; cbn [bind] in H
  end.
  2:{ left. injection H as <-.
      destruct (mem "has_in_text_ref" filters); [|discriminate].
      destruct (item (in_text_ref tbl)) as [c|e''] eqn:Hi; cbn [bind] in Href;
        [discriminate|].
      injection Href as <-. apply (item_exn _ _ Hi). }
  destruct no_ref; [discriminate|].
  destruct (mem "no_no_cite" filters && _); [discriminate|].
  destruct (mem "max_one_no_cite" filters && _); [discriminate|].
  destruct (mem "no_merged_headers" filters && _); [discriminate|].
  destruct (dict_item (table_dict (table_json tbl)) "References") as [references|e']
    eqn:Hrefs; cbn [bind] in H;
    [|left; injection H as <-; apply (dict_item_exn _ _ _ Hrefs)].
  destruct (forallb _ references) eqn:Hdash; [discriminate|].
  destruct (mem "no_missing_titles" filters && _); [discriminate|].
  match type of H with
  | bind ?m _ = _ => destruct m as [no_abstracts|e'] eqn:Habs; cbn [bind] in H
  end.
  2:{ left. injection H as <-.
      destruct (mem "no_missing_abstracts" filters); [|discriminate].
      destruct (nulls abstract (row_bib_map tbl)) as [l|e''] eqn:Hn; cbn [bind] in Habs;
        [discriminate|].
      injection Habs as <-. apply (nulls_exn _ _ _ Hn). }
  destruct no_abstracts; [discriminate|].
  match type of H with
  | bind ?m _ = _ => destruct m as [rows|e'] eqn:Hrows; cbn [bind] in H
  end.
  2:{ left. injection H as <-. apply (edit_rows_exn _ _ _ _ _ Hrows). }
  destruct (mem "more_than_two_rows" filters && _); [discriminate|].
  destruct (mem "more_than_two_uniq_rows" filters && _); [discriminate|].
  match type of H with
  | bind ?m _ = _ => destruct m as [remove_cols|e'] eqn:Hcols; cbn [bind] in H
  end.
  2:{ right. injection H as <-.
      destruct (collect_remove_cols_exn _ _ _ _ _ Hcols) as [He Hcol].
      split; [exact He|]. split; [|exact Hcol].
      exists references. split; [|exact Hdash].
      unfold dict_item in Hrefs.
      destruct (dict_get (table_dict (table_json tbl)) "References");
        [congruence | discriminate]. }
  match type of H with
  | context [?n <? ?m] => destruct (n <? m); [discriminate|]
  end.
  destruct (mem "no_dup" filters); [|discriminate].
  match type of H with
  | context [mem ?x seen] => destruct (mem x seen); discriminate
  end.
Qed.

Lemma filter_table_exn_rect filters ids seen tbl e n :
  frame_rect n (table_dict (table_json tbl)) ->
  filter_table filters ids seen tbl = Raise e -> e = KeyError.
Proof.
  intros Hr H.
  destruct (filter_table_exn _ _ _ _ _ H)
    as [He | (_ & (references & Hg & Hdash) & col & Hcol)]; [exact He|].
  exfalso. unfold frame_rect in Hr. rewrite Forall_forall in Hr.
  apply dict_get_In in Hg. pose proof (Hr _ Hg) as H1. pose proof (Hr _ Hcol) as H2.
  cbn [snd List.length] in H1, H2. rewrite <- H2 in H1.
  destruct references; [discriminate Hdash | discriminate H1].
Qed.

Lemma filter_tables_exn filters ids tables :
  forall seen e,
    (forall tbl, In tbl tables -> exists n, frame_rect n (table_dict (table_json tbl))) ->
    filter_tables filters ids seen tables = Raise e -> e = KeyError.
Proof.
  induction tables as [|tbl rest IH]; cbn [filter_tables]; intros seen e Hr H;
    [discriminate|].
  destruct (filter_table filters ids seen tbl) as [[r seen1]|e'] eqn:Hf; cbn [bind] in H.
  - cbn [fst snd] in H.
    destruct (filter_tables filters ids seen1 rest) as [out|e'] eqn:Hrest;
      cbn [bind] in H; [destruct r; discriminate|].
    injection H as <-. apply (IH seen1 e'); [|exact Hrest].
    intros t Ht. apply Hr. right. exact Ht.
  - injection H as <-. destruct (Hr tbl (or_introl eq_refl)) as [n Hn].
    apply (filter_table_exn_rect _ _ _ _ _ _ Hn Hf).
Qed.

(** X16: on records whose tables have columns of one length each, the
    pipeline raises nothing but [KeyError], for a field that a test reads and
    a record does not hold: the classifier of aspects is never given an
    empty column, since a table without rows is dropped before. *)
Theorem pipeline_raises_KeyError (ids : list Z) (tables : list sample)
    (filters : option (list string)) (e : exn) :
  (forall tbl, In tbl tables -> exists n, frame_rect n (table_dict (table_json tbl))) ->
  get_high_quality_tables ids tables filters = Raise e -> e = KeyError.
Proof.
  unfold get_high_quality_tables. intros Hr H. apply (filter_tables_exn _ _ _ _ _ Hr H).
Qed.

Lemma pipeline_raises_KeyError_witness :
  get_high_quality_tables [] [uncaptioned_record] None = Raise KeyError
  /\ KeyError = KeyError.
Proof.
  split; [vm_compute; reflexivity|].
  apply (pipeline_raises_KeyError [] [uncaptioned_record] None KeyError).
  - intros tbl [<- | []]. exists 2. repeat constructor.
  - vm_compute. reflexivity.
Defined.

Lemma excise_from_length (remove_rows : list nat) (v1 : list string) :
  forall (v2 : list string) (row_i : nat),
    List.length v1 = List.length v2 ->
    List.length (excise_from row_i remove_rows v1)
    = List.length (excise_from row_i remove_rows v2).
Proof.
  induction v1 as [|x r1 IH]; intros [|y r2] row_i Hl; try discriminate; [reflexivity|].
  cbn [excise_from]. injection Hl as Hl.
  destruct (existsb (Nat.eqb row_i) remove_rows); cbn [List.length];
    rewrite (IH r2 (S row_i) Hl); reflexivity.
Qed.

Lemma build_new_table_dict_NoDup (remove_cols : list (option string))
    (remove_rows : list nat) (cols : dict (list string)) :
  forall acc, NoDup (keys acc) ->
              NoDup (keys (build_new_table_dict remove_cols remove_rows cols acc)).
Proof.
  induction cols as [|[col values] rest IH]; cbn [build_new_table_dict]; intros acc Hnd;
    [exact Hnd|].
  destruct (in_remove_cols col remove_cols && negb (String.eqb col "References"));
    apply IH; [exact Hnd|].
  apply keys_dict_set_NoDup. exact Hnd.
Qed.

(** X17: every table the pipeline returns has distinct column names, and
    columns of one length each when the table it was made of has: the rows
    that are removed are removed from every column. *)
Theorem pipeline_table_shape (ids : list Z) (tables : list sample)
    (filters : option (list string)) (out : list sample) (kept : sample) :
  get_high_quality_tables ids tables filters = Ok out -> In kept out ->
  NoDup (keys (table_dict (table_json kept)))
  /\ ((forall tbl, In tbl tables ->
                   exists n, frame_rect n (table_dict (table_json tbl))) ->
      exists n, frame_rect n (table_dict (table_json kept))).
Proof.
  intros H Hin.
  destruct (get_high_quality_tables_In _ _ _ _ _ H Hin)
    as (tbl & seen0 & seen1 & valid & Ht & Hf).
  destruct (filter_table_kept _ _ _ _ _ _ Hf)
    as (c & references & rows & remove_cols & _ & _ & Hg & _ & _ & _ & ->).
  cbn [kept_record table_json table_dict]. split.
  - apply build_new_table_dict_NoDup. constructor.
  - intros Hr. destruct (Hr tbl Ht) as [n Hn].
    exists (List.length (excise (remove_rows rows) references)).
    unfold frame_rect in *. rewrite Forall_forall in *. intros [col values] Hc.
    apply build_new_table_dict_In in Hc.
    destruct Hc as [[] | (v0 & Hv0 & _ & ->)]. cbn [snd]. unfold excise.
    apply excise_from_length. apply dict_get_In in Hg.
    pose proof (Hn _ Hv0) as H1. pose proof (Hn _ Hg) as H2. cbn [snd] in H1, H2.
    congruence.
Qed.

Lemma pipeline_table_shape_witness :
  NoDup (keys untitled_table_kept)
  /\ ((forall tbl, In tbl [untitled_record] ->
                   exists n, frame_rect n (table_dict (table_json tbl))) ->
      exists n, frame_rect n untitled_table_kept).
Proof.
  apply (pipeline_table_shape [] [untitled_record] (Some ["rows_no_missing_titles"])
           [kept_record untitled_record untitled_table_kept untitled_rows_kept]
           (kept_record untitled_record untitled_table_kept untitled_rows_kept)).
  - vm_compute. reflexivity.
  - left. reflexivity.
Defined.

Lemma build_new_table_dict_head (remove_cols : list (option string))
    (remove_rows : list nat) (k : string) (x : list string) (cols : dict (list string)) :
  forall acc,
    ~ In k (keys cols) ->
    exists d, build_new_table_dict remove_cols remove_rows cols ((k, x) :: acc)
              = (k, x) :: d.
Proof.
  induction cols as [|[col values] rest IH]; cbn [build_new_table_dict]; intros acc Hk.
  - eauto.
  - assert (Hrest : ~ In k (keys rest)) by (intros Hin; apply Hk; right; exact Hin).
    destruct (in_remove_cols col remove_cols && negb (String.eqb col "References"));
      [apply IH; exact Hrest|].
    cbn [dict_set]. destruct (String.eqb_spec k col) as [->|Hne].
    + exfalso. apply Hk. left. reflexivity.
    + apply IH. exact Hrest.
Qed.

(** X18: the two stages together.  On the records [create_dataset] returns,
    the pipeline raises nothing but [KeyError], and every table it returns
    has "References" as first column, distinct column names and columns of
    one length. *)
Theorem dataset_through_pipeline (labeled_tables : list labeled_table)
    (table_filters : list string) (ds : list sample) (ids : list Z)
    (filters : option (list string)) :
  create_dataset labeled_tables table_filters = Ok ds ->
  (forall e, get_high_quality_tables ids ds filters = Raise e -> e = KeyError)
  /\ forall out kept,
       get_high_quality_tables ids ds filters = Ok out -> In kept out ->
       exists refs d n,
         table_dict (table_json kept) = ("References", refs) :: d
         /\ frame_rect n (table_dict (table_json kept))
         /\ NoDup (keys (table_dict (table_json kept))).
Proof.
  intros Hds.
  assert (Hshape : forall s, In s ds ->
            exists refs d n,
              table_dict (table_json s) = ("References", refs) :: d
              /\ frame_rect n (table_dict (table_json s))
              /\ NoDup (keys (table_dict (table_json s)))).
  { intros s Hs. destruct (create_dataset_emitted _ _ _ _ Hds Hs) as (tbl & _ & He).
    destruct (emitted_shape _ _ He) as (refs & d & n & Hd & Hr & _).
    destruct He as (Hj & _). pose proof (soup_to_json_cases (lt_soup tbl)) as Hc.
    rewrite Hj in Hc.
    exists refs, d, n. split; [exact Hd|]. split; [exact Hr|].
    destruct Hc as [Hc | (refs' & d' & n' & _ & _ & Hnd & _)]; [congruence | exact Hnd]. }
  split.
  - intros e H. unfold get_high_quality_tables in H.
    apply (filter_tables_exn _ _ _ _ _) in H; [exact H|].
    intros s Hs. destruct (Hshape s Hs) as (_ & _ & n & _ & Hr & _). exists n. exact Hr.
  - intros out kept H Hin.
    destruct (get_high_quality_tables_In _ _ _ _ _ H Hin)
      as (tbl & seen0 & seen1 & valid & Ht & Hf).
    destruct (Hshape tbl Ht) as (refs & d & n & Hd & Hr & Hnd).
    destruct (filter_table_kept _ _ _ _ _ _ Hf)
      as (c & references & rows & remove_cols & _ & _ & Hg & _ & _ & _ & ->).
    cbn [kept_record table_json table_dict]. rewrite Hd in *.
    destruct (build_new_table_dict_head remove_cols (remove_rows rows) "References"
                (excise (remove_rows rows) refs) d []) as [d' Hd'].
    { cbn [keys map fst] in Hnd. apply NoDup_cons_iff in Hnd. apply Hnd. }
    assert (Hb : build_new_table_dict remove_cols (remove_rows rows)
                   (("References", refs) :: d) []
                 = ("References", excise (remove_rows rows) refs) :: d').
    { cbn [build_new_table_dict]. rewrite String.eqb_refl, andb_false_r.
      cbn [negb dict_set]. exact Hd'. }
    exists (excise (remove_rows rows) refs), d',
      (List.length (excise (remove_rows rows) refs)).
    split; [exact Hb|]. split.
    + unfold frame_rect in *. rewrite Forall_forall in *. intros [col values] Hc.
      apply build_new_table_dict_In in Hc.
      destruct Hc as [[] | (v0 & Hv0 & _ & ->)]. cbn [snd]. unfold excise.
      apply excise_from_length.
      pose proof (Hr _ Hv0) as H1. pose proof (Hr _ (or_introl eq_refl)) as H2.
      cbn [snd] in H1, H2. congruence.
    + apply build_new_table_dict_NoDup. constructor.
Qed.

Lemma dataset_through_pipeline_witness :
  exists ds,
    create_dataset [labelled "t1" mapped_soup] [] = Ok ds
    /\ (forall e, get_high_quality_tables [] ds None = Raise e -> e = KeyError)
    /\ forall out kept,
         get_high_quality_tables [] ds None = Ok out -> In kept out ->
         exists refs d n,
           table_dict (table_json kept) = ("References", refs) :: d
           /\ frame_rect n (table_dict (table_json kept))
           /\ NoDup (keys (table_dict (table_json kept))).
Proof.
  eexists. split; [vm_compute; reflexivity|].
  apply (dataset_through_pipeline [labelled "t1" mapped_soup] [] _ [] None).
  vm_compute. reflexivity.
Defined.
(** ** The reference column and the cells of a frame *)
Lemma select_column_spec (cols : dataframe) :
  forall (m : Z) (c : string * list string),
    (select_column cols m c = c
     /\ Forall (fun col => (Z.of_nat (num_cites_in (snd col)) <= m)%Z) cols)
    \/ exists before after,
         cols = before ++ select_column cols m c :: after
         /\ (m < Z.of_nat (num_cites_in (snd (select_column cols m c))))%Z
         /\ Forall (fun col => num_cites_in (snd col)
                               < num_cites_in (snd (select_column cols m c))) before
         /\ Forall (fun col => num_cites_in (snd col)
                               <= num_cites_in (snd (select_column cols m c))) after.
Proof.
  induction cols as [|col rest IH]; intros m c; cbn [select_column].
  - left. split; [reflexivity | constructor].
  - destruct (Z.ltb_spec m (Z.of_nat (num_cites_in (snd col)))) as [Hlt | Hge].
    + right. destruct (IH (Z.of_nat (num_cites_in (snd col))) col)
        as [[-> Hall] | (before & after & Hrest & Hm & Hb & Ha)].
      * exists [], rest. split; [reflexivity|]. split; [exact Hlt|].
        split; [constructor|]. apply (Forall_impl _ (P := fun c0 =>
          (Z.of_nat (num_cites_in (snd c0)) <= Z.of_nat (num_cites_in (snd col)))%Z));
          [intros a Ha; lia | exact Hall].
      * exists (col :: before), after. split; [cbn [app]; f_equal; exact Hrest|].
        split; [lia|]. split; [constructor; [lia | exact Hb] | exact Ha].
    + destruct (IH m c) as [[-> Hall] | (before & after & Hrest & Hm & Hb & Ha)].
      * left. split; [reflexivity|]. constructor; [exact Hge | exact Hall].
      * right. exists (col :: before), after. split; [cbn [app]; f_equal; exact Hrest|].
        split; [exact Hm|]. split; [constructor; [lia | exact Hb] | exact Ha].
Qed.

(** X19: the column [split_references_column] takes the citations from is
    the first column of the frame with the largest number of cells that hold
    a marker: every column before it has fewer such cells, no column after it
    has more. *)
Theorem select_column_first_max (first : string * list string) (rest : dataframe) :
  exists before after,
    first :: rest = before ++ select_column (first :: rest) (-1)%Z first :: after
    /\ Forall (fun col => num_cites_in (snd col)
                          < num_cites_in (snd (select_column (first :: rest) (-1)%Z first)))
         before
    /\ Forall (fun col => num_cites_in (snd col)
                          <= num_cites_in (snd (select_column (first :: rest) (-1)%Z first)))
         after.
Proof.
  destruct (select_column_spec (first :: rest) (-1)%Z first)
    as [[_ Hall] | (before & after & Hc & _ & Hb & Ha)].
  - apply Forall_cons_iff in Hall. destruct Hall as [H _]. lia.
  - exists before, after. auto.
Qed.

Lemma str_of_nat_inj (n m : nat) : str_of_nat n = str_of_nat m -> n = m.
Proof.
  unfold str_of_nat. intros H.
  assert (Hu : Nat.to_uint n = Nat.to_uint m).
  { apply (f_equal NilEmpty.uint_of_string) in H. rewrite !NilEmpty.usu in H.
    injection H as H. exact H. }
  apply (f_equal Nat.of_uint) in Hu. rewrite !DecimalNat.Unsigned.of_to in Hu. exact Hu.
Qed.

(** The number of cells without marker. *)
Lemma extract_references_nth (values : list string) :
  forall (no_cite_count i : nat) (cell_val : string),
    nth_error values i = Some cell_val ->
    nth_error (fst (extract_references values no_cite_count)) i
    = Some match cite_search cell_val with
           | Some key => cite_marker key
           | None =>
               "no_cite-"
               +++ str_of_nat (no_cite_count
                               + List.length (filter (fun v => negb (has_cite v))
                                                (firstn i values)))
           end.
Proof.
  induction values as [|v rest IH]; intros c i cell_val Hn; [destruct i; discriminate|].
  cbn [extract_references]. destruct i as [|i]; cbn [nth_error] in Hn.
  - injection Hn as <-. destruct (cite_search v); cbn [fst nth_error firstn filter];
      [reflexivity|]. cbn [List.length]. rewrite Nat.add_0_r. reflexivity.
  - cbn [firstn filter]. unfold has_cite at 1.
    destruct (cite_search v) as [key|]; cbn [fst nth_error negb].
    + apply IH, Hn.
    + rewrite (IH _ _ _ Hn). cbn [List.length]. rewrite Nat.add_succ_r. reflexivity.
Qed.

Lemma count_before_lt {A : Type} (f : A -> bool) (l : list A) :
  forall (i j : nat) (x : A),
    i < j -> nth_error l i = Some x -> f x = true ->
    List.length (filter f (firstn i l)) < List.length (filter f (firstn j l)).
Proof.
  induction l as [|y r IH]; intros i j x Hij Hn Hf; [destruct i; discriminate|].
  destruct j as [|j]; [lia|]. destruct i as [|i]; cbn [nth_error] in Hn.
  - injection Hn as ->. cbn [firstn filter List.length]. rewrite Hf. cbn [List.length]. lia.
  - cbn [firstn filter]. assert (H := IH i j x ltac:(lia) Hn Hf).
    destruct (f y); cbn [List.length]; lia.
Qed.

(** X20: the reference column that [split_references_column] builds has one
    entry for each cell of the source column: the marker of the cell, or, for
    a cell without marker, the id "no_cite-k" where k counts the cells
    without marker before it; so no two cells without marker get the same
    id. *)
Theorem extract_references_ids (values : list string) :
  List.length (fst (extract_references values 0)) = List.length values
  /\ (forall i cell_val,
        nth_error values i = Some cell_val ->
        nth_error (fst (extract_references values 0)) i
        = Some match cite_search cell_val with
               | Some key => cite_marker key
               | None =>
                   "no_cite-"
                   +++ str_of_nat (List.length (filter (fun v => negb (has_cite v))
                                                  (firstn i values)))
               end)
  /\ (forall i j cell_i cell_j,
        nth_error values i = Some cell_i -> nth_error values j = Some cell_j ->
        cite_search cell_i = None -> cite_search cell_j = None ->
        nth_error (fst (extract_references values 0)) i
        = nth_error (fst (extract_references values 0)) j ->
        i = j).
Proof.
  split; [apply (proj1 (extract_references_length values 0))|].
  split; [intros i cell_val Hn; apply (extract_references_nth values 0 i cell_val Hn)|].
  intros i j cell_i cell_j Hi Hj Hci Hcj Heq.
  rewrite (extract_references_nth values 0 i cell_i Hi) in Heq.
  rewrite (extract_references_nth values 0 j cell_j Hj) in Heq.
  rewrite Hci, Hcj in Heq. injection Heq as Heq.
  apply str_of_nat_inj in Heq. cbn [Nat.add] in Heq.
  assert (Hnc : forall cell, cite_search cell = None -> negb (has_cite cell) = true).
  { intros cell Hc. unfold has_cite. rewrite Hc. reflexivity. }
  destruct (Nat.lt_trichotomy i j) as [Hlt | [Heqij | Hgt]]; [|exact Heqij|].
  - pose proof (count_before_lt (fun v => negb (has_cite v)) values i j cell_i Hlt Hi
                  (Hnc _ Hci)). lia.
  - pose proof (count_before_lt (fun v => negb (has_cite v)) values j i cell_j Hgt Hj
                  (Hnc _ Hcj)). lia.
Qed.

Lemma rstrip_idempotent (s : string) : rstrip (rstrip s) = rstrip s.
Proof.
  induction s as [|c r IH]; cbn [rstrip]; [reflexivity|].
  destruct (is_space c && is_empty (rstrip r)) eqn:E; cbn [rstrip]; [reflexivity|].
  rewrite IH, E. reflexivity.
Qed.

Lemma lstrip_clean (s : string) : starts_clean (lstrip s) = true.
Proof.
  induction s as [|c r IH]; cbn [lstrip]; [reflexivity|].
  destruct (is_space c) eqn:E; [exact IH|]. cbn [starts_clean]. rewrite E. reflexivity.
Qed.

Lemma lstrip_of_clean (s : string) : starts_clean s = true -> lstrip s = s.
Proof.
  destruct s as [|c r]; cbn [starts_clean lstrip]; [reflexivity|].
  intros H. apply negb_true_iff in H. rewrite H. reflexivity.
Qed.

Lemma rstrip_clean (s : string) : starts_clean s = true -> starts_clean (rstrip s) = true.
Proof.
  destruct s as [|c r]; cbn [starts_clean rstrip]; [reflexivity|].
  intros H. apply negb_true_iff in H. rewrite H. cbn [andb starts_clean].
  rewrite H. reflexivity.
Qed.

Lemma strip_idempotent (s : string) : strip (strip s) = strip s.
Proof.
  unfold strip.
  rewrite (lstrip_of_clean (rstrip (lstrip s))) by (apply rstrip_clean, lstrip_clean).
  apply rstrip_idempotent.
Qed.

Lemma normalised_cell (x : string) :
  (if is_empty (strip x) then "-" else strip x) <> EmptyString
  /\ strip (if is_empty (strip x) then "-" else strip x)
     = (if is_empty (strip x) then "-" else strip x).
Proof.
  destruct (is_empty (strip x)) eqn:E.
  - split; [discriminate | reflexivity].
  - split; [|apply strip_idempotent].
    intros H. rewrite H in E. discriminate.
Qed.

Lemma strip_empty (s : string) : strip s = EmptyString -> lstrip s = EmptyString.
Proof.
  unfold strip. intros H. pose proof (lstrip_clean s) as Hc.
  destruct (lstrip s) as [|c r]; [reflexivity|].
  cbn [starts_clean] in Hc. apply negb_true_iff in Hc.
  cbn [rstrip] in H. rewrite Hc in H. discriminate.
Qed.

Lemma replace_nbsp_blank (s : string) :
  lstrip s = EmptyString -> replace nbsp " " s = s.
Proof.
  unfold replace, re_sub.
  induction s as [|c r IH]; cbn [lstrip re_sub_from]; [reflexivity|].
  destruct (is_space c) eqn:Hc; [|discriminate].
  intros Hr. rewrite (IH Hr).
  replace (lit nbsp (String c r)) with (@None nat); [reflexivity|].
  unfold lit, nbsp. cbn [startswith].
  replace (Ascii.eqb "194" c) with false; [reflexivity|].
  destruct c as [[] [] [] [] [] [] [] []]; try reflexivity; discriminate.
Qed.

(** X21: a cell that [process_cell] has normalised is never empty and
    neither starts nor ends with white space, stripping it again changes
    nothing; a cell of white space only becomes "-". *)
Theorem process_cell_normalised (cell : string) :
  process_cell cell <> EmptyString
  /\ strip (process_cell cell) = process_cell cell
  /\ (strip cell = EmptyString -> process_cell cell = "-").
Proof.
  split; [|split].
  - unfold process_cell. cbv zeta. apply normalised_cell.
  - unfold process_cell. cbv zeta. apply normalised_cell.
  - intros H. unfold process_cell. cbv zeta.
    rewrite (replace_nbsp_blank cell (strip_empty cell H)), H. reflexivity.
Qed.
